(** * Intelligent-Edu-Assistant: document ingestion and chat context

    A shallow embedding of the two edge functions of the repository,
    [supabase/functions/process-document/index.ts] (ingestion: download,
    text extraction, document update, chunking) and the chat function
    (conversation history and keyword relevance selection), together with
    the document insert performed by the upload component.

    JavaScript strings are sequences of UTF-16 code units; a code unit is
    an [N] and a string a [list N], so [length] is the [.length] of the
    source.  Records of the database are Rocq records, JSON objects used as
    bags of keys ([metadata]) are [gmap string json]. *)

From Stdlib Require Import List ZArith NArith Ascii String DecimalString Bool Lia.
From Stdlib Require Import Sorted Permutation.
From stdpp Require Import gmap strings.
Import ListNotations.

Local Open Scope list_scope.

(** ** JavaScript strings *)

Abbreviation char := N (only parsing).
Abbreviation jsstring := (list N) (only parsing).

(** [str "abc"] is the JavaScript string of an ASCII literal. *)
Definition str (s : string) : jsstring :=
  List.map N_of_ascii (list_ascii_of_string s).

Definition space : char := 32%N.
Definition newline : char := 10%N.
Definition dquote : char := 34%N.

(** ECMAScript [WhiteSpace] and [LineTerminator] code units: what
    [String.prototype.trim] strips and what [\s] matches. *)
Definition isWhiteSpace (c : char) : bool :=
  ((9 <=? c) && (c <=? 13) || (c =? 32) || (c =? 160) || (c =? 5760)
   || (8192 <=? c) && (c <=? 8202) || (c =? 8232) || (c =? 8233)
   || (c =? 8239) || (c =? 8287) || (c =? 12288) || (c =? 65279))%N.

(** The character class [[.!?]] of the sentence split. *)
Definition isTerminator (c : char) : bool :=
  ((c =? 46) || (c =? 33) || (c =? 63))%N.

Definition isEmpty (s : jsstring) : bool :=
  match s with [] => true | _ :: _ => false end.

(** Truthiness of a string: non-empty. *)
Definition truthy (s : jsstring) : bool := negb (isEmpty s).

Definition len (s : jsstring) : Z := Z.of_nat (length s).

Fixpoint trimStart (s : jsstring) : jsstring :=
  match s with
  | [] => []
  | c :: s' => if isWhiteSpace c then trimStart s' else s
  end.

Definition trimEnd (s : jsstring) : jsstring := rev (trimStart (rev s)).

Definition trim (s : jsstring) : jsstring := trimEnd (trimStart s).

(** [s.split(sep)] for a one-character separator string. *)
Fixpoint splitOn (sep : char) (s : jsstring) : list jsstring :=
  match s with
  | [] => [[]]
  | c :: s' =>
      if (c =? sep)%N then [] :: splitOn sep s'
      else match splitOn sep s' with
           | p :: ps => (c :: p) :: ps
           | [] => [[c]]
           end
  end.

(** [s.split(/[cls]+/)]: the pieces between maximal runs of characters of
    the class; a run at either end leaves an empty piece there. *)
Fixpoint splitRuns (cls : char -> bool) (s : jsstring) : list jsstring :=
  match s with
  | [] => [[]]
  | c :: s' =>
      if cls c then
        match s' with
        | c' :: _ => if cls c' then splitRuns cls s' else [] :: splitRuns cls s'
        | [] => [[]; []]
        end
      else match splitRuns cls s' with
           | p :: ps => (c :: p) :: ps
           | [] => [[c]]
           end
  end.

(** [parts.join(sep)]. *)
Fixpoint join (sep : jsstring) (parts : list jsstring) : jsstring :=
  match parts with
  | [] => []
  | [p] => p
  | p :: ps => p ++ sep ++ join sep ps
  end.

(** ** The chunker: [createTextChunks] *)

Module Chunker.

(** One iteration of the inner [for (const word of words)] loop; the state
    is [(chunks, wordChunk)]. *)
Definition wordStep (maxChunkSize : Z) (st : list jsstring * jsstring)
    (word : jsstring) : list jsstring * jsstring :=
  let '(chunks, wordChunk) := st in
  let '(chunks, wordChunk) :=
    if (len wordChunk + len word + 1 >? maxChunkSize)%Z then
      if truthy wordChunk then (chunks ++ [trim wordChunk], [])
      else (chunks, wordChunk)
    else (chunks, wordChunk) in
  (chunks, wordChunk ++ (if truthy wordChunk then [space] else []) ++ word).

(** One iteration of the outer [for (const sentence of sentences)] loop; the
    state is [(chunks, currentChunk)]. *)
Definition sentenceStep (maxChunkSize : Z) (st : list jsstring * jsstring)
    (sentence : jsstring) : list jsstring * jsstring :=
  let '(chunks, currentChunk) := st in
  let trimmedSentence := trim sentence in
  if isEmpty trimmedSentence then (chunks, currentChunk)
  else if (len currentChunk + len trimmedSentence + 1 >? maxChunkSize)%Z then
    let '(chunks, currentChunk) :=
      if truthy currentChunk then (chunks ++ [trim currentChunk], [])
      else (chunks, currentChunk) in
    if (len trimmedSentence >? maxChunkSize)%Z then
      let words := splitOn space trimmedSentence in
      let '(chunks, wordChunk) :=
        fold_left (wordStep maxChunkSize) words (chunks, []) in
      (chunks, if truthy wordChunk then wordChunk else currentChunk)
    else (chunks, trimmedSentence)
  else
    (chunks,
     currentChunk ++ (if truthy currentChunk then str ". " else [])
       ++ trimmedSentence).

Definition sentencesOf (text : jsstring) : list jsstring :=
  List.filter (fun s => (0 <? length (trim s))%nat) (splitRuns isTerminator text).

Definition createTextChunks (text : jsstring) (maxChunkSize : Z)
    : list jsstring :=
  let sentences := sentencesOf text in
  let '(chunks, currentChunk) :=
    fold_left (sentenceStep maxChunkSize) sentences ([], []) in
  if truthy (trim currentChunk) then chunks ++ [trim currentChunk] else chunks.

End Chunker.

(** ** Data model: the tables the edge functions read and write *)

#[local] Unset Elimination Schemes.
Inductive json : Type :=
  | JNull
  | JBool (b : bool)
  | JNum (n : Z)
  | JStr (s : jsstring)
  | JArr (items : list json)
  | JObj (fields : list (string * json)).
#[local] Set Elimination Schemes.

(** A row of [documents].  [doc_content] is the nullable [content] column,
    [doc_metadata] the JSON [metadata] column. *)
Record Document : Type := {
  doc_id : jsstring;
  doc_user_id : jsstring;
  doc_title : jsstring;
  doc_file_name : jsstring;
  doc_file_type : jsstring;
  doc_file_size : Z;
  doc_content : option jsstring;
  doc_metadata : gmap string json
}.

(** A row of [document_chunks]. *)
Record DocumentChunk : Type := {
  chunk_document_id : jsstring;
  chunk_content : jsstring;
  chunk_metadata : gmap string json
}.

(** A row of [messages]. *)
Record Message : Type := {
  msg_conversation_id : jsstring;
  msg_role : jsstring;
  msg_content : jsstring;
  msg_created_at : Z
}.

Record Store : Type := {
  documents : list Document;
  document_chunks : list DocumentChunk;
  messages : list Message
}.

Definition emptyStore : Store :=
  {| documents := []; document_chunks := []; messages := [] |}.

(** An HTTP response: status, headers and the object given to
    [JSON.stringify] ([None] for the [null] body of the preflight answer). *)
Record Response : Type := {
  status : Z;
  headers : list (string * string);
  body : option (list (string * json))
}.

Definition corsHeaders : list (string * string) :=
  [("Access-Control-Allow-Origin", "*");
   ("Access-Control-Allow-Headers",
    "authorization, x-client-info, apikey, content-type")]%string.

Definition jsonHeaders : list (string * string) :=
  corsHeaders ++ [("Content-Type", "application/json")]%string.

(** ** Computations that touch the store and may throw *)

Inductive result (A : Type) : Type :=
  | Ok (a : A)
  | Throw (message : jsstring).
Arguments Ok {A} a.
Arguments Throw {A} message.

Definition M (A : Type) : Type := Store -> Store * result A.

Definition ret {A} (a : A) : M A := fun db => (db, Ok a).

Definition throw {A} (message : jsstring) : M A := fun db => (db, Throw message).

Definition bind {A B} (m : M A) (k : A -> M B) : M B :=
  fun db =>
    match m db with
    | (db', Ok a) => k a db'
    | (db', Throw e) => (db', Throw e)
    end.

(** [try { m } catch (e) { h e }]: what [m] wrote before throwing stays. *)
Definition tryCatch {A} (m : M A) (h : jsstring -> M A) : M A :=
  fun db =>
    match m db with
    | (db', Ok a) => (db', Ok a)
    | (db', Throw e) => h e db'
    end.

Definition lift {A} (r : result A) : M A := fun db => (db, r).

Notation "x <- m ;; k" := (bind m (fun x => k))
  (at level 200, m at level 99, k at level 200, right associativity).
Notation "m ;;; k" := (bind m (fun _ => k))
  (at level 200, k at level 200, right associativity).

(** [a || b] on strings. *)
Definition orElse (a b : jsstring) : jsstring := if truthy a then a else b.

Definition nl : jsstring := [newline].

(** Decimal rendering of a non-negative integer in a template literal. *)
Definition decimal (n : N) : jsstring :=
  str (NilEmpty.string_of_uint (N.to_uint n)).

Fixpoint startsWith (s prefix : jsstring) {struct prefix} : bool :=
  match prefix, s with
  | [], _ => true
  | _ :: _, [] => false
  | p :: prefix', c :: s' => (c =? p)%N && startsWith s' prefix'
  end.

(** ** The ingest operation: [process-document] *)

Module Ingest.

(** An item of a PDF page's text content; [item.str] may be absent. *)
Record TextItem : Type := { item_str : option jsstring }.

(** What the downloaded blob yields to the readers applied to it: its size,
    [fileData.text()], the pages pdf.js reads from it, and the [value] of
    mammoth's raw text.  Each reader either returns or throws. *)
Record Blob : Type := {
  blob_size : N;
  blob_text : result jsstring;
  blob_pdf : result (list (list TextItem));
  blob_docx : result jsstring
}.

(** The parsed request body [{documentId, filePath, fileName, fileType}]. *)
Record IngestRequest : Type := {
  documentId : jsstring;
  filePath : jsstring;
  fileName : jsstring;
  fileType : jsstring
}.

Record HttpRequest : Type := {
  method : jsstring;
  json_body : result IngestRequest
}.

(** The collaborators of one invocation.  [download path] is [Ok blob] for
    [{ data: blob, error: null }] and [Throw m] for a [downloadError] whose
    message is [m].  The outcome of each persistence call is [None] when the
    call took effect and [Some e] when it returned the error message [e] and
    changed nothing: [updateError] for the update of the [try] block,
    [chunksError] for the chunk insert, [markError] for the update of the
    [catch] block.  [now] and [nowCatch] are the readings of
    [new Date().toISOString()] in the two blocks. *)
Record Env : Type := {
  download : jsstring -> result Blob;
  updateError : option jsstring;
  chunksError : option jsstring;
  markError : option jsstring;
  now : jsstring;
  nowCatch : jsstring
}.

Definition itemKept (item : TextItem) : bool :=
  match item_str item with
  | Some s => truthy s && truthy (trim s)
  | None => false
  end.

Definition itemText (item : TextItem) : jsstring :=
  match item_str item with Some s => s | None => [] end.

Definition extractPdfText (fileData : Blob) : jsstring :=
  match blob_pdf fileData with
  | Ok pages =>
      let fullText :=
        fold_left
          (fun fullText items =>
             let pageText :=
               join [space] (List.map itemText (List.filter itemKept items)) in
             fullText ++ pageText ++ nl ++ nl)
          pages [] in
      orElse (trim fullText)
        (str "No text content could be extracted from this PDF.")
  | Throw message => str "PDF text extraction failed: " ++ message
  end.

Definition extractDocxText (fileData : Blob) : jsstring :=
  match blob_docx fileData with
  | Ok value =>
      orElse (trim value)
        (str "No text content could be extracted from this DOCX file.")
  | Throw message => str "DOCX text extraction failed: " ++ message
  end.

(** [Math.round(fileSize / 1024)] on a byte count. *)
Definition fileSizeKB (fileData : Blob) : N := ((blob_size fileData + 512) / 1024)%N.

Definition extractPptxText (fileData : Blob) : jsstring :=
  str "PowerPoint file: PPTX (" ++ decimal (fileSizeKB fileData) ++ str "KB)"
  ++ nl ++ nl
  ++ str "PPTX files contain rich formatting and multimedia content that requires specialized processing."
  ++ nl ++ nl
  ++ str "For text extraction from PowerPoint files, please:" ++ nl
  ++ str "1. Save/export the presentation as PDF from PowerPoint" ++ nl
  ++ str "2. Copy and paste text content into a text file" ++ nl
  ++ str "3. Use PowerPoint's " ++ [dquote] ++ str "Save as Text" ++ [dquote]
  ++ str " option if available" ++ nl ++ nl
  ++ str "Alternatively, upload individual slides as images for OCR processing.".

Definition extractImageText (fileData : Blob) (fileName : jsstring) : jsstring :=
  str "Image file: " ++ fileName ++ str " (" ++ decimal (fileSizeKB fileData)
  ++ str "KB)" ++ nl ++ nl
  ++ str "This is an image file. For text extraction from images, consider:" ++ nl
  ++ str "1. Using OCR tools like Google Vision API" ++ nl
  ++ str "2. Converting the image to PDF with embedded text" ++ nl
  ++ str "3. Manually transcribing important text content" ++ nl ++ nl
  ++ str "If this image contains charts, diagrams, or handwritten text, please provide a text description of the content.".

Definition docxType : jsstring :=
  str "application/vnd.openxmlformats-officedocument.wordprocessingml.document".

Definition pptxType : jsstring :=
  str "application/vnd.openxmlformats-officedocument.presentationml.presentation".

(** The dispatch on [fileType] at the head of the inner [try]. *)
Definition extractText (fileData : Blob) (fileName fileType : jsstring)
    : result jsstring :=
  if bool_decide (fileType = str "text/plain") then blob_text fileData
  else if bool_decide (fileType = str "application/pdf") then
    Ok (extractPdfText fileData)
  else if bool_decide (fileType = docxType) then Ok (extractDocxText fileData)
  else if bool_decide (fileType = pptxType) then Ok (extractPptxText fileData)
  else if startsWith fileType (str "image/") then
    Ok (extractImageText fileData fileName)
  else Ok (str "Unsupported file type: " ++ fileType).

Definition patchDocuments (id : jsstring) (patch : Document -> Document)
    (db : Store) : Store :=
  {| documents :=
       List.map (fun d => if bool_decide (doc_id d = id) then patch d else d)
         (documents db);
     document_chunks := document_chunks db;
     messages := messages db |}.

(** [from('documents').update(...).eq('id', id)]: returns [{ error }]. *)
Definition updateDocuments (error : option jsstring) (id : jsstring)
    (patch : Document -> Document) : M (option jsstring) :=
  fun db =>
    match error with
    | Some e => (db, Ok (Some e))
    | None => (patchDocuments id patch db, Ok None)
    end.

(** [from('document_chunks').insert(rows)]: returns [{ error }]. *)
Definition insertChunks (error : option jsstring) (rows : list DocumentChunk)
    : M (option jsstring) :=
  fun db =>
    match error with
    | Some e => (db, Ok (Some e))
    | None =>
        ({| documents := documents db;
            document_chunks := document_chunks db ++ rows;
            messages := messages db |}, Ok None)
    end.

(** The object of the success update: [content] and a fresh [metadata]. *)
Definition setProcessed (extractedText at_ : jsstring) (d : Document) : Document :=
  {| doc_id := doc_id d;
     doc_user_id := doc_user_id d;
     doc_title := doc_title d;
     doc_file_name := doc_file_name d;
     doc_file_type := doc_file_type d;
     doc_file_size := doc_file_size d;
     doc_content := Some extractedText;
     doc_metadata :=
       {[ "processed" := JBool true;
          "processed_at" := JStr at_;
          "word_count" :=
            JNum (Z.of_nat (length (splitRuns isWhiteSpace extractedText))) ]} |}.

(** The object of the update in the [catch]: a fresh [metadata] only. *)
Definition setFailed (message at_ : jsstring) (d : Document) : Document :=
  {| doc_id := doc_id d;
     doc_user_id := doc_user_id d;
     doc_title := doc_title d;
     doc_file_name := doc_file_name d;
     doc_file_type := doc_file_type d;
     doc_file_size := doc_file_size d;
     doc_content := doc_content d;
     doc_metadata :=
       {[ "processed" := JBool false;
          "processing_error" := JStr message;
          "processed_at" := JStr at_ ]} |}.

(** [chunks.map((chunk, index) => ...)], [index] counting from [from]. *)
Fixpoint chunksData (id : jsstring) (from : nat) (chunks : list jsstring)
    : list DocumentChunk :=
  match chunks with
  | [] => []
  | chunk :: rest =>
      {| chunk_document_id := id;
         chunk_content := chunk;
         chunk_metadata :=
           {[ "chunk_index" := JNum (Z.of_nat from);
              "chunk_size" := JNum (len chunk) ]} |}
      :: chunksData id (S from) rest
  end.

Definition whenM (b : bool) (m : M (option jsstring)) : M unit :=
  if b then (m ;;; ret tt) else ret tt.

(** The inner [try] block, after the download. *)
Definition processBlob (env : Env) (r : IngestRequest) (fileData : Blob)
    : M Response :=
  extractedText <- lift (extractText fileData (fileName r) (fileType r)) ;;
  updateErr <- updateDocuments (updateError env) (documentId r)
                 (setProcessed extractedText (now env)) ;;
  match updateErr with
  | Some message => throw (str "Failed to update document: " ++ message)
  | None => ret tt
  end ;;;
  let chunks := Chunker.createTextChunks extractedText 1000 in
  whenM (0 <? length chunks)%nat
    (insertChunks (chunksError env) (chunksData (documentId r) 0 chunks)) ;;;
  ret {| status := 200;
         headers := jsonHeaders;
         body := Some [("success", JBool true);
                       ("documentId", JStr (documentId r));
                       ("extractedLength", JNum (len extractedText));
                       ("chunksCreated", JNum (Z.of_nat (length chunks)))]%string |}.

(** The [catch (textError)] block. *)
Definition markFailed (env : Env) (r : IngestRequest) (message : jsstring)
    : M Response :=
  updateDocuments (markError env) (documentId r)
    (setFailed message (nowCatch env)) ;;;
  ret {| status := 200;
         headers := jsonHeaders;
         body := Some [("success", JBool false);
                       ("error", JStr (str "Text extraction failed"));
                       ("details", JStr message)]%string |}.

(** The outer [catch (error)] block. *)
Definition fail500 (message : jsstring) : M Response :=
  ret {| status := 500;
         headers := jsonHeaders;
         body := Some [("error",
                        JStr (orElse message
                                (str "An unexpected error occurred")))]%string |}.

(** The request handler given to [serve]. *)
Definition serve (env : Env) (req : HttpRequest) : M Response :=
  if bool_decide (method req = str "OPTIONS") then
    ret {| status := 200; headers := corsHeaders; body := None |}
  else
    tryCatch
      (r <- lift (json_body req) ;;
       fileData <-
         lift (match download env (filePath r) with
               | Ok fileData => Ok fileData
               | Throw message =>
                   Throw (str "Failed to download file: " ++ message)
               end) ;;
       tryCatch (processBlob env r fileData) (markFailed env r))
      fail500.

End Ingest.

(** ** The upload component: the document insert of [uploadFile] *)

Module Upload.

(** The browser [File]: [name], [type], [size]. *)
Record File : Type := {
  file_name : jsstring;
  file_type : jsstring;
  file_size : Z
}.

(** The row inserted into [documents]; [id] is generated by the database,
    [content] is not given and so is null. *)
Definition newDocument (id userId fileName filePath : jsstring) (file : File)
    : Document :=
  {| doc_id := id;
     doc_user_id := userId;
     doc_title := file_name file;
     doc_file_name := fileName;
     doc_file_type := file_type file;
     doc_file_size := file_size file;
     doc_content := None;
     doc_metadata :=
       {[ "original_name" := JStr (file_name file);
          "storage_path" := JStr filePath ]} |}.

(** [from('documents').insert(row).select().single()]. *)
Definition insertDocument (dbError : option jsstring) (row : Document)
    : M Document :=
  fun db =>
    match dbError with
    | Some e => (db, Throw e)
    | None =>
        ({| documents := documents db ++ [row];
            document_chunks := document_chunks db;
            messages := messages db |}, Ok row)
    end.

(** The collaborators of one [uploadFile] call. *)
Record Env : Type := {
  user : option jsstring;
  stamp : jsstring;
  uploadError : option jsstring;
  dbError : option jsstring;
  generatedId : jsstring;
  ingest : Ingest.Env
}.

Record Uploaded : Type := {
  up_id : jsstring;
  up_name : jsstring;
  up_type : jsstring;
  up_size : Z;
  up_path : jsstring
}.

Definition uploadFile (env : Env) (file : File) : M Uploaded :=
  match user env with
  | None => throw (str "User not authenticated")
  | Some userId =>
      let fileExt := List.last (splitOn 46%N (file_name file)) [] in
      let fileName := stamp env ++ str "." ++ fileExt in
      let filePath := userId ++ str "/" ++ fileName in
      match uploadError env with
      | Some e => throw e
      | None =>
          document <- insertDocument (dbError env)
                        (newDocument (generatedId env) userId fileName filePath
                           file) ;;
          Ingest.serve (ingest env)
            {| Ingest.method := str "POST";
               Ingest.json_body :=
                 Ok {| Ingest.documentId := doc_id document;
                       Ingest.filePath := filePath;
                       Ingest.fileName := file_name file;
                       Ingest.fileType := file_type file |} |} ;;;
          ret {| up_id := doc_id document;
                 up_name := file_name file;
                 up_type := file_type file;
                 up_size := file_size file;
                 up_path := filePath |}
      end
  end.

(** [acceptedTypes]: the accepted MIME types, or pattern, and their file
    extensions, in the order of the object's keys. *)
Definition acceptedTypes : list (jsstring * jsstring) :=
  [(str "application/pdf", str ".pdf");
   (Ingest.docxType, str ".docx");
   (Ingest.pptxType, str ".pptx");
   (str "text/plain", str ".txt");
   (str "image/*", str ".jpg,.jpeg,.png,.gif,.webp")].

(** [Object.keys(acceptedTypes).some(type => ...)]. *)
Definition isValidType (fileType : jsstring) : bool :=
  existsb
    (fun type =>
       if bool_decide (type = str "image/*")
       then startsWith fileType (str "image/")
       else bool_decide (fileType = type))
    (List.map fst acceptedTypes).

Definition maxFileSize : Z := 10 * 1024 * 1024.

(** A call of [toast]; [destructive] is [variant: 'destructive']. *)
Record Toast : Type := {
  title : jsstring;
  description : jsstring;
  destructive : bool
}.

(** One iteration of the loop of [handleFileSelect] over the files, each
    with the collaborators that answer for it; the state is the store, the
    [uploadedFiles] and the toasts shown so far.  The progress bar is not
    part of the state. *)
Definition fileStep (st : Store * list Uploaded * list Toast)
    (fe : File * Env) : Store * list Uploaded * list Toast :=
  let '(db, uploadedFiles, toasts) := st in
  let '(file, env) := fe in
  if negb (isValidType (file_type file)) then
    (db, uploadedFiles,
     toasts ++ [{| title := str "Invalid file type";
                   description :=
                     file_name file ++ str " is not a supported file type";
                   destructive := true |}])
  else if (file_size file >? maxFileSize)%Z then
    (db, uploadedFiles,
     toasts ++ [{| title := str "File too large";
                   description := file_name file ++ str " is larger than 10MB";
                   destructive := true |}])
  else
    match uploadFile env file db with
    | (db', Ok uploadedFile) => (db', uploadedFiles ++ [uploadedFile], toasts)
    | (db', Throw message) =>
        (db', uploadedFiles,
         toasts ++ [{| title := str "Upload failed";
                       description :=
                         str "Failed to upload " ++ file_name file ++ str ": "
                         ++ message;
                       destructive := true |}])
    end.

(** [handleFileSelect(files)]: the store after it, the argument given to
    [onUpload] if it is called, and the toasts shown. *)
Definition handleFileSelect (files : option (list (File * Env))) (db : Store)
    : Store * option (list Uploaded) * list Toast :=
  match files with
  | None => (db, None, [])
  | Some [] => (db, None, [])
  | Some files =>
      let '(db', uploadedFiles, toasts) := fold_left fileStep files (db, [], []) in
      if (0 <? length uploadedFiles)%nat then
        (db', Some uploadedFiles,
         toasts ++ [{| title := str "Upload successful";
                       description :=
                         decimal (N.of_nat (length uploadedFiles))
                         ++ str " file(s) uploaded successfully";
                       destructive := false |}])
      else (db', None, toasts)
  end.

End Upload.

(** ** The chat operation *)

(** The case map of the ASCII letters, the instance of [toLowerCase] used
    on concrete ASCII inputs. *)
Definition asciiToLowerCase (s : jsstring) : jsstring :=
  List.map (fun c => if ((65 <=? c) && (c <=? 90))%N then (c + 32)%N else c) s.

Module Chat.

(** [s.includes(sub)]. *)
Fixpoint includes (s sub : jsstring) : bool :=
  startsWith s sub
  || match s with
     | [] => false
     | _ :: s' => includes s' sub
     end.

(** [order('created_at', { ascending: true })], as a stable insertion sort:
    rows of equal [created_at] keep their table order.  The query names no
    second key, so the order of such rows is the store's choice; the
    properties below are stated so as to hold for any ascending order. *)
Fixpoint insertByCreatedAt (m : Message) (sorted : list Message) : list Message :=
  match sorted with
  | [] => [m]
  | x :: rest =>
      if (msg_created_at m <=? msg_created_at x)%Z then m :: sorted
      else x :: insertByCreatedAt m rest
  end.

Definition orderByCreatedAt (rows : list Message) : list Message :=
  fold_right insertByCreatedAt [] rows.

(** The [messages] query: rows of the conversation, ascending by
    [created_at], [limit(10)]. *)
Definition fetchMessages (db : Store) (conversationId : jsstring)
    : list Message :=
  firstn 10
    (orderByCreatedAt
       (List.filter
          (fun m => bool_decide (msg_conversation_id m = conversationId))
          (messages db))).

Definition historyLine (msg : Message) : jsstring :=
  (if bool_decide (msg_role msg = str "user") then str "User"
   else str "Assistant") ++ str ": " ++ msg_content msg.

Definition conversationHistory (db : Store) (conversationId : option jsstring)
    : jsstring :=
  match conversationId with
  | Some id =>
      if truthy id then
        let messages := fetchMessages db id in
        if (0 <? length messages)%nat
        then join (nl ++ nl) (List.map historyLine messages)
        else []
      else []
  | None => []
  end.

(** The [documents] query: rows of the user with non-null content,
    [limit(5)]. *)
Definition fetchDocuments (db : Store) (userId : jsstring) : list Document :=
  firstn 5
    (List.filter
       (fun d =>
          bool_decide (doc_user_id d = userId)
          && match doc_content d with Some _ => true | None => false end)
       (documents db)).

Inductive GeminiReply : Type :=
  | HttpError (code : N)
  | InvalidReply
  | Completion (text : jsstring).

(** The parsed request body [{message, conversationId, files}]; [files] is
    not read by the handler. *)
Record ChatRequest : Type := {
  message : jsstring;
  conversationId : option jsstring
}.

Record HttpRequest : Type := {
  method : jsstring;
  json_body : result ChatRequest
}.

Section CaseMap.

(** [String.prototype.toLowerCase], the case map of the runtime. *)
Variable toLowerCase : jsstring -> jsstring.

Definition keywords (message : jsstring) : list jsstring :=
  List.filter (fun word => (3 <? length word)%nat)
    (splitOn space (toLowerCase message)).

(** The predicate given to [documents.filter]. *)
Definition isRelevant (message : jsstring) (doc : Document) : bool :=
  match doc_content doc with
  | None => false
  | Some c =>
      if isEmpty c then false
      else
        let content := toLowerCase c in
        existsb (fun keyword => includes content keyword) (keywords message)
  end.

Definition relevantDocs (message : jsstring) (documents : list Document)
    : list Document :=
  List.filter (isRelevant message) documents.

Definition contentOf (doc : Document) : jsstring :=
  match doc_content doc with Some c => c | None => [] end.

Definition documentContext (docs : list Document) : jsstring :=
  join (nl ++ nl ++ str "---" ++ nl ++ nl)
    (List.map
       (fun doc =>
          str "Document: " ++ doc_title doc ++ nl ++ str "Content: "
          ++ firstn 1000 (contentOf doc) ++ str "...")
       docs).

Definition sources (docs : list Document) : list json :=
  List.map
    (fun doc =>
       JObj [("document_id", JStr (doc_id doc));
             ("document_title", JStr (doc_title doc));
             ("relevance_score", JNum 1)]%string)
    docs.

Definition buildPrompt (documentContext conversationHistory message : jsstring)
    : jsstring :=
  if truthy documentContext then
    str "You are an intelligent educational assistant. Answer the user's question based on the provided documents and conversation history."
    ++ nl ++ nl ++ str "DOCUMENTS:" ++ nl ++ documentContext ++ nl ++ nl
    ++ (if truthy conversationHistory
        then str "CONVERSATION HISTORY:" ++ nl ++ conversationHistory ++ nl ++ nl
        else [])
    ++ nl ++ nl ++ str "USER QUESTION: " ++ message ++ nl ++ nl
    ++ str "Please provide a helpful, accurate answer based on the documents provided. If the documents don't contain relevant information, say so and provide general assistance. Always cite which document you're referencing when possible."
  else
    str "You are an intelligent educational assistant. "
    ++ (if truthy conversationHistory
        then str "Here's the conversation history:" ++ nl ++ conversationHistory
             ++ nl ++ nl
        else [])
    ++ nl ++ nl ++ str "USER QUESTION: " ++ message ++ nl ++ nl
    ++ str "Please provide a helpful response. If you need specific document content to answer accurately, let the user know they should upload relevant documents.".

(** The collaborators of one chat invocation: the authenticated user and
    the completion backend. *)
Record Env : Type := {
  userId : option jsstring;
  gemini : jsstring -> GeminiReply
}.

(** The documents selected for the request: none without a user. *)
Definition selectedDocs (env : Env) (req : ChatRequest) (db : Store)
    : list Document :=
  match userId env with
  | Some uid =>
      if truthy uid then relevantDocs (message req) (fetchDocuments db uid)
      else []
  | None => []
  end.

Definition promptOf (env : Env) (req : ChatRequest) (db : Store) : jsstring :=
  buildPrompt (documentContext (selectedDocs env req db))
    (conversationHistory db (conversationId req)) (message req).

Definition fail500 (message : jsstring) : Response :=
  {| status := 500;
     headers := jsonHeaders;
     body := Some [("error",
                    JStr (orElse message
                            (str "An unexpected error occurred")))]%string |}.

(** The body of the [try] block, after the request is parsed. *)
Definition answer (env : Env) (req : ChatRequest) (db : Store) : Response :=
  let docs := selectedDocs env req db in
  match gemini env (promptOf env req db) with
  | Completion aiResponse =>
      {| status := 200;
         headers := jsonHeaders;
         body :=
           Some [("response", JStr aiResponse);
                 ("metadata",
                  JObj [("sources", JArr (sources docs));
                        ("has_document_context",
                         JBool (0 <? length (documentContext docs))%nat);
                        ("conversation_id",
                         match conversationId req with
                         | Some id => JStr id
                         | None => JNull
                         end)])]%string |}
  | HttpError code => fail500 (str "Gemini API error: " ++ decimal code)
  | InvalidReply => fail500 (str "Invalid response from Gemini API")
  end.

(** The request handler given to [serve]; it only reads the store. *)
Definition serve (env : Env) (req : HttpRequest) (db : Store) : Response :=
  if bool_decide (method req = str "OPTIONS") then
    {| status := 200; headers := corsHeaders; body := None |}
  else
    match json_body req with
    | Ok r => answer env r db
    | Throw message => fail500 message
    end.

End CaseMap.

End Chat.

(** ** Sequences of core operations on the store *)

Inductive Op : Type :=
  | OpUpload (id userId fileName filePath : jsstring) (file : Upload.File)
  | OpIngest (env : Ingest.Env) (req : Ingest.HttpRequest).

Definition step (db : Store) (op : Op) : Store :=
  match op with
  | OpUpload id userId fileName filePath file =>
      fst (Upload.insertDocument None
             (Upload.newDocument id userId fileName filePath file) db)
  | OpIngest env req => fst (Ingest.serve env req db)
  end.

Definition run (ops : list Op) (db : Store) : Store := fold_left step ops db.

(** ** Vocabulary of the properties *)

(** The characters of a text that are not whitespace. *)
Definition nonWhitespace (s : jsstring) : jsstring :=
  List.filter (fun c => negb (isWhiteSpace c)) s.

(** The characters of a text that are neither whitespace nor a sentence
    terminator: what no separator of the chunker is made of. *)
Definition isContent (c : char) : bool :=
  negb (isWhiteSpace c) && negb (isTerminator c).

Definition contentChars (s : jsstring) : jsstring := List.filter isContent s.

(** [isSubsequence xs ys]: [xs] is [ys] with some characters left out. *)
Fixpoint isSubsequence (xs ys : jsstring) : bool :=
  match xs, ys with
  | [], _ => true
  | _ :: _, [] => false
  | x :: xs', y :: ys' =>
      if (x =? y)%N then isSubsequence xs' ys' else isSubsequence xs ys'
  end.

(** The content carried by a loop state [(chunks, buffer)]. *)
Definition carried (st : list jsstring * jsstring) : jsstring :=
  contentChars (concat (fst st) ++ snd st).

(** The words of the sentences of a text, as the inner loop sees them. *)
Definition isWordOf (text word : jsstring) : Prop :=
  exists sentence,
    In sentence (Chunker.sentencesOf text)
    /\ In word (splitOn space (trim sentence)).

(** A buffer of the chunker that is within [maxSize + slack], or is one
    word, alone, longer than [maxSize]. *)
Definition bufferOk (text : jsstring) (maxSize slack : Z) (b : jsstring)
    : Prop :=
  (len b <= maxSize + slack)%Z \/ (isWordOf text b /\ (len b > maxSize)%Z).

(** A chunk that is within [maxSize + 1], or is one word, trimmed, longer
    than [maxSize] before the trim. *)
Definition chunkOk (text : jsstring) (maxSize : Z) (c : jsstring) : Prop :=
  (len c <= maxSize + 1)%Z
  \/ exists word, isWordOf text word /\ c = trim word /\ (len word > maxSize)%Z.

(** A text with no leading and no trailing whitespace. *)
Definition isTrimmed (s : jsstring) : Prop := trim s = s.

(** A character other than ['!'] and ['?']. *)
Definition notMark (c : char) : Prop := c <> 33%N /\ c <> 63%N.

(** The number of maximal runs of characters of a class in a string,
    counted at the last character of each run. *)
Fixpoint countRuns (cls : char -> bool) (s : jsstring) : nat :=
  match s with
  | [] => 0
  | c :: s' =>
      (if cls c
       then match s' with
            | c' :: _ => if cls c' then 0 else 1
            | [] => 1
            end
       else 0)
      + countRuns cls s'
  end.

(** The storage name and path [uploadFile] builds for a file. *)
Definition storageName (env : Upload.Env) (file : Upload.File) : jsstring :=
  Upload.stamp env ++ str "."
  ++ List.last (splitOn 46%N (Upload.file_name file)) [].

Definition storagePath (env : Upload.Env) (userId : jsstring)
    (file : Upload.File) : jsstring :=
  userId ++ str "/" ++ storageName env file.

(** The files given to [onUpload] by a run of [handleFileSelect]. *)
Definition uploadedOf (res : Store * option (list Upload.Uploaded)
                              * list Upload.Toast) : list Upload.Uploaded :=
  match snd (fst res) with
  | Some uploadedFiles => uploadedFiles
  | None => []
  end.

(** Ascending order of [created_at]. *)
Definition createdBefore (a b : Message) : Prop :=
  (msg_created_at a <= msg_created_at b)%Z.

(** The rows of a conversation, in table order. *)
Definition conversationRows (db : Store) (conversationId : jsstring)
    : list Message :=
  List.filter (fun m => bool_decide (msg_conversation_id m = conversationId))
    (messages db).

(** The store after a row is appended to [messages]. *)
Definition withMessage (db : Store) (m : Message) : Store :=
  {| documents := documents db;
     document_chunks := document_chunks db;
     messages := messages db ++ [m] |}.

(** The history the claim on the chat operation describes: the [n] most
    recently created messages of the conversation, ascending. *)
Definition lastMessages (n : nat) (db : Store) (conversationId : jsstring)
    : list Message :=
  let rows :=
    Chat.orderByCreatedAt
      (List.filter
         (fun m => bool_decide (msg_conversation_id m = conversationId))
         (messages db)) in
  skipn (length rows - n) rows.

(** Metadata that marks [processed: true] with no [processing_error]. *)
Definition markedProcessed (d : Document) : Prop :=
  doc_metadata d !! "processed" = Some (JBool true)
  /\ doc_metadata d !! "processing_error" = None.

(** Metadata that marks [processed: false] with a [processing_error]. *)
Definition markedFailed (d : Document) : Prop :=
  doc_metadata d !! "processed" = Some (JBool false)
  /\ is_Some (doc_metadata d !! "processing_error").

(** The fields of a document other than [content] and [metadata]. *)
Definition sameFile (d d' : Document) : Prop :=
  doc_id d' = doc_id d
  /\ doc_user_id d' = doc_user_id d
  /\ doc_title d' = doc_title d
  /\ doc_file_name d' = doc_file_name d
  /\ doc_file_type d' = doc_file_type d
  /\ doc_file_size d' = doc_file_size d.

(** [onDocument id R db db']: the documents of [db'] are those of [db],
    row by row, related by [R] where the row's id is [id] and equal
    elsewhere. *)
Definition onDocument (id : jsstring) (R : Document -> Document -> Prop)
    (db db' : Store) : Prop :=
  Forall2
    (fun d d' => if bool_decide (doc_id d = id) then R d d' else d' = d)
    (documents db) (documents db').

(** The metadata has exactly the keys [keys], none of them an upload key. *)
Definition metadataKeys (keys : gset string) (d : Document) : Prop :=
  dom (doc_metadata d) = keys
  /\ doc_metadata d !! "original_name" = None
  /\ doc_metadata d !! "storage_path" = None.

(** The [chunk_index] of the stored chunks of a document, in insertion
    order. *)
Definition chunkIndices (db : Store) (id : jsstring) : list (option json) :=
  List.map (fun c => chunk_metadata c !! "chunk_index")
    (List.filter (fun c => bool_decide (chunk_document_id c = id))
       (document_chunks db)).

(** The ordinals [0, 1, ..., n-1]. *)
Definition ordinals (n : nat) : list (option json) :=
  List.map (fun i => Some (JNum (Z.of_nat i))) (seq 0 n).

(** The operation is an ingest invocation that names the document. *)
Definition ingests (id : jsstring) (op : Op) : bool :=
  match op with
  | OpIngest _ req =>
      match Ingest.json_body req with
      | Ok r => bool_decide (Ingest.documentId r = id)
      | Throw _ => false
      end
  | OpUpload _ _ _ _ _ => false
  end.

(** The number of ingest invocations of a trace that name the document. *)
Definition ingestsOf (id : jsstring) (ops : list Op) : nat :=
  length (List.filter (ingests id) ops).

(** The relation between [content] and [metadata] that every operation
    keeps. *)
Definition contentAgrees (d : Document) : Prop :=
  (markedProcessed d -> doc_content d <> None)
  /\ (doc_content d <> None -> markedProcessed d \/ markedFailed d).

(** What a trace of operations leaves true of a document: the relation
    between content and metadata, that a document never named by an ingest
    has no content, and that content of a document named by at most one
    ingest comes with the processed mark. *)
Definition traceAgrees (ops : list Op) (d : Document) : Prop :=
  contentAgrees d
  /\ (ingestsOf (doc_id d) ops = 0 -> doc_content d = None)
  /\ (ingestsOf (doc_id d) ops <= 1 ->
      doc_content d <> None -> markedProcessed d).

(** The tokens the claim on the relevance selector describes: delimited by
    whitespace, longer than 3 characters. *)
Definition whitespaceTokens (message : jsstring) : list jsstring :=
  List.filter (fun word => (3 <? length word)%nat)
    (splitRuns isWhiteSpace message).

(** [sub] occurs in [s] as a substring. *)
Definition substring (sub s : jsstring) : Prop :=
  exists pre post, s = pre ++ sub ++ post.

(** ** Sample data *)

(** A conversation of eleven messages, created at times 1 to 11. *)
Definition sampleMessage (i : Z) : Message :=
  {| msg_conversation_id := str "c1";
     msg_role := if Z.even i then str "assistant" else str "user";
     msg_content := str "m" ++ decimal (Z.to_N i);
     msg_created_at := i |}.

Definition elevenMessages : Store :=
  {| documents := [];
     document_chunks := [];
     messages := List.map sampleMessage [1; 2; 3; 4; 5; 6; 7; 8; 9; 10; 11]%Z |}.

Definition noUser : Chat.Env :=
  {| Chat.userId := None; Chat.gemini := fun _ => Chat.InvalidReply |}.

(** A blob of plain text. *)
Definition textBlob (text : jsstring) : Ingest.Blob :=
  {| Ingest.blob_size := N.of_nat (length text);
     Ingest.blob_text := Ok text;
     Ingest.blob_pdf := Throw (str "Invalid PDF structure");
     Ingest.blob_docx := Throw (str "Not a zip file") |}.

(** Collaborators that all answer: the download yields [blob]. *)
Definition healthy (blob : Ingest.Blob) : Ingest.Env :=
  {| Ingest.download := fun _ => Ok blob;
     Ingest.updateError := None;
     Ingest.chunksError := None;
     Ingest.markError := None;
     Ingest.now := str "2024-01-01T00:00:00.000Z";
     Ingest.nowCatch := str "2024-01-01T00:00:00.001Z" |}.

(** Blob storage that refuses the download. *)
Definition noDownload : Ingest.Env :=
  {| Ingest.download := fun _ => Throw (str "Object not found");
     Ingest.updateError := None;
     Ingest.chunksError := None;
     Ingest.markError := None;
     Ingest.now := str "2024-01-01T00:00:00.000Z";
     Ingest.nowCatch := str "2024-01-01T00:00:00.001Z" |}.

(** A store that refuses the update of the [try] block and accepts the one
    of the [catch] block. *)
Definition updateRefused (blob : Ingest.Blob) : Ingest.Env :=
  {| Ingest.download := fun _ => Ok blob;
     Ingest.updateError := Some (str "connection reset");
     Ingest.chunksError := None;
     Ingest.markError := None;
     Ingest.now := str "2024-01-02T00:00:00.000Z";
     Ingest.nowCatch := str "2024-01-02T00:00:00.001Z" |}.

(** Collaborators that all answer, with a later clock reading. *)
Definition laterClock (blob : Ingest.Blob) : Ingest.Env :=
  {| Ingest.download := fun _ => Ok blob;
     Ingest.updateError := None;
     Ingest.chunksError := None;
     Ingest.markError := None;
     Ingest.now := str "2024-01-02T00:00:00.000Z";
     Ingest.nowCatch := str "2024-01-02T00:00:00.001Z" |}.

(** A store that refuses both updates of the documents table. *)
Definition storeDown (blob : Ingest.Blob) : Ingest.Env :=
  {| Ingest.download := fun _ => Ok blob;
     Ingest.updateError := Some (str "connection reset");
     Ingest.chunksError := None;
     Ingest.markError := Some (str "connection reset");
     Ingest.now := str "2024-01-02T00:00:00.000Z";
     Ingest.nowCatch := str "2024-01-02T00:00:00.001Z" |}.

Definition sampleFile : Upload.File :=
  {| Upload.file_name := str "notes.txt";
     Upload.file_type := str "text/plain";
     Upload.file_size := 6 |}.

Definition sampleRequest (fileType : jsstring) : Ingest.IngestRequest :=
  {| Ingest.documentId := str "d1";
     Ingest.filePath := str "u1/1-x.txt";
     Ingest.fileName := str "notes.txt";
     Ingest.fileType := fileType |}.

Definition post (r : Ingest.IngestRequest) : Ingest.HttpRequest :=
  {| Ingest.method := str "POST"; Ingest.json_body := Ok r |}.

Definition sampleUpload : Op :=
  OpUpload (str "d1") (str "u1") (str "1-x.txt") (str "u1/1-x.txt") sampleFile.

Definition ingestHi : Op :=
  OpIngest (healthy (textBlob (str "Hi")))
    (post (sampleRequest (str "text/plain"))).

(** An upload, a successful ingest, and a second ingest of the same
    document during which the store refuses the update. *)
Definition failAfterSuccess : list Op :=
  [sampleUpload; ingestHi;
   OpIngest (updateRefused (textBlob (str "Hi")))
     (post (sampleRequest (str "text/plain")))].

(** An upload and two successful ingests of the same document. *)
Definition ingestTwice : list Op := [sampleUpload; ingestHi; ingestHi].

(** A question whose words are separated by a tab, and a document that
    holds one of the words. *)
Definition tabbedQuestion : jsstring :=
  str "tell" ++ [9%N] ++ str "photosynthesis".

Definition docWith (content : jsstring) : Document :=
  {| doc_id := str "d1";
     doc_user_id := str "u1";
     doc_title := str "notes.txt";
     doc_file_name := str "1-x.txt";
     doc_file_type := str "text/plain";
     doc_file_size := 6;
     doc_content := Some content;
     doc_metadata := ∅ |}.

(** * Properties *)

(** ** Chunker *)

Section ChunkerContent.

Lemma contentChars_app (s t : jsstring) :
  contentChars (s ++ t) = contentChars s ++ contentChars t.
Proof. apply List.filter_app. Qed.

Lemma contentChars_trimStart (s : jsstring) :
  contentChars (trimStart s) = contentChars s.
Proof.
  induction s as [|c s IH]; simpl; [reflexivity|].
  destruct (isWhiteSpace c) eqn:Hc; [|reflexivity].
  unfold isContent. rewrite Hc. simpl. exact IH.
Qed.

Lemma contentChars_rev (s : jsstring) :
  contentChars (rev s) = rev (contentChars s).
Proof.
  induction s as [|c s IH]; simpl; [reflexivity|].
  rewrite contentChars_app, IH. simpl.
  destruct (isContent c); simpl; [reflexivity|].
  now rewrite app_nil_r.
Qed.

Lemma contentChars_trim (s : jsstring) : contentChars (trim s) = contentChars s.
Proof.
  unfold trim, trimEnd.
  rewrite contentChars_rev, contentChars_trimStart, contentChars_rev.
  rewrite rev_involutive. apply contentChars_trimStart.
Qed.

Lemma contentChars_blank (s : jsstring) : trim s = [] -> contentChars s = [].
Proof. intros H. rewrite <- contentChars_trim, H. reflexivity. Qed.

Lemma contentChars_splitOn (sep : char) (s : jsstring) :
  isContent sep = false ->
  contentChars (concat (splitOn sep s)) = contentChars s.
Proof.
  intros Hsep. induction s as [|c s IH]; simpl; [reflexivity|].
  destruct (N.eqb_spec c sep) as [->|Hne].
  - simpl. rewrite Hsep. exact IH.
  - destruct (splitOn sep s) as [|p ps]; simpl in *.
    + rewrite <- IH. destruct (isContent c); reflexivity.
    + rewrite <- IH. reflexivity.
Qed.

Lemma contentChars_splitRuns (s : jsstring) :
  contentChars (concat (splitRuns isTerminator s)) = contentChars s.
Proof.
  induction s as [|c s IH]; [reflexivity|].
  cbn [splitRuns].
  destruct (isTerminator c) eqn:Hc.
  - assert (Hdrop : contentChars (c :: s) = contentChars s).
    { simpl. unfold isContent. rewrite Hc, andb_false_r. reflexivity. }
    rewrite Hdrop. destruct s as [|c' s']; [reflexivity|].
    destruct (isTerminator c'); [exact IH|]. exact IH.
  - destruct (splitRuns isTerminator s) as [|p ps]; simpl in *.
    + rewrite <- IH. destruct (isContent c); reflexivity.
    + rewrite <- IH. reflexivity.
Qed.

Lemma contentChars_sentencesOf (text : jsstring) :
  contentChars (concat (Chunker.sentencesOf text)) = contentChars text.
Proof.
  unfold Chunker.sentencesOf. rewrite <- (contentChars_splitRuns text).
  induction (splitRuns isTerminator text) as [|p ps IH]; [reflexivity|].
  simpl. destruct (trim p) eqn:Hp; simpl.
  - rewrite contentChars_app, (contentChars_blank p Hp). exact IH.
  - rewrite !contentChars_app, IH. reflexivity.
Qed.

Lemma carried_flush (chunks : list jsstring) (buffer : jsstring) :
  carried (chunks ++ [trim buffer], []) = carried (chunks, buffer).
Proof.
  unfold carried. simpl.
  rewrite concat_app. simpl. rewrite !app_nil_r.
  rewrite !contentChars_app. now rewrite contentChars_trim.
Qed.

Lemma carried_append (chunks : list jsstring) (buffer sep piece : jsstring) :
  contentChars sep = [] ->
  carried (chunks, buffer ++ sep ++ piece)
  = carried (chunks, buffer) ++ contentChars piece.
Proof.
  intros Hsep. unfold carried. simpl.
  rewrite !contentChars_app, Hsep. simpl. now rewrite app_assoc.
Qed.

Lemma wordStep_carried (maxChunkSize : Z) st (word : jsstring) :
  carried (Chunker.wordStep maxChunkSize st word)
  = carried st ++ contentChars word.
Proof.
  destruct st as [chunks wordChunk]. unfold Chunker.wordStep.
  destruct (_ >? _)%Z.
  - destruct wordChunk as [|c w]; cbv beta iota zeta delta [truthy isEmpty negb].
    + now apply carried_append.
    + rewrite (carried_append _ [] [] word eq_refl). now rewrite carried_flush.
  - apply carried_append. now destruct (truthy wordChunk).
Qed.

Lemma words_carried (maxChunkSize : Z) (words : list jsstring) st :
  carried (fold_left (Chunker.wordStep maxChunkSize) words st)
  = carried st ++ contentChars (concat words).
Proof.
  revert st. induction words as [|w ws IH]; intros st; simpl.
  - now rewrite app_nil_r.
  - rewrite IH, wordStep_carried, contentChars_app. now rewrite app_assoc.
Qed.

Lemma sentenceStep_carried (maxChunkSize : Z) st (sentence : jsstring) :
  carried (Chunker.sentenceStep maxChunkSize st sentence)
  = carried st ++ contentChars sentence.
Proof.
  destruct st as [chunks currentChunk]. unfold Chunker.sentenceStep.
  rewrite <- (contentChars_trim sentence).
  set (trimmedSentence := trim sentence).
  destruct trimmedSentence as [|t ts] eqn:Ht.
  { simpl. now rewrite app_nil_r. }
  rewrite <- Ht. assert (Hne : isEmpty trimmedSentence = false) by now rewrite Ht.
  rewrite Hne. clear Ht Hne.
  destruct (_ >? _)%Z.
  - assert (Hflush :
      exists chunks', 
        (if truthy currentChunk then (chunks ++ [trim currentChunk], [])
         else (chunks, currentChunk)) = (chunks', [])
        /\ carried (chunks', []) = carried (chunks, currentChunk)).
    { destruct currentChunk as [|c cs]; simpl.
      - now exists chunks.
      - exists (chunks ++ [trim (c :: cs)]). split; [reflexivity|].
        apply carried_flush. }
    destruct Hflush as (chunks' & -> & Hc).
    destruct (_ >? _)%Z.
    + pose proof (words_carried maxChunkSize (splitOn space trimmedSentence)
                    (chunks', [])) as Hw.
      destruct (fold_left _ _ _) as [chunks'' wordChunk].
      rewrite contentChars_splitOn, Hc in Hw by reflexivity.
      rewrite <- Hw. now destruct wordChunk.
    + rewrite <- Hc. apply (carried_append chunks' [] [] trimmedSentence eq_refl).
  - apply carried_append. now destruct (truthy currentChunk).
Qed.

Lemma sentences_carried (maxChunkSize : Z) (sentences : list jsstring) st :
  carried (fold_left (Chunker.sentenceStep maxChunkSize) sentences st)
  = carried st ++ contentChars (concat sentences).
Proof.
  revert st. induction sentences as [|s ss IH]; intros st; simpl.
  - now rewrite app_nil_r.
  - rewrite IH, sentenceStep_carried, contentChars_app. now rewrite app_assoc.
Qed.

(** Whatever the bound, the chunks carry the content characters of the
    text, all of them and in order. *)
Lemma createTextChunks_carries (text : jsstring) (maxChunkSize : Z) :
  contentChars (concat (Chunker.createTextChunks text maxChunkSize))
  = contentChars text.
Proof.
  unfold Chunker.createTextChunks.
  pose proof (sentences_carried maxChunkSize (Chunker.sentencesOf text)
                ([], [])) as H.
  destruct (fold_left _ _ _) as [chunks currentChunk].
  rewrite contentChars_sentencesOf in H. simpl in H. rewrite <- H.
  unfold carried. simpl.
  destruct (trim currentChunk) eqn:Ht; simpl.
  - rewrite contentChars_app, (contentChars_blank _ Ht). now rewrite app_nil_r.
  - rewrite <- Ht, concat_app, !contentChars_app. simpl.
    now rewrite app_nil_r, contentChars_trim.
Qed.

End ChunkerContent.

(** C1 (as stated) fails: the sentence split drops the terminators, which
    are non-whitespace characters of the input.  For ["Hi!"] the chunker
    inserts no separator, the only chunk is ["Hi"], and the non-whitespace
    characters of the input are not even a subsequence of the chunks. *)
Lemma createTextChunks_drops_terminators :
  Chunker.createTextChunks (str "Hi!") 10 = [str "Hi"]
  /\ nonWhitespace (str "Hi!") = str "Hi!"
  /\ isSubsequence (nonWhitespace (str "Hi!"))
       (concat (Chunker.createTextChunks (str "Hi!") 10)) = false.
Proof. repeat split; vm_compute; reflexivity. Qed.

(** C1 (amended): for every text and every [maxSize >= 1], the concatenated
    chunks and the text have the same characters, in the same order, once
    whitespace and the terminators [. ! ?] are left out of both. *)
Theorem createTextChunks_preserves_content (text : jsstring) (maxSize : Z) :
  (1 <= maxSize)%Z ->
  contentChars (concat (Chunker.createTextChunks text maxSize))
  = contentChars text.
Proof. intros _. apply createTextChunks_carries. Qed.

Lemma createTextChunks_preserves_content_witness :
  (1 <= 15)%Z
  /\ contentChars
       (concat (Chunker.createTextChunks (str "Hello world. This is a test.") 15))
     = contentChars (str "Hello world. This is a test.").
Proof.
  split; [lia|].
  apply (createTextChunks_preserves_content
           (str "Hello world. This is a test.") 15).
  lia.
Defined.

(** Scenario A of the specification. *)
Example createTextChunks_scenario_A :
  Chunker.createTextChunks (str "Hello world. This is a test.") 15
  = [str "Hello world"; str "This is a test"].
Proof. vm_compute. reflexivity. Qed.

(** C2: the sentence buffer is checked with one character of separator and
    joined with two; for ["a.b"] and [maxSize = 3] the only chunk is
    ["a. b"], two sentences and four characters. *)
Theorem createTextChunks_exceeds_bound :
  Chunker.sentencesOf (str "a.b") = [str "a"; str "b"]
  /\ Chunker.createTextChunks (str "a.b") 3 = [str "a. b"]
  /\ len (str "a. b") = 4%Z.
Proof. repeat split; vm_compute; reflexivity. Qed.

(** *** The bound the chunker does keep *)

Section ChunkerBound.

Variables (text : jsstring) (maxSize : Z).
Hypothesis Hmax : (1 <= maxSize)%Z.

Lemma length_trimStart (s : jsstring) : length (trimStart s) <= length s.
Proof.
  induction s as [|c s IH]; simpl; [lia|].
  destruct (isWhiteSpace c); simpl; lia.
Qed.

Lemma len_trim (s : jsstring) : (len (trim s) <= len s)%Z.
Proof.
  unfold len, trim, trimEnd. rewrite length_rev.
  pose proof (length_trimStart (rev (trimStart s))) as H1.
  rewrite length_rev in H1. pose proof (length_trimStart s). lia.
Qed.

Lemma len_app (s t : jsstring) : len (s ++ t) = (len s + len t)%Z.
Proof. unfold len. rewrite length_app. lia. Qed.

Lemma chunkOk_flush (slack : Z) (b : jsstring) :
  (slack <= 1)%Z -> bufferOk text maxSize slack b ->
  chunkOk text maxSize (trim b).
Proof.
  intros Hs [Hb|[Hw Hb]].
  - left. pose proof (len_trim b). lia.
  - right. now exists b.
Qed.

Lemma wordStep_bound (chunks : list jsstring) (wordChunk word : jsstring) :
  isWordOf text word ->
  Forall (chunkOk text maxSize) chunks ->
  bufferOk text maxSize 0 wordChunk ->
  Forall (chunkOk text maxSize)
    (fst (Chunker.wordStep maxSize (chunks, wordChunk) word))
  /\ bufferOk text maxSize 0
       (snd (Chunker.wordStep maxSize (chunks, wordChunk) word)).
Proof.
  intros Hword Hchunks Hbuf. unfold Chunker.wordStep.
  destruct (Z.gtb_spec (len wordChunk + len word + 1) maxSize) as [Hgt|Hle].
  - assert (Hw : bufferOk text maxSize 0 word).
    { destruct (Z_le_gt_dec (len word) maxSize); [left; lia|now right]. }
    destruct wordChunk as [|c w]; cbn [truthy isEmpty negb fst snd].
    + split; [exact Hchunks|exact Hw].
    + split; [|exact Hw].
      apply Forall_app. split; [exact Hchunks|].
      constructor; [|constructor]. apply (chunkOk_flush 0); [lia|exact Hbuf].
  - cbn [fst snd]. split; [exact Hchunks|]. left.
    rewrite !len_app. destruct wordChunk; cbn [truthy isEmpty negb];
      unfold len in *; cbn [length] in *; lia.
Qed.

Lemma words_bound (words : list jsstring) (chunks : list jsstring)
    (wordChunk : jsstring) :
  Forall (isWordOf text) words ->
  Forall (chunkOk text maxSize) chunks ->
  bufferOk text maxSize 0 wordChunk ->
  Forall (chunkOk text maxSize)
    (fst (fold_left (Chunker.wordStep maxSize) words (chunks, wordChunk)))
  /\ bufferOk text maxSize 0
       (snd (fold_left (Chunker.wordStep maxSize) words (chunks, wordChunk))).
Proof.
  intros Hwords. revert chunks wordChunk.
  induction Hwords as [|w ws Hw _ IH]; intros chunks wordChunk Hc Hb;
    [now split|].
  cbn [fold_left].
  destruct (wordStep_bound chunks wordChunk w Hw Hc Hb) as [Hc' Hb'].
  destruct (Chunker.wordStep maxSize (chunks, wordChunk) w) as [chunks' wc'].
  now apply IH.
Qed.

Lemma bufferOk_slack (b : jsstring) :
  bufferOk text maxSize 0 b -> bufferOk text maxSize 1 b.
Proof. intros [H|H]; [left; lia|now right]. Qed.

Lemma sentenceStep_bound (chunks : list jsstring)
    (currentChunk sentence : jsstring) :
  In sentence (Chunker.sentencesOf text) ->
  Forall (chunkOk text maxSize) chunks ->
  bufferOk text maxSize 1 currentChunk ->
  Forall (chunkOk text maxSize)
    (fst (Chunker.sentenceStep maxSize (chunks, currentChunk) sentence))
  /\ bufferOk text maxSize 1
       (snd (Chunker.sentenceStep maxSize (chunks, currentChunk) sentence)).
Proof.
  intros Hs Hchunks Hbuf. unfold Chunker.sentenceStep.
  destruct (isEmpty (trim sentence)); [now split|].
  destruct (Z.gtb_spec (len currentChunk + len (trim sentence) + 1) maxSize)
    as [Hgt|Hle].
  - assert (Hflush :
      exists chunks' cur',
        (if truthy currentChunk then (chunks ++ [trim currentChunk], [])
         else (chunks, currentChunk)) = (chunks', cur')
        /\ Forall (chunkOk text maxSize) chunks'
        /\ bufferOk text maxSize 1 cur').
    { destruct currentChunk as [|c cs]; cbn [truthy isEmpty negb].
      - now exists chunks, [].
      - exists (chunks ++ [trim (c :: cs)]), []. split; [reflexivity|].
        split; [|left; unfold len; simpl; lia].
        apply Forall_app. split; [exact Hchunks|].
        constructor; [|constructor]. apply (chunkOk_flush 1); [lia|exact Hbuf]. }
    destruct Hflush as (chunks' & cur' & -> & Hc' & Hb').
    destruct (Z.gtb_spec (len (trim sentence)) maxSize) as [Hlong|Hshort].
    + assert (Hwords : Forall (isWordOf text) (splitOn space (trim sentence))).
      { apply List.Forall_forall. intros w Hw. now exists sentence. }
      destruct (words_bound _ chunks' [] Hwords Hc') as [Hc'' Hb''].
      { left. unfold len. simpl. lia. }
      destruct (fold_left _ _ _) as [chunks'' wordChunk].
      cbn [fst snd] in *. split; [exact Hc''|].
      destruct wordChunk; cbn [truthy isEmpty negb];
        [exact Hb'|now apply bufferOk_slack].
    + cbn [fst snd]. split; [exact Hc'|]. left. lia.
  - cbn [fst snd]. split; [exact Hchunks|]. left.
    rewrite !len_app. destruct currentChunk; cbn [truthy isEmpty negb];
      unfold len in *; cbn [length str List.map list_ascii_of_string] in *; lia.
Qed.

Lemma sentences_bound (sentences : list jsstring) (chunks : list jsstring)
    (currentChunk : jsstring) :
  Forall (fun s => In s (Chunker.sentencesOf text)) sentences ->
  Forall (chunkOk text maxSize) chunks ->
  bufferOk text maxSize 1 currentChunk ->
  Forall (chunkOk text maxSize)
    (fst (fold_left (Chunker.sentenceStep maxSize) sentences
            (chunks, currentChunk)))
  /\ bufferOk text maxSize 1
       (snd (fold_left (Chunker.sentenceStep maxSize) sentences
               (chunks, currentChunk))).
Proof.
  intros Hss. revert chunks currentChunk.
  induction Hss as [|s ss Hs _ IH]; intros chunks currentChunk Hc Hb;
    [now split|].
  cbn [fold_left].
  destruct (sentenceStep_bound chunks currentChunk s Hs Hc Hb) as [Hc' Hb'].
  destruct (Chunker.sentenceStep maxSize (chunks, currentChunk) s)
    as [chunks' cur'].
  now apply IH.
Qed.

(** Every chunk is within [maxSize + 1] characters, one more than the
    bound, unless it is a single word longer than [maxSize]. *)
Lemma createTextChunks_bound :
  Forall (chunkOk text maxSize) (Chunker.createTextChunks text maxSize).
Proof.
  unfold Chunker.createTextChunks.
  destruct (sentences_bound (Chunker.sentencesOf text) [] []) as [Hc Hb].
  - apply List.Forall_forall. now intros s Hs.
  - constructor.
  - left. unfold len. simpl. lia.
  - destruct (fold_left _ _ _) as [chunks currentChunk]. cbn [fst snd] in *.
    destruct (truthy (trim currentChunk)); [|exact Hc].
    apply Forall_app. split; [exact Hc|].
    constructor; [|constructor]. apply (chunkOk_flush 1); [lia|exact Hb].
Qed.

End ChunkerBound.

(** ** Conversation history *)

(** C3: the query orders ascending and limits to 10, which keeps the ten
    OLDEST messages.  With eleven messages the history is built from
    messages 1 to 10; the most recent ten are messages 2 to 11, and message
    11 is not in the prompt. *)
Theorem history_keeps_oldest_ten :
  Chat.fetchMessages elevenMessages (str "c1")
  = List.map sampleMessage [1; 2; 3; 4; 5; 6; 7; 8; 9; 10]%Z
  /\ lastMessages 10 elevenMessages (str "c1")
     = List.map sampleMessage [2; 3; 4; 5; 6; 7; 8; 9; 10; 11]%Z
  /\ Chat.conversationHistory elevenMessages (Some (str "c1"))
     = join (nl ++ nl)
         (List.map Chat.historyLine
            (List.map sampleMessage [1; 2; 3; 4; 5; 6; 7; 8; 9; 10]%Z))
  /\ Chat.includes
       (Chat.promptOf asciiToLowerCase noUser
          {| Chat.message := str "and then?";
             Chat.conversationId := Some (str "c1") |}
          elevenMessages)
       (str "User: m11") = false
  /\ Chat.includes
       (Chat.promptOf asciiToLowerCase noUser
          {| Chat.message := str "and then?";
             Chat.conversationId := Some (str "c1") |}
          elevenMessages)
       (str "User: m1" ++ nl ++ nl ++ str "Assistant: m2") = true.
Proof. repeat split; vm_compute; reflexivity. Qed.

(** ** Ingest: error paths *)

Section IngestPaths.

Variables (env : Ingest.Env) (req : Ingest.HttpRequest)
          (r : Ingest.IngestRequest) (db : Store).

Hypothesis Hmethod : Ingest.method req <> str "OPTIONS".
Hypothesis Hbody : Ingest.json_body req = Ok r.

(** After the preflight test and the parse, the handler is the download
    followed by the two nested [try] blocks. *)
Lemma serve_unfold :
  Ingest.serve env req db
  = match Ingest.download env (Ingest.filePath r) with
    | Ok fileData =>
        tryCatch (Ingest.processBlob env r fileData) (Ingest.markFailed env r) db
    | Throw message =>
        Ingest.fail500 (str "Failed to download file: " ++ message) db
    end.
Proof.
  unfold Ingest.serve. rewrite bool_decide_eq_false_2 by exact Hmethod.
  unfold tryCatch at 1, bind, lift. rewrite Hbody.
  destruct (Ingest.download env (Ingest.filePath r)) as [fileData|message].
  - unfold tryCatch.
    destruct (Ingest.processBlob env r fileData db) as [db' [resp|e]];
      [reflexivity|].
    unfold Ingest.markFailed, bind, Ingest.updateDocuments, ret.
    destruct (Ingest.markError env); reflexivity.
  - reflexivity.
Qed.

End IngestPaths.

(** The inner [try] block either throws with the store as it was, or
    returns after the success update, with or without the chunk rows. *)
Lemma processBlob_cases (env : Ingest.Env) (r : Ingest.IngestRequest)
    (fileData : Ingest.Blob) (db : Store) :
  (exists message, Ingest.processBlob env r fileData db = (db, Throw message))
  \/ (exists text resp db',
        Ingest.extractText fileData (Ingest.fileName r) (Ingest.fileType r)
        = Ok text
        /\ Ingest.updateError env = None
        /\ Ingest.processBlob env r fileData db = (db', Ok resp)
        /\ documents db'
           = documents
               (Ingest.patchDocuments (Ingest.documentId r)
                  (Ingest.setProcessed text (Ingest.now env)) db)
        /\ messages db' = messages db
        /\ (document_chunks db' = document_chunks db
            \/ document_chunks db'
               = document_chunks db
                 ++ Ingest.chunksData (Ingest.documentId r) 0
                      (Chunker.createTextChunks text 1000))).
Proof.
  unfold Ingest.processBlob, bind, lift.
  destruct (Ingest.extractText _ _ _) as [text|e]; [|left; eauto].
  unfold Ingest.updateDocuments.
  destruct (Ingest.updateError env) as [e|]; [left; unfold throw; eauto|].
  right. unfold ret at 1. unfold Ingest.whenM.
  destruct (0 <? length (Chunker.createTextChunks text 1000))%nat.
  - unfold bind, Ingest.insertChunks.
    destruct (Ingest.chunksError env); unfold ret;
      do 3 eexists; repeat split; eauto.
  - unfold ret. do 3 eexists; repeat split; eauto.
Qed.

Lemma processBlob_throw (env : Ingest.Env) (r : Ingest.IngestRequest)
    (fileData : Ingest.Blob) (db : Store) (message : jsstring) :
  snd (Ingest.processBlob env r fileData db) = Throw message ->
  Ingest.processBlob env r fileData db = (db, Throw message).
Proof.
  intros H.
  destruct (processBlob_cases env r fileData db)
    as [[m Hm]|(text & resp & db' & _ & _ & Hok & _)].
  - rewrite Hm in H |- *. simpl in H. congruence.
  - rewrite Hok in H. discriminate.
Qed.

Lemma Forall2_patched {A} (P : A -> bool) (f : A -> A) (R : A -> A -> Prop)
    (l : list A) :
  (forall a, P a = true -> R a (f a)) ->
  Forall2 (fun a a' => if P a then R a a' else a' = a) l
    (List.map (fun a => if P a then f a else a) l).
Proof.
  intros HR. induction l as [|a l IH]; simpl; constructor; [|exact IH].
  destruct (P a) eqn:HP; [now apply HR | reflexivity].
Qed.

Lemma Forall2_same {A} (P : A -> bool) (R : A -> A -> Prop) (l : list A) :
  (forall a, P a = true -> R a a) ->
  Forall2 (fun a a' => if P a then R a a' else a' = a) l l.
Proof.
  intros HR. induction l as [|a l IH]; constructor; [|exact IH].
  destruct (P a) eqn:HP; [now apply HR | reflexivity].
Qed.

(** C7: when the download fails the handler answers with status 500 and the
    error message, and the store, so every document record, content and
    metadata, is as it was before the invocation. *)
Theorem serve_download_failure (env : Ingest.Env) (req : Ingest.HttpRequest)
    (r : Ingest.IngestRequest) (db : Store) (message : jsstring) :
  Ingest.method req <> str "OPTIONS" ->
  Ingest.json_body req = Ok r ->
  Ingest.download env (Ingest.filePath r) = Throw message ->
  Ingest.serve env req db
  = (db,
     Ok {| status := 500;
           headers := jsonHeaders;
           body :=
             Some [("error",
                    JStr (str "Failed to download file: " ++ message))]%string |}).
Proof.
  intros Hmethod Hbody Hdown.
  rewrite (serve_unfold env req r db Hmethod Hbody), Hdown.
  reflexivity.
Qed.

Lemma serve_download_failure_witness :
  Ingest.serve noDownload (post (sampleRequest (str "text/plain")))
    (run [sampleUpload] emptyStore)
  = (run [sampleUpload] emptyStore,
     Ok {| status := 500;
           headers := jsonHeaders;
           body :=
             Some [("error",
                    JStr (str "Failed to download file: Object not found"))]%string |}).
Proof.
  apply (serve_download_failure noDownload
           (post (sampleRequest (str "text/plain")))
           (sampleRequest (str "text/plain"))
           (run [sampleUpload] emptyStore) (str "Object not found")).
  - vm_compute. discriminate.
  - reflexivity.
  - reflexivity.
Defined.

(** C9: a MIME type that is none of the four handled ones and does not
    start with [image/] is answered with the fallback string; the dispatch
    returns, it does not throw. *)
Theorem extractText_unsupported (fileData : Ingest.Blob)
    (fileName fileType : jsstring) :
  fileType <> str "text/plain" ->
  fileType <> str "application/pdf" ->
  fileType <> Ingest.docxType ->
  fileType <> Ingest.pptxType ->
  startsWith fileType (str "image/") = false ->
  Ingest.extractText fileData fileName fileType
  = Ok (str "Unsupported file type: " ++ fileType).
Proof.
  intros Htxt Hpdf Hdocx Hpptx Himg. unfold Ingest.extractText.
  rewrite !bool_decide_eq_false_2 by assumption.
  now rewrite Himg.
Qed.

Lemma extractText_unsupported_witness :
  Ingest.extractText (textBlob (str "PK")) (str "a.zip") (str "application/zip")
  = Ok (str "Unsupported file type: application/zip").
Proof.
  apply (extractText_unsupported (textBlob (str "PK")) (str "a.zip")
           (str "application/zip")).
  - vm_compute. discriminate.
  - vm_compute. discriminate.
  - vm_compute. discriminate.
  - vm_compute. discriminate.
  - reflexivity.
Defined.

(** The handler after a throw in the inner [try] block. *)
Lemma serve_after_throw (env : Ingest.Env) (req : Ingest.HttpRequest)
    (r : Ingest.IngestRequest) (db : Store) (fileData : Ingest.Blob)
    (message : jsstring) :
  Ingest.method req <> str "OPTIONS" ->
  Ingest.json_body req = Ok r ->
  Ingest.download env (Ingest.filePath r) = Ok fileData ->
  snd (Ingest.processBlob env r fileData db) = Throw message ->
  Ingest.serve env req db = Ingest.markFailed env r message db.
Proof.
  intros Hmethod Hbody Hdown Hthrow.
  rewrite (serve_unfold env req r db Hmethod Hbody), Hdown.
  unfold tryCatch. now rewrite (processBlob_throw _ _ _ _ _ Hthrow).
Qed.

(** The handler after the inner [try] block returned. *)
Lemma serve_after_return (env : Ingest.Env) (req : Ingest.HttpRequest)
    (r : Ingest.IngestRequest) (db db' : Store) (fileData : Ingest.Blob)
    (resp : Response) :
  Ingest.method req <> str "OPTIONS" ->
  Ingest.json_body req = Ok r ->
  Ingest.download env (Ingest.filePath r) = Ok fileData ->
  Ingest.processBlob env r fileData db = (db', Ok resp) ->
  Ingest.serve env req db = (db', Ok resp).
Proof.
  intros Hmethod Hbody Hdown Hret.
  rewrite (serve_unfold env req r db Hmethod Hbody), Hdown.
  unfold tryCatch. now rewrite Hret.
Qed.

Lemma sameFile_refl (d : Document) : sameFile d d.
Proof. repeat split. Qed.




(** The soft-failure path with the update taken, on the sample upload. *)
Example soft_failure_marks_document :
  List.map
    (fun d => (doc_content d, doc_metadata d !! "processed",
               doc_metadata d !! "processing_error",
               doc_metadata d !! "processed_at",
               doc_metadata d !! "original_name", doc_title d))
    (documents
       (fst (Ingest.serve (updateRefused (textBlob (str "Hi")))
               (post (sampleRequest (str "text/plain")))
               (run [sampleUpload] emptyStore))))
  = [(None, Some (JBool false),
      Some (JStr (str "Failed to update document: connection reset")),
      Some (JStr (str "2024-01-02T00:00:00.001Z")), None, str "notes.txt")].
Proof. vm_compute. reflexivity. Qed.

(** C10 (as stated) fails on the soft-failure path when the store refuses
    the update of the [catch] block: the keys written at upload are still
    in the metadata after the invocation, and no processing key is. *)
Lemma upload_keys_survive_refused_update :
  snd (Ingest.processBlob (storeDown (textBlob (str "Hi")))
         (sampleRequest (str "text/plain")) (textBlob (str "Hi"))
         (run [sampleUpload] emptyStore))
  = Throw (str "Failed to update document: connection reset")
  /\ List.map
       (fun d => (doc_metadata d !! "original_name",
                  doc_metadata d !! "storage_path",
                  dom (doc_metadata d)))
       (documents
          (fst (Ingest.serve (storeDown (textBlob (str "Hi")))
                  (post (sampleRequest (str "text/plain")))
                  (run [sampleUpload] emptyStore))))
     = [(Some (JStr (str "notes.txt")), Some (JStr (str "u1/1-x.txt")),
         ({[ "original_name"; "storage_path" ]} : gset string))].
Proof. split; vm_compute; reflexivity. Qed.

(** C10 (amended): on the success path, and on the soft-failure path when
    the store takes the update of the [catch] block, the update gives the
    named document a metadata object with the processing keys only, so the
    keys written at upload ([original_name], [storage_path]) are gone; on
    the soft-failure path with that update refused the document is as it
    was.  On every path [title], [file_name], [file_type] and [file_size]
    (and [id], [user_id]) are as they were, and other documents are
    untouched. *)
Theorem ingest_update_replaces_metadata (env : Ingest.Env)
    (req : Ingest.HttpRequest) (r : Ingest.IngestRequest) (db : Store)
    (fileData : Ingest.Blob) :
  Ingest.method req <> str "OPTIONS" ->
  Ingest.json_body req = Ok r ->
  Ingest.download env (Ingest.filePath r) = Ok fileData ->
  onDocument (Ingest.documentId r)
    (fun d d' =>
       sameFile d d'
       /\ ((exists resp,
               snd (Ingest.processBlob env r fileData db) = Ok resp) ->
           metadataKeys {[ "processed"; "processed_at"; "word_count" ]} d')
       /\ ((exists message,
               snd (Ingest.processBlob env r fileData db) = Throw message) ->
           Ingest.markError env = None ->
           metadataKeys {[ "processed"; "processing_error"; "processed_at" ]}
             d')
       /\ ((exists message,
               snd (Ingest.processBlob env r fileData db) = Throw message) ->
           Ingest.markError env <> None -> d' = d))
    db (fst (Ingest.serve env req db)).
Proof.
  intros Hmethod Hbody Hdown. unfold onDocument, metadataKeys.
  destruct (processBlob_cases env r fileData db)
    as [[m Hm]|(text & resp & db' & _ & _ & Hok & Hdocs & _)].
  - rewrite (serve_after_throw env req r db fileData m) by
      (try assumption; now rewrite Hm).
    unfold Ingest.markFailed, bind, Ingest.updateDocuments, ret.
    rewrite Hm. destruct (Ingest.markError env) as [e|].
    + cbn [fst]. apply Forall2_same. intros d _.
      split; [apply sameFile_refl|]. split; [intros [? ?]; discriminate|].
      split; [intros _ ?; discriminate|]. reflexivity.
    + cbn [fst Ingest.patchDocuments documents].
      apply Forall2_patched. intros d _.
      split; [repeat split|]. split; [intros [? ?]; discriminate|].
      split; [intros _ _; repeat split|].
      intros _ Hrefused. now contradict Hrefused.
  - rewrite (serve_after_return env req r db db' fileData resp) by assumption.
    rewrite Hok. cbn [fst snd]. rewrite Hdocs.
    cbn [Ingest.patchDocuments documents].
    apply Forall2_patched. intros d _.
    split; [repeat split|]. split; [intros _; repeat split|].
    split; intros [? ?]; discriminate.
Qed.

Lemma ingest_update_replaces_metadata_witness :
  onDocument (str "d1")
    (fun d d' =>
       sameFile d d'
       /\ ((exists resp,
               snd (Ingest.processBlob (updateRefused (textBlob (str "Hi")))
                      (sampleRequest (str "text/plain")) (textBlob (str "Hi"))
                      (run [sampleUpload] emptyStore)) = Ok resp) ->
           metadataKeys {[ "processed"; "processed_at"; "word_count" ]} d')
       /\ ((exists message,
               snd (Ingest.processBlob (updateRefused (textBlob (str "Hi")))
                      (sampleRequest (str "text/plain")) (textBlob (str "Hi"))
                      (run [sampleUpload] emptyStore)) = Throw message) ->
           Ingest.markError (updateRefused (textBlob (str "Hi"))) = None ->
           metadataKeys {[ "processed"; "processing_error"; "processed_at" ]}
             d')
       /\ ((exists message,
               snd (Ingest.processBlob (updateRefused (textBlob (str "Hi")))
                      (sampleRequest (str "text/plain")) (textBlob (str "Hi"))
                      (run [sampleUpload] emptyStore)) = Throw message) ->
           Ingest.markError (updateRefused (textBlob (str "Hi"))) <> None ->
           d' = d))
    (run [sampleUpload] emptyStore)
    (fst (Ingest.serve (updateRefused (textBlob (str "Hi")))
            (post (sampleRequest (str "text/plain")))
            (run [sampleUpload] emptyStore))).
Proof.
  apply (ingest_update_replaces_metadata (updateRefused (textBlob (str "Hi")))
           (post (sampleRequest (str "text/plain")))
           (sampleRequest (str "text/plain"))
           (run [sampleUpload] emptyStore) (textBlob (str "Hi"))).
  - vm_compute. discriminate.
  - reflexivity.
  - reflexivity.
Defined.

(** Both paths on the sample upload: the keys of the metadata after a
    successful ingest and after a soft failure whose update is taken. *)
Example processing_keys_on_both_paths :
  List.map (fun d => (dom (doc_metadata d), doc_title d, doc_file_size d))
    (documents
       (fst (Ingest.serve (healthy (textBlob (str "Hi")))
               (post (sampleRequest (str "text/plain")))
               (run [sampleUpload] emptyStore))))
  = [(({[ "processed"; "processed_at"; "word_count" ]} : gset string),
      str "notes.txt", 6%Z)]
  /\ List.map (fun d => (dom (doc_metadata d), doc_title d, doc_file_size d))
       (documents
          (fst (Ingest.serve (updateRefused (textBlob (str "Hi")))
                  (post (sampleRequest (str "text/plain")))
                  (run [sampleUpload] emptyStore))))
     = [(({[ "processed"; "processing_error"; "processed_at" ]} : gset string),
         str "notes.txt", 6%Z)].
Proof. split; vm_compute; reflexivity. Qed.

(** The upload keys are there before the ingest and gone after it. *)
Example upload_keys_replaced :
  List.map (fun d => doc_metadata d !! "original_name")
    (documents (run [sampleUpload] emptyStore))
  = [Some (JStr (str "notes.txt"))]
  /\ List.map (fun d => (doc_metadata d !! "original_name",
                         doc_metadata d !! "processed", doc_title d))
       (documents
          (run [sampleUpload;
                OpIngest (healthy (textBlob (str "Hi")))
                  (post (sampleRequest (str "text/plain")))] emptyStore))
     = [(None, Some (JBool true), str "notes.txt")].
Proof. split; vm_compute; reflexivity. Qed.

(** ** Sequences of operations *)

(** What one invocation of the handler does to the store. *)
Lemma serve_store (env : Ingest.Env) (req : Ingest.HttpRequest) (db : Store) :
  (exists patch,
      documents (fst (Ingest.serve env req db))
      = List.map patch (documents db)
      /\ forall d,
           patch d = d
           \/ (exists text at_, patch d = Ingest.setProcessed text at_ d)
           \/ (exists message at_, patch d = Ingest.setFailed message at_ d))
  /\ (document_chunks (fst (Ingest.serve env req db)) = document_chunks db
      \/ exists r chunks,
           Ingest.json_body req = Ok r
           /\ document_chunks (fst (Ingest.serve env req db))
              = document_chunks db
                ++ Ingest.chunksData (Ingest.documentId r) 0 chunks).
Proof.
  assert (Hsame : forall db' : Store,
            documents db' = documents db ->
            document_chunks db' = document_chunks db ->
            (exists patch,
                documents db' = List.map patch (documents db)
                /\ forall d,
                     patch d = d
                     \/ (exists text at_,
                            patch d = Ingest.setProcessed text at_ d)
                     \/ (exists message at_,
                            patch d = Ingest.setFailed message at_ d))
            /\ (document_chunks db' = document_chunks db
                \/ exists r chunks,
                     Ingest.json_body req = Ok r
                     /\ document_chunks db'
                        = document_chunks db
                          ++ Ingest.chunksData (Ingest.documentId r) 0 chunks)).
  { intros db' Hd Hc. split; [|now left].
    exists (fun d => d). rewrite List.map_id. split; [exact Hd|now left]. }
  destruct (decide (Ingest.method req = str "OPTIONS")) as [Hopt|Hmethod].
  { unfold Ingest.serve. rewrite bool_decide_eq_true_2 by exact Hopt.
    now apply Hsame. }
  destruct (Ingest.json_body req) as [r|e] eqn:Hbody.
  2:{ unfold Ingest.serve. rewrite bool_decide_eq_false_2 by exact Hmethod.
      unfold tryCatch, bind, lift. rewrite Hbody. now apply Hsame. }
  rewrite (serve_unfold env req r db Hmethod Hbody).
  destruct (Ingest.download env (Ingest.filePath r)) as [fileData|e];
    [|now apply Hsame].
  unfold tryCatch.
  destruct (processBlob_cases env r fileData db)
    as [[m Hm]|(text & resp & db' & _ & _ & Hok & Hdocs & _ & Hchunks)].
  - rewrite Hm. unfold Ingest.markFailed, bind, Ingest.updateDocuments, ret.
    destruct (Ingest.markError env) as [e|]; [now apply Hsame|].
    cbn [fst Ingest.patchDocuments documents document_chunks].
    split; [|now left]. eexists. split; [reflexivity|].
    intros d. cbv beta. destruct (bool_decide _); eauto.
  - rewrite Hok. cbn [fst]. split.
    + rewrite Hdocs. cbn [Ingest.patchDocuments documents].
      eexists. split; [reflexivity|].
      intros d. cbv beta. destruct (bool_decide _); eauto.
    + destruct Hchunks as [Hc|Hc]; [now left|]. right. eauto.
Qed.

Lemma contentAgrees_newDocument (id userId fileName filePath : jsstring)
    (file : Upload.File) :
  contentAgrees (Upload.newDocument id userId fileName filePath file).
Proof.
  split.
  - intros [Hp _]. discriminate Hp.
  - intros H. now contradict H.
Qed.

Lemma contentAgrees_setProcessed (text at_ : jsstring) (d : Document) :
  contentAgrees (Ingest.setProcessed text at_ d).
Proof.
  split.
  - intros _. discriminate.
  - intros _. left. split; reflexivity.
Qed.

Lemma contentAgrees_setFailed (message at_ : jsstring) (d : Document) :
  contentAgrees d -> contentAgrees (Ingest.setFailed message at_ d).
Proof.
  intros _. split.
  - intros [Hp _]. discriminate Hp.
  - intros _. right. split; [reflexivity|]. eexists. reflexivity.
Qed.

Lemma contentAgrees_step (db : Store) (op : Op) :
  Forall contentAgrees (documents db) ->
  Forall contentAgrees (documents (step db op)).
Proof.
  intros Hdb. destruct op as [id userId fileName filePath file|env req].
  - cbn. apply Forall_app. split; [exact Hdb|].
    constructor; [apply contentAgrees_newDocument|constructor].
  - cbn [step].
    destruct (serve_store env req db) as [(patch & -> & Hpatch) _].
    induction Hdb as [|d l Hd _ IH]; [constructor|].
    cbn [List.map]. constructor; [|exact IH].
    destruct (Hpatch d) as [->|[(t & a & ->)|(m & a & ->)]].
    + exact Hd.
    + apply contentAgrees_setProcessed.
    + now apply contentAgrees_setFailed.
Qed.

Lemma contentAgrees_run (ops : list Op) (db : Store) :
  Forall contentAgrees (documents db) ->
  Forall contentAgrees (documents (run ops db)).
Proof.
  revert db. induction ops as [|op ops IH]; intros db Hdb; [exact Hdb|].
  cbn. apply IH. now apply contentAgrees_step.
Qed.

(** C4 (as stated) fails: a soft failure updates [metadata] only, so after a
    successful ingest followed by a soft failure of a second ingest of the
    same document, [content] is still there while [metadata] marks
    [processed: false] with a [processing_error]. *)
Lemma content_without_processed_mark :
  List.map
    (fun d => (doc_content d, doc_metadata d !! "processed",
               doc_metadata d !! "processing_error"))
    (documents (run failAfterSuccess emptyStore))
  = [(Some (str "Hi"), Some (JBool false),
      Some (JStr (str "Failed to update document: connection reset")))]
  /\ Exists (fun d => ~ (doc_content d <> None <-> markedProcessed d))
       (documents (run failAfterSuccess emptyStore)).
Proof.
  split; [vm_compute; reflexivity|].
  apply Exists_cons_hd. intros [H _].
  destruct H as [Hp _]; [discriminate|].
  vm_compute in Hp. discriminate Hp.
Qed.

Lemma Forall2_diag {A} (R : A -> A -> Prop) (l : list A) :
  (forall a, R a a) -> Forall2 R l l.
Proof. intros HR. induction l; constructor; auto. Qed.

Lemma Forall_through {A} (P Q : A -> Prop) (R : A -> A -> Prop)
    (l l' : list A) :
  Forall P l -> Forall2 R l l' ->
  (forall a a', P a -> R a a' -> Q a') -> Forall Q l'.
Proof.
  intros HP HR Hstep. induction HR as [|a a' l l' Ha _ IH]; [constructor|].
  inversion HP; subst. constructor; [eapply Hstep; eauto|now apply IH].
Qed.

(** Row by row: an invocation leaves a document as it was, or, when the
    row's id is the requested one, applies one of the two updates to it. *)
Lemma serve_rows (env : Ingest.Env) (req : Ingest.HttpRequest) (db : Store) :
  Forall2
    (fun d d' =>
       d' = d
       \/ exists r,
            Ingest.json_body req = Ok r
            /\ doc_id d = Ingest.documentId r
            /\ ((exists text at_, d' = Ingest.setProcessed text at_ d)
                \/ (exists message at_,
                       d' = Ingest.setFailed message at_ d)))
    (documents db) (documents (fst (Ingest.serve env req db))).
Proof.
  assert (Hpatched : forall r patch,
    Ingest.json_body req = Ok r ->
    (forall d,
        (exists text at_, patch d = Ingest.setProcessed text at_ d)
        \/ (exists message at_, patch d = Ingest.setFailed message at_ d)) ->
    Forall2
      (fun d d' =>
         d' = d
         \/ exists r0,
              Ingest.json_body req = Ok r0
              /\ doc_id d = Ingest.documentId r0
              /\ ((exists text at_, d' = Ingest.setProcessed text at_ d)
                  \/ (exists message at_,
                         d' = Ingest.setFailed message at_ d)))
      (documents db)
      (documents (Ingest.patchDocuments (Ingest.documentId r) patch db))).
  { intros r patch Hbody Hpatch. cbn [Ingest.patchDocuments documents].
    induction (documents db) as [|d l IH]; [constructor|].
    cbn [List.map]. constructor; [|exact IH].
    destruct (bool_decide_reflect (doc_id d = Ingest.documentId r)) as [Hid|Hid];
      [|now left].
    right. exists r. split; [exact Hbody|]. split; [exact Hid|apply Hpatch]. }
  destruct (decide (Ingest.method req = str "OPTIONS")) as [Hopt|Hmethod].
  { unfold Ingest.serve. rewrite bool_decide_eq_true_2 by exact Hopt.
    apply Forall2_diag. now left. }
  destruct (Ingest.json_body req) as [r|e] eqn:Hbody.
  2:{ unfold Ingest.serve. rewrite bool_decide_eq_false_2 by exact Hmethod.
      unfold tryCatch, bind, lift. rewrite Hbody.
      apply Forall2_diag. now left. }
  rewrite (serve_unfold env req r db Hmethod Hbody).
  destruct (Ingest.download env (Ingest.filePath r)) as [fileData|e];
    [|apply Forall2_diag; now left].
  unfold tryCatch.
  destruct (processBlob_cases env r fileData db)
    as [[m Hm]|(text & resp & db' & _ & _ & Hok & Hdocs & _)].
  - rewrite Hm. unfold Ingest.markFailed, bind, Ingest.updateDocuments, ret.
    destruct (Ingest.markError env) as [e|]; [apply Forall2_diag; now left|].
    cbn [fst]. apply (Hpatched r); [reflexivity|]. intros d. right. eauto.
  - rewrite Hok. cbn [fst]. rewrite Hdocs.
    apply (Hpatched r); [reflexivity|]. intros d. left. eauto.
Qed.

Lemma ingestsOf_snoc (id : jsstring) (pre : list Op) (op : Op) :
  ingestsOf id (pre ++ [op])
  = ingestsOf id pre + (if ingests id op then 1 else 0).
Proof.
  unfold ingestsOf. rewrite List.filter_app, length_app. cbn [List.filter].
  now destruct (ingests id op).
Qed.

Lemma traceAgrees_later (pre : list Op) (op : Op) (d : Document) :
  traceAgrees pre d -> traceAgrees (pre ++ [op]) d.
Proof.
  intros (Hc & H0 & H1). unfold traceAgrees. rewrite ingestsOf_snoc.
  split; [exact Hc|]. split; [intros H; apply H0; lia|].
  intros H. apply H1. lia.
Qed.

Lemma traceAgrees_step (pre : list Op) (db : Store) (op : Op) :
  Forall (traceAgrees pre) (documents db) ->
  Forall (traceAgrees (pre ++ [op])) (documents (step db op)).
Proof.
  intros Hdb. destruct op as [id userId fileName filePath file|env req].
  - cbn. apply Forall_app. split.
    + eapply Forall_impl; [exact Hdb|]. intros d. apply traceAgrees_later.
    + constructor; [|constructor].
      split; [apply contentAgrees_newDocument|].
      split; [reflexivity|]. intros _ H. now contradict H.
  - cbn [step].
    apply (Forall_through _ _ _ _ _ Hdb (serve_rows env req db)).
    intros d d' Hd [->|(r & Hbody & Hid & Hpatch)];
      [now apply traceAgrees_later|].
    destruct Hd as (Hc & H0 & H1).
    assert (Hcount : forall d0 : Document,
              doc_id d0 = doc_id d ->
              ingestsOf (doc_id d0) (pre ++ [OpIngest env req])
              = S (ingestsOf (doc_id d) pre)).
    { intros d0 ->. rewrite ingestsOf_snoc. cbn [ingests]. rewrite Hbody.
      rewrite bool_decide_eq_true_2 by (symmetry; exact Hid). lia. }
    destruct Hpatch as [(t & a & ->)|(m & a & ->)]; unfold traceAgrees;
      rewrite Hcount by reflexivity.
    + split; [apply contentAgrees_setProcessed|].
      split; [discriminate|]. intros _ _. split; reflexivity.
    + split; [now apply contentAgrees_setFailed|].
      split; [discriminate|]. intros Hone Hcontent.
      cbn [Ingest.setFailed doc_content] in Hcontent.
      contradict Hcontent. apply H0. lia.
Qed.

Lemma traceAgrees_run (ops pre : list Op) (db : Store) :
  Forall (traceAgrees pre) (documents db) ->
  Forall (traceAgrees (pre ++ ops)) (documents (run ops db)).
Proof.
  revert pre db. induction ops as [|op ops IH]; intros pre db Hdb.
  - now rewrite app_nil_r.
  - cbn [run fold_left]. fold (run ops (step db op)).
    replace (pre ++ op :: ops) with ((pre ++ [op]) ++ ops)
      by now rewrite <- app_assoc.
    apply IH. now apply traceAgrees_step.
Qed.

(** C4 (amended): in every state reached from the empty store by uploads
    and ingest invocations, each document satisfies: if its metadata marks
    [processed: true] with no [processing_error] its content is non-null;
    if its content is non-null its metadata marks [processed: true] with no
    [processing_error], or marks [processed: false] with a
    [processing_error]; and if at most one ingest invocation of the trace
    names its id, its content is non-null if and only if its metadata marks
    [processed: true] with no [processing_error]. *)
Theorem content_agrees_with_metadata (ops : list Op) :
  Forall
    (fun d =>
       (markedProcessed d -> doc_content d <> None)
       /\ (doc_content d <> None -> markedProcessed d \/ markedFailed d)
       /\ (ingestsOf (doc_id d) ops <= 1 ->
           (doc_content d <> None <-> markedProcessed d)))
    (documents (run ops emptyStore)).
Proof.
  pose proof (traceAgrees_run ops [] emptyStore (List.Forall_nil _)) as H.
  cbn [app] in H. eapply Forall_impl; [exact H|].
  intros d ([Hp Hc] & _ & H1). split; [exact Hp|]. split; [exact Hc|].
  intros Hone. split; [now apply H1|exact Hp].
Qed.

(** ** Chunk ordinals *)

Lemma chunksData_indices (id : jsstring) (chunks : list jsstring) (from : nat) :
  List.map (fun c => chunk_metadata c !! "chunk_index")
    (Ingest.chunksData id from chunks)
  = List.map (fun i => Some (JNum (Z.of_nat i))) (seq from (length chunks)).
Proof.
  revert from. induction chunks as [|chunk rest IH]; intros from;
    [reflexivity|].
  cbn [Ingest.chunksData List.map length seq chunk_metadata].
  f_equal. apply IH.
Qed.

Lemma chunksData_of (id id' : jsstring) (chunks : list jsstring) (from : nat) :
  List.filter (fun c => bool_decide (chunk_document_id c = id'))
    (Ingest.chunksData id from chunks)
  = if bool_decide (id = id') then Ingest.chunksData id from chunks else [].
Proof.
  revert from. induction chunks as [|chunk rest IH]; intros from.
  - now destruct (bool_decide _).
  - cbn [Ingest.chunksData List.filter chunk_document_id].
    rewrite IH. now destruct (bool_decide _).
Qed.

Lemma chunkIndices_step (db : Store) (op : Op) (id : jsstring) :
  chunkIndices (step db op) id = chunkIndices db id
  \/ (ingests id op = true
      /\ exists n,
           chunkIndices (step db op) id = chunkIndices db id ++ ordinals n).
Proof.
  destruct op as [id0 userId fileName filePath file|env req].
  - left. reflexivity.
  - cbn [step ingests].
    destruct (serve_store env req db) as [_ [Hc|(r & chunks & Hbody & Hc)]];
      unfold chunkIndices; rewrite Hc; [now left|].
    rewrite List.filter_app, List.map_app, chunksData_of, Hbody.
    destruct (bool_decide _); [|left; cbn; now rewrite app_nil_r].
    right. split; [reflexivity|].
    exists (length chunks). now rewrite chunksData_indices.
Qed.

Lemma chunkIndices_run (id : jsstring) (ops : list Op) (db : Store)
    (k : nat) :
  (exists batches,
      chunkIndices db id = concat (List.map ordinals batches)
      /\ length batches <= k) ->
  exists batches,
    chunkIndices (run ops db) id = concat (List.map ordinals batches)
    /\ length batches <= k + ingestsOf id ops.
Proof.
  revert db k. induction ops as [|op ops IH]; intros db k (bs & Hbs & Hk).
  - exists bs. split; [exact Hbs|]. unfold ingestsOf. simpl. lia.
  - cbn [run fold_left]. fold (run ops (step db op)).
    unfold ingestsOf. cbn [List.filter].
    destruct (chunkIndices_step db op id) as [Hstep|(Hop & n & Hstep)].
    + destruct (IH (step db op) k) as (bs' & Hbs' & Hk').
      { exists bs. split; [congruence|exact Hk]. }
      exists bs'. split; [exact Hbs'|].
      unfold ingestsOf in Hk'. destruct (ingests id op); simpl; lia.
    + destruct (IH (step db op) (S k)) as (bs' & Hbs' & Hk').
      { exists (bs ++ [n]). split.
        - rewrite Hstep, Hbs, List.map_app, concat_app. simpl.
          now rewrite app_nil_r.
        - rewrite length_app. simpl. lia. }
      exists bs'. split; [exact Hbs'|].
      unfold ingestsOf in Hk'. rewrite Hop. simpl. lia.
Qed.

(** C5 (as stated) fails: every ingest numbers its chunks from 0 and none
    removes the chunks stored before, so two ingests of one document leave
    the ordinals 0, 0. *)
Lemma chunk_ordinals_repeat :
  chunkIndices (run ingestTwice emptyStore) (str "d1")
  = [Some (JNum 0); Some (JNum 0)]
  /\ chunkIndices (run ingestTwice emptyStore) (str "d1") <> ordinals 2.
Proof. split; [vm_compute; reflexivity|]. vm_compute. discriminate. Qed.

(** C5 (amended): after any sequence of uploads and ingest invocations from
    the empty store, the [chunk_index] values of the stored chunks of a
    document, in insertion order, are runs [0, 1, ..., n-1] one after the
    other, at most one run per ingest invocation naming the document; with
    at most one such invocation they are [0, 1, ..., n-1]. *)
Theorem chunk_ordinals_runs (ops : list Op) (id : jsstring) :
  exists batches : list nat,
    chunkIndices (run ops emptyStore) id
    = concat (List.map ordinals batches)
    /\ length batches <= ingestsOf id ops
    /\ (ingestsOf id ops <= 1 ->
        exists n, chunkIndices (run ops emptyStore) id = ordinals n).
Proof.
  destruct (chunkIndices_run id ops emptyStore 0) as (bs & H1 & H2).
  - exists []. split; [reflexivity|]. simpl. lia.
  - exists bs. split; [exact H1|]. split; [lia|].
    intros Hone. destruct bs as [|n [|n' bs]].
    + now exists 0.
    + exists n. rewrite H1. simpl. now rewrite app_nil_r.
    + simpl in H2. lia.
Qed.

(** ** Relevance selector *)

Lemma startsWith_spec (s prefix : jsstring) :
  startsWith s prefix = true <-> exists post, s = prefix ++ post.
Proof.
  revert s. induction prefix as [|p prefix IH]; intros s; simpl.
  - split; [intros _; now exists s|reflexivity].
  - destruct s as [|c s].
    + split; [discriminate|intros [post H]; discriminate].
    + rewrite andb_true_iff, N.eqb_eq, IH. split.
      * intros [-> [post ->]]. now exists post.
      * intros [post H]. injection H as -> ->. split; [reflexivity|].
        now exists post.
Qed.

Lemma includes_spec (s sub : jsstring) :
  Chat.includes s sub = true <-> substring sub s.
Proof.
  unfold substring. induction s as [|c s IH]; cbn [Chat.includes].
  - rewrite orb_false_r, startsWith_spec. split.
    + intros [post H]. now exists [], post.
    + intros (pre & post & H). destruct pre as [|x pre]; [|discriminate].
      now exists post.
  - rewrite orb_true_iff, startsWith_spec, IH. split.
    + intros [[post H]|(pre & post & H)].
      * now exists [], post.
      * exists (c :: pre), post. now rewrite H.
    + intros (pre & post & H). destruct pre as [|x pre].
      * left. now exists post.
      * right. injection H as -> ->. now exists pre, post.
Qed.

Lemma join_cons (sep p : jsstring) (ps : list jsstring) :
  ps <> [] -> join sep (p :: ps) = p ++ sep ++ join sep ps.
Proof. destruct ps; [contradiction|reflexivity]. Qed.

(** [split(' ')] cuts at every space and nowhere else: the pieces hold no
    space, and joined by a space they give the string back. *)
Lemma splitOn_join (sep : char) (s : jsstring) :
  join [sep] (splitOn sep s) = s
  /\ Forall (fun piece => ~ In sep piece) (splitOn sep s)
  /\ splitOn sep s <> [].
Proof.
  induction s as [|c s (IHj & IHf & IHn)]; cbn [splitOn].
  - repeat split; [repeat constructor; now intros []|discriminate].
  - destruct (N.eqb_spec c sep) as [->|Hne].
    + repeat split; [|constructor; [now intros []|exact IHf]|discriminate].
      rewrite join_cons by exact IHn. now rewrite IHj.
    + destruct (splitOn sep s) as [|p ps]; [contradiction|].
      repeat split; [|constructor|discriminate].
      * destruct ps as [|q ps].
        -- cbn in *. now rewrite IHj.
        -- rewrite join_cons in * by discriminate.
           cbn. now rewrite <- IHj.
      * inversion IHf; subst. intros [Heq|Hin]; [now apply Hne|contradiction].
      * now inversion IHf.
Qed.

(** C6 (as stated) fails in both directions: the question is split at the
    space character only.  A tab does not delimit tokens, so the document
    holding ["photosynthesis"] is not selected for the question
    ["tell<TAB>photosynthesis"], and the document holding ["ab<TAB>cd"] is
    selected for the question ["ab<TAB>cd"], none of whose
    whitespace-delimited tokens is longer than 3 characters. *)
Lemma selector_splits_on_space_only :
  (whitespaceTokens tabbedQuestion = [str "tell"; str "photosynthesis"]
   /\ existsb
        (fun token =>
           Chat.includes (asciiToLowerCase (str "photosynthesis"))
             (asciiToLowerCase token))
        (whitespaceTokens tabbedQuestion) = true
   /\ Chat.relevantDocs asciiToLowerCase tabbedQuestion
        [docWith (str "photosynthesis")] = [])
  /\ (whitespaceTokens (str "ab" ++ [9%N] ++ str "cd") = []
      /\ Chat.relevantDocs asciiToLowerCase (str "ab" ++ [9%N] ++ str "cd")
           [docWith (str "ab" ++ [9%N] ++ str "cd")]
         = [docWith (str "ab" ++ [9%N] ++ str "cd")]).
Proof. repeat split; vm_compute; reflexivity. Qed.

(** C6 (amended): a considered document with non-empty content is selected
    if and only if its lower-cased content contains, as a substring, a
    token of the lower-cased question that is longer than 3 characters,
    the tokens being the pieces between space characters. *)
Theorem selector_selects_iff (toLowerCase : jsstring -> jsstring)
    (message : jsstring) (docs : list Document) (doc : Document)
    (c : jsstring) :
  In doc docs ->
  doc_content doc = Some c ->
  c <> [] ->
  In doc (Chat.relevantDocs toLowerCase message docs)
  <-> exists token,
        In token (splitOn space (toLowerCase message))
        /\ 3 < length token
        /\ substring token (toLowerCase c).
Proof.
  intros Hin Hc Hne. unfold Chat.relevantDocs.
  rewrite List.filter_In. unfold Chat.isRelevant, Chat.keywords. rewrite Hc.
  destruct c as [|x c]; [contradiction|]. cbn [isEmpty].
  rewrite existsb_exists. split.
  - intros [_ (token & Htok & Hinc)].
    apply List.filter_In in Htok as [Htok Hlen].
    exists token. split; [exact Htok|].
    split; [now apply Nat.ltb_lt|]. now apply includes_spec.
  - intros (token & Htok & Hlen & Hsub). split; [exact Hin|].
    exists token. split; [|now apply includes_spec].
    apply List.filter_In. split; [exact Htok|]. now apply Nat.ltb_lt.
Qed.

Lemma selector_selects_iff_witness :
  In (docWith (str "Plants use Photosynthesis."))
    (Chat.relevantDocs asciiToLowerCase (str "what is photosynthesis")
       [docWith (str "Plants use Photosynthesis.")])
  <-> exists token,
        In token
          (splitOn space (asciiToLowerCase (str "what is photosynthesis")))
        /\ 3 < length token
        /\ substring token
             (asciiToLowerCase (str "Plants use Photosynthesis.")).
Proof.
  apply (selector_selects_iff asciiToLowerCase (str "what is photosynthesis")
           [docWith (str "Plants use Photosynthesis.")]
           (docWith (str "Plants use Photosynthesis."))
           (str "Plants use Photosynthesis.")).
  - left. reflexivity.
  - reflexivity.
  - vm_compute. discriminate.
Defined.

(** Scenario C of the specification. *)
Example selector_scenario_C :
  Chat.sources
    (Chat.relevantDocs asciiToLowerCase (str "what is photosynthesis")
       [docWith (str "Plants use Photosynthesis.")])
  = [JObj [("document_id", JStr (str "d1"));
           ("document_title", JStr (str "notes.txt"));
           ("relevance_score", JNum 1)]%string].
Proof. vm_compute. reflexivity. Qed.

(** ** Scenarios of the specification *)

(** Scenario B: a [.pptx] upload gets the guidance text as content, is
    marked processed, and has chunks. *)
Example ingest_scenario_B :
  let pptx :=
    {| Ingest.documentId := str "d1";
       Ingest.filePath := str "u1/1-x.pptx";
       Ingest.fileName := str "slides.pptx";
       Ingest.fileType := Ingest.pptxType |} in
  let db :=
    run [sampleUpload; OpIngest (healthy (textBlob (str "PK"))) (post pptx)]
      emptyStore in
  List.map
    (fun d => (doc_content d, doc_metadata d !! "processed"))
    (documents db)
  = [(Some (Ingest.extractPptxText (textBlob (str "PK"))),
      Some (JBool true))]
  /\ (0 <? length (document_chunks db))%nat = true.
Proof. split; vm_compute; reflexivity. Qed.

(** Scenario D: without a conversation and without a matching document the
    prompt has neither documents nor history. *)
Example chat_scenario_D :
  Chat.promptOf asciiToLowerCase noUser
    {| Chat.message := str "hello there";
       Chat.conversationId := None |}
    emptyStore
  = str "You are an intelligent educational assistant. " ++ nl ++ nl
    ++ str "USER QUESTION: hello there" ++ nl ++ nl
    ++ str "Please provide a helpful response. If you need specific document content to answer accurately, let the user know they should upload relevant documents.".
Proof. vm_compute. reflexivity. Qed.

(** * Further properties of the chunker *)

Section ChunkerShape.

Lemma trimStart_snoc (s : jsstring) (c : char) :
  isWhiteSpace c = false -> trimStart (s ++ [c]) = trimStart s ++ [c].
Proof.
  intros Hc. induction s as [|x s IH]; simpl; [now rewrite Hc|].
  destruct (isWhiteSpace x); [exact IH|reflexivity].
Qed.

Lemma trimStart_fixed (s : jsstring) :
  match s with [] => True | c :: _ => isWhiteSpace c = false end ->
  trimStart s = s.
Proof. destruct s as [|c s]; simpl; [reflexivity|]. now intros ->. Qed.

Lemma trimStart_head (s : jsstring) :
  match trimStart s with [] => True | c :: _ => isWhiteSpace c = false end.
Proof.
  induction s as [|c s IH]; simpl; [exact I|].
  destruct (isWhiteSpace c) eqn:Hc; [exact IH|exact Hc].
Qed.

Lemma trimEnd_head (s : jsstring) :
  match s with [] => True | c :: _ => isWhiteSpace c = false end ->
  match trimEnd s with [] => True | c :: _ => isWhiteSpace c = false end.
Proof.
  unfold trimEnd. destruct s as [|c s]; [intros _; exact I|].
  intros Hc. simpl rev. rewrite (trimStart_snoc _ _ Hc), rev_app_distr.
  simpl. exact Hc.
Qed.

Lemma trim_idempotent (s : jsstring) : trim (trim s) = trim s.
Proof.
  assert (Hhead := trimEnd_head (trimStart s) (trimStart_head s)).
  fold (trim s) in Hhead. unfold trim at 1.
  rewrite (trimStart_fixed _ Hhead). unfold trim, trimEnd.
  rewrite rev_involutive.
  rewrite (trimStart_fixed (trimStart _) (trimStart_head _)). reflexivity.
Qed.

Lemma wordStep_trimmed (maxChunkSize : Z) (chunks : list jsstring)
    (wordChunk word : jsstring) :
  Forall isTrimmed chunks ->
  Forall isTrimmed (fst (Chunker.wordStep maxChunkSize (chunks, wordChunk) word)).
Proof.
  intros H. unfold Chunker.wordStep.
  destruct (_ >? _)%Z; [|exact H].
  destruct (truthy wordChunk); [|exact H].
  cbn [fst]. apply Forall_app. split; [exact H|].
  constructor; [apply trim_idempotent|constructor].
Qed.

Lemma words_trimmed (maxChunkSize : Z) (words : list jsstring)
    (chunks : list jsstring) (wordChunk : jsstring) :
  Forall isTrimmed chunks ->
  Forall isTrimmed
    (fst (fold_left (Chunker.wordStep maxChunkSize) words (chunks, wordChunk))).
Proof.
  revert chunks wordChunk.
  induction words as [|w ws IH]; intros chunks wordChunk H; [exact H|].
  cbn [fold_left].
  pose proof (wordStep_trimmed maxChunkSize chunks wordChunk w H) as H'.
  destruct (Chunker.wordStep maxChunkSize (chunks, wordChunk) w).
  now apply IH.
Qed.

Lemma sentenceStep_trimmed (maxChunkSize : Z) (chunks : list jsstring)
    (currentChunk sentence : jsstring) :
  Forall isTrimmed chunks ->
  Forall isTrimmed
    (fst (Chunker.sentenceStep maxChunkSize (chunks, currentChunk) sentence)).
Proof.
  intros H. unfold Chunker.sentenceStep.
  destruct (isEmpty (trim sentence)); [exact H|].
  destruct (_ >? _)%Z; [|exact H].
  assert (Hflush :
    Forall isTrimmed
      (fst (if truthy currentChunk then (chunks ++ [trim currentChunk], [])
            else (chunks, currentChunk)))).
  { destruct (truthy currentChunk); [|exact H].
    cbn [fst]. apply Forall_app. split; [exact H|].
    constructor; [apply trim_idempotent|constructor]. }
  destruct (if truthy currentChunk then _ else _) as [chunks' cur'].
  cbn [fst] in Hflush.
  destruct (_ >? _)%Z; [|exact Hflush].
  pose proof (words_trimmed maxChunkSize (splitOn space (trim sentence))
                chunks' [] Hflush) as Hw.
  now destruct (fold_left _ _ _).
Qed.

Lemma sentences_trimmed (maxChunkSize : Z) (sentences : list jsstring)
    (chunks : list jsstring) (currentChunk : jsstring) :
  Forall isTrimmed chunks ->
  Forall isTrimmed
    (fst (fold_left (Chunker.sentenceStep maxChunkSize) sentences
            (chunks, currentChunk))).
Proof.
  revert chunks currentChunk.
  induction sentences as [|s ss IH]; intros chunks currentChunk H; [exact H|].
  cbn [fold_left].
  pose proof (sentenceStep_trimmed maxChunkSize chunks currentChunk s H) as H'.
  destruct (Chunker.sentenceStep maxChunkSize (chunks, currentChunk) s).
  now apply IH.
Qed.

End ChunkerShape.

(** X1: for [maxSize >= 1] every chunk is at most [maxSize + 1] characters
    long, unless it is one word of a sentence, trimmed, that is longer than
    [maxSize] by itself. *)
Theorem chunks_within_one_of_bound (text : jsstring) (maxSize : Z) :
  (1 <= maxSize)%Z ->
  Forall
    (fun c =>
       (len c <= maxSize + 1)%Z
       \/ exists sentence word,
            In sentence (Chunker.sentencesOf text)
            /\ In word (splitOn space (trim sentence))
            /\ c = trim word
            /\ (len word > maxSize)%Z)
    (Chunker.createTextChunks text maxSize).
Proof.
  intros Hmax. pose proof (createTextChunks_bound text maxSize Hmax) as H.
  eapply Forall_impl; [exact H|].
  intros c [Hc|(word & (sentence & Hs & Hw) & Heq & Hlen)]; [now left|].
  right. now exists sentence, word.
Qed.

Lemma chunks_within_one_of_bound_witness :
  Forall
    (fun c =>
       (len c <= 5 + 1)%Z
       \/ exists sentence word,
            In sentence (Chunker.sentencesOf (str "ab cd. extraordinary"))
            /\ In word (splitOn space (trim sentence))
            /\ c = trim word
            /\ (len word > 5)%Z)
    (Chunker.createTextChunks (str "ab cd. extraordinary") 5).
Proof.
  apply (chunks_within_one_of_bound (str "ab cd. extraordinary") 5). lia.
Defined.

(** X2: every chunk is trimmed: it has no leading and no trailing
    whitespace. *)
Theorem chunks_are_trimmed (text : jsstring) (maxSize : Z) :
  Forall (fun c => trim c = c) (Chunker.createTextChunks text maxSize).
Proof.
  unfold Chunker.createTextChunks.
  pose proof (sentences_trimmed maxSize (Chunker.sentencesOf text) [] []
                (List.Forall_nil _)) as H.
  destruct (fold_left _ _ _) as [chunks currentChunk]. cbn [fst] in H.
  destruct (truthy (trim currentChunk)); [|exact H].
  apply Forall_app. split; [exact H|].
  constructor; [apply trim_idempotent|constructor].
Qed.

Section ChunkerPieces.

(** The pieces of a split hold characters of the string that are not in
    the class. *)
Lemma splitRuns_pieces (cls : char -> bool) (s : jsstring) :
  Forall (Forall (fun c => cls c = false /\ In c s)) (splitRuns cls s).
Proof.
  induction s as [|c s IH]; [repeat constructor|].
  assert (IH' : Forall (Forall (fun x => cls x = false /\ In x (c :: s)))
                  (splitRuns cls s)).
  { eapply Forall_impl; [exact IH|]. intros p Hp.
    eapply Forall_impl; [exact Hp|]. intros x [Hx Hin].
    split; [exact Hx|now right]. }
  cbn [splitRuns]. destruct (cls c) eqn:Hc.
  - destruct s as [|c' s']; [repeat constructor|].
    destruct (cls c'); [exact IH'|]. constructor; [constructor|exact IH'].
  - destruct (splitRuns cls s) as [|p ps].
    + constructor; [|constructor].
      constructor; [split; [exact Hc|now left]|constructor].
    + inversion IH'; subst. constructor; [|assumption].
      constructor; [|assumption]. split; [exact Hc|now left].
Qed.

Lemma splitRuns_none (cls : char -> bool) (s : jsstring) :
  Forall (fun c => cls c = false) s -> splitRuns cls s = [s].
Proof.
  induction 1 as [|c s Hc _ IH]; [reflexivity|].
  cbn [splitRuns]. now rewrite Hc, IH.
Qed.

Lemma splitOn_pieces (P : char -> Prop) (sep : char) (s : jsstring) :
  Forall P s -> Forall (Forall P) (splitOn sep s).
Proof.
  induction 1 as [|c s Hc _ IH]; [repeat constructor|].
  cbn [splitOn]. destruct (c =? sep)%N.
  - constructor; [constructor|exact IH].
  - destruct (splitOn sep s) as [|p ps].
    + constructor; [|constructor]. constructor; [exact Hc|constructor].
    + inversion IH; subst. constructor; [|assumption]. now constructor.
Qed.

Lemma trimStart_blank (s : jsstring) :
  Forall (fun c => isWhiteSpace c = true) s -> trimStart s = [].
Proof. induction 1 as [|c s Hc _ IH]; simpl; [reflexivity|]. now rewrite Hc. Qed.

Lemma trimStart_keeps (P : char -> Prop) (s : jsstring) :
  Forall P s -> Forall P (trimStart s).
Proof.
  induction 1 as [|c s Hc Hs IH]; simpl; [constructor|].
  destruct (isWhiteSpace c); [exact IH|now constructor].
Qed.

Lemma trim_keeps (P : char -> Prop) (s : jsstring) :
  Forall P s -> Forall P (trim s).
Proof.
  intros H. unfold trim, trimEnd.
  apply List.Forall_rev, trimStart_keeps, List.Forall_rev, trimStart_keeps, H.
Qed.

Lemma sentencesOf_none (text : jsstring) :
  contentChars text = [] -> Chunker.sentencesOf text = [].
Proof.
  intros Hnone. unfold Chunker.sentencesOf.
  assert (Hblank : forall c, In c text -> isContent c = false).
  { intros c Hin. destruct (isContent c) eqn:Hc; [|reflexivity].
    assert (Hin' : In c (contentChars text))
      by (apply List.filter_In; now split).
    rewrite Hnone in Hin'. contradiction. }
  pose proof (splitRuns_pieces isTerminator text) as Hp.
  induction Hp as [|p ps Hp _ IH]; [reflexivity|].
  cbn [List.filter]. rewrite IH.
  assert (Hws : Forall (fun c => isWhiteSpace c = true) p).
  { eapply Forall_impl; [exact Hp|]. intros c [Hterm Hin].
    specialize (Hblank c Hin). unfold isContent in Hblank.
    rewrite Hterm, andb_true_r in Hblank.
    now apply negb_false_iff in Hblank. }
  unfold trim. now rewrite (trimStart_blank p Hws).
Qed.

End ChunkerPieces.

(** X3: the chunker returns no chunk exactly when the text has no character
    other than whitespace and the terminators [. ! ?]; the empty text, a
    blank text and ["..."] give [[]]. *)
Theorem no_chunks_iff_no_content (text : jsstring) (maxSize : Z) :
  Chunker.createTextChunks text maxSize = [] <-> contentChars text = [].
Proof.
  split.
  - intros H. rewrite <- (createTextChunks_carries text maxSize), H.
    reflexivity.
  - intros H. unfold Chunker.createTextChunks.
    now rewrite (sentencesOf_none text H).
Qed.

(** X4: a text without terminator whose trimmed form is not empty and, with
    one more character, fits in [maxSize] comes back as the single chunk
    [trim text]. *)
Theorem single_sentence_single_chunk (text : jsstring) (maxSize : Z) :
  Forall (fun c => isTerminator c = false) text ->
  trim text <> [] ->
  (len (trim text) + 1 <= maxSize)%Z ->
  Chunker.createTextChunks text maxSize = [trim text].
Proof.
  intros Hterm Hne Hfit.
  unfold Chunker.createTextChunks, Chunker.sentencesOf.
  rewrite (splitRuns_none _ _ Hterm). cbn [List.filter].
  destruct (trim text) as [|c t] eqn:Ht; [contradiction|].
  cbn [length Nat.ltb Nat.leb fold_left]. unfold Chunker.sentenceStep.
  rewrite Ht. cbn [isEmpty].
  destruct (Z.gtb_spec (len [] + len (c :: t) + 1) maxSize) as [Hgt|_].
  { unfold len in Hgt, Hfit. cbn [length] in Hgt, Hfit. lia. }
  cbn [truthy isEmpty negb app]. rewrite <- Ht, trim_idempotent, Ht.
  reflexivity.
Qed.

Lemma single_sentence_single_chunk_witness :
  Chunker.createTextChunks (str "  one short line ") 1000
  = [trim (str "  one short line ")].
Proof.
  apply (single_sentence_single_chunk (str "  one short line ") 1000).
  - vm_compute. repeat constructor.
  - vm_compute. discriminate.
  - vm_compute. discriminate.
Defined.

Section ChunkerMarks.

Variable maxChunkSize : Z.

Lemma wordStep_marks (chunks : list jsstring) (wordChunk word : jsstring) :
  Forall notMark word ->
  Forall (Forall notMark) chunks -> Forall notMark wordChunk ->
  Forall (Forall notMark)
    (fst (Chunker.wordStep maxChunkSize (chunks, wordChunk) word))
  /\ Forall notMark
       (snd (Chunker.wordStep maxChunkSize (chunks, wordChunk) word)).
Proof.
  intros Hw Hc Hb. unfold Chunker.wordStep.
  assert (Hsp : Forall notMark [space]) by (repeat constructor; discriminate).
  destruct (_ >? _)%Z; [destruct wordChunk as [|c w]|];
    cbn [truthy isEmpty negb fst snd app].
  - now split.
  - split; [|exact Hw]. apply Forall_app. split; [exact Hc|].
    constructor; [now apply trim_keeps|constructor].
  - split; [exact Hc|]. apply Forall_app. split; [exact Hb|].
    apply Forall_app. split; [|exact Hw]. destruct wordChunk; [constructor|exact Hsp].
Qed.

Lemma words_marks (words : list jsstring) (chunks : list jsstring)
    (wordChunk : jsstring) :
  Forall (Forall notMark) words ->
  Forall (Forall notMark) chunks -> Forall notMark wordChunk ->
  Forall (Forall notMark)
    (fst (fold_left (Chunker.wordStep maxChunkSize) words (chunks, wordChunk)))
  /\ Forall notMark
       (snd (fold_left (Chunker.wordStep maxChunkSize) words
               (chunks, wordChunk))).
Proof.
  intros Hws. revert chunks wordChunk.
  induction Hws as [|w ws Hw _ IH]; intros chunks wordChunk Hc Hb;
    [now split|].
  cbn [fold_left].
  destruct (wordStep_marks chunks wordChunk w Hw Hc Hb) as [Hc' Hb'].
  destruct (Chunker.wordStep maxChunkSize (chunks, wordChunk) w).
  now apply IH.
Qed.

Lemma sentenceStep_marks (chunks : list jsstring)
    (currentChunk sentence : jsstring) :
  Forall notMark sentence ->
  Forall (Forall notMark) chunks -> Forall notMark currentChunk ->
  Forall (Forall notMark)
    (fst (Chunker.sentenceStep maxChunkSize (chunks, currentChunk) sentence))
  /\ Forall notMark
       (snd (Chunker.sentenceStep maxChunkSize (chunks, currentChunk) sentence)).
Proof.
  intros Hs Hc Hb. unfold Chunker.sentenceStep.
  pose proof (trim_keeps notMark sentence Hs) as Ht.
  destruct (isEmpty (trim sentence)); [now split|].
  destruct (_ >? _)%Z.
  - assert (Hflush :
      exists chunks' cur',
        (if truthy currentChunk then (chunks ++ [trim currentChunk], [])
         else (chunks, currentChunk)) = (chunks', cur')
        /\ Forall (Forall notMark) chunks' /\ Forall notMark cur').
    { destruct currentChunk as [|c cs]; cbn [truthy isEmpty negb].
      - now exists chunks, [].
      - exists (chunks ++ [trim (c :: cs)]), []. split; [reflexivity|].
        split; [|constructor]. apply Forall_app. split; [exact Hc|].
        constructor; [now apply trim_keeps|constructor]. }
    destruct Hflush as (chunks' & cur' & -> & Hc' & Hb').
    destruct (_ >? _)%Z; [|now split].
    destruct (words_marks (splitOn space (trim sentence)) chunks' []
                (splitOn_pieces notMark space _ Ht) Hc' (List.Forall_nil _))
      as [Hc'' Hb''].
    destruct (fold_left _ _ _) as [chunks'' wordChunk]. cbn [fst snd] in *.
    split; [exact Hc''|]. now destruct (truthy wordChunk).
  - cbn [fst snd]. split; [exact Hc|]. apply Forall_app. split; [exact Hb|].
    apply Forall_app. split; [|exact Ht].
    destruct (truthy currentChunk); [|constructor].
    repeat constructor; discriminate.
Qed.

Lemma sentences_marks (sentences : list jsstring) (chunks : list jsstring)
    (currentChunk : jsstring) :
  Forall (Forall notMark) sentences ->
  Forall (Forall notMark) chunks -> Forall notMark currentChunk ->
  Forall (Forall notMark)
    (fst (fold_left (Chunker.sentenceStep maxChunkSize) sentences
            (chunks, currentChunk)))
  /\ Forall notMark
       (snd (fold_left (Chunker.sentenceStep maxChunkSize) sentences
               (chunks, currentChunk))).
Proof.
  intros Hss. revert chunks currentChunk.
  induction Hss as [|s ss Hs _ IH]; intros chunks currentChunk Hc Hb;
    [now split|].
  cbn [fold_left].
  destruct (sentenceStep_marks chunks currentChunk s Hs Hc Hb) as [Hc' Hb'].
  destruct (Chunker.sentenceStep maxChunkSize (chunks, currentChunk) s).
  now apply IH.
Qed.

End ChunkerMarks.

(** X5: no chunk holds a ['!'] or a ['?'], whatever the text: question and
    exclamation marks do not survive the chunking. *)
Theorem chunks_hold_no_marks (text : jsstring) (maxSize : Z) :
  Forall (Forall (fun c => c <> 33%N /\ c <> 63%N))
    (Chunker.createTextChunks text maxSize).
Proof.
  unfold Chunker.createTextChunks.
  assert (Hss : Forall (Forall notMark) (Chunker.sentencesOf text)).
  { unfold Chunker.sentencesOf.
    pose proof (splitRuns_pieces isTerminator text) as Hp.
    induction Hp as [|p ps Hp _ IH]; [constructor|].
    cbn [List.filter]. destruct (0 <? length (trim p))%nat; [|exact IH].
    constructor; [|exact IH].
    eapply Forall_impl; [exact Hp|]. intros c [Hterm _].
    unfold isTerminator in Hterm.
    apply orb_false_iff in Hterm as [Hterm H63].
    apply orb_false_iff in Hterm as [_ H33].
    split; intros ->; discriminate. }
  destruct (sentences_marks maxSize (Chunker.sentencesOf text) [] [] Hss
              (List.Forall_nil _) (List.Forall_nil _)) as [Hc Hb].
  destruct (fold_left _ _ _) as [chunks currentChunk]. cbn [fst snd] in *.
  destruct (truthy (trim currentChunk)); [|exact Hc].
  apply Forall_app. split; [exact Hc|].
  constructor; [now apply trim_keeps|constructor].
Qed.

(** * Further properties of the ingest operation *)

Lemma processBlob_status (env : Ingest.Env) (r : Ingest.IngestRequest)
    (fileData : Ingest.Blob) (db db' : Store) (resp : Response) :
  Ingest.processBlob env r fileData db = (db', Ok resp) ->
  status resp = 200%Z
  /\ messages db' = messages db.
Proof.
  unfold Ingest.processBlob, bind, lift.
  destruct (Ingest.extractText _ _ _) as [text|e]; [|discriminate].
  unfold Ingest.updateDocuments.
  destruct (Ingest.updateError env) as [e|]; [unfold throw; discriminate|].
  unfold ret at 1. unfold Ingest.whenM.
  destruct (0 <? length (Chunker.createTextChunks text 1000))%nat.
  - unfold bind, Ingest.insertChunks.
    destruct (Ingest.chunksError env); unfold ret;
      intros H; injection H as <- <-; now split.
  - unfold ret. intros H; injection H as <- <-; now split.
Qed.

(** Helper form of the next theorem, for use in later proofs. *)
Lemma serve_answers (env : Ingest.Env) (req : Ingest.HttpRequest)
    (db : Store) :
  exists resp,
    snd (Ingest.serve env req db) = Ok resp
    /\ (status resp = 200%Z \/ status resp = 500%Z)
    /\ (status resp = 500%Z -> fst (Ingest.serve env req db) = db).
Proof.
  destruct (decide (Ingest.method req = str "OPTIONS")) as [Hopt|Hmethod].
  { unfold Ingest.serve. rewrite bool_decide_eq_true_2 by exact Hopt.
    eexists. split; [reflexivity|]. split; [now left|discriminate]. }
  destruct (Ingest.json_body req) as [r|e] eqn:Hbody.
  2:{ unfold Ingest.serve. rewrite bool_decide_eq_false_2 by exact Hmethod.
      unfold tryCatch, bind, lift. rewrite Hbody.
      eexists. split; [reflexivity|]. split; [now right|reflexivity]. }
  rewrite (serve_unfold env req r db Hmethod Hbody).
  destruct (Ingest.download env (Ingest.filePath r)) as [fileData|e].
  2:{ eexists. split; [reflexivity|]. split; [now right|reflexivity]. }
  unfold tryCatch.
  destruct (Ingest.processBlob env r fileData db) as [db' [resp|m]] eqn:Hp.
  - destruct (processBlob_status _ _ _ _ _ _ Hp) as [Hst _].
    exists resp. split; [reflexivity|]. split; [now left|].
    rewrite Hst. discriminate.
  - unfold Ingest.markFailed, bind, Ingest.updateDocuments, ret.
    destruct (Ingest.markError env); eexists;
      (split; [reflexivity|]); (split; [now left|discriminate]).
Qed.

(** X6: the handler always answers: whatever the request, the store and the
    collaborators do, it returns a response with status 200 or 500 and lets
    no exception out; a 500 answer leaves the whole store as it was. *)
Theorem serve_always_answers (env : Ingest.Env) (req : Ingest.HttpRequest)
    (db : Store) :
  exists resp,
    snd (Ingest.serve env req db) = Ok resp
    /\ (status resp = 200%Z \/ status resp = 500%Z)
    /\ (status resp = 500%Z -> fst (Ingest.serve env req db) = db).
Proof. exact (serve_answers env req db). Qed.

Lemma Forall2_refl_on {A} (R : A -> A -> Prop) (l : list A) :
  (forall a, R a a) -> Forall2 R l l.
Proof. intros HR. induction l; constructor; auto. Qed.

Lemma chunksData_owner (id : jsstring) (chunks : list jsstring) (from : nat) :
  Forall (fun c => chunk_document_id c = id) (Ingest.chunksData id from chunks).
Proof.
  revert from. induction chunks as [|chunk rest IH]; intros from;
    [constructor|].
  cbn [Ingest.chunksData]. constructor; [reflexivity|apply IH].
Qed.

(** Helper form of the next theorem, for use in later proofs. *)
Lemma serve_frame_rows (env : Ingest.Env) (req : Ingest.HttpRequest)
    (db : Store) :
  messages (fst (Ingest.serve env req db)) = messages db
  /\ Forall2
       (fun d d' =>
          sameFile d d'
          /\ forall r,
               Ingest.json_body req = Ok r ->
               doc_id d <> Ingest.documentId r -> d' = d)
       (documents db) (documents (fst (Ingest.serve env req db)))
  /\ exists rows,
       document_chunks (fst (Ingest.serve env req db))
       = document_chunks db ++ rows
       /\ forall r,
            Ingest.json_body req = Ok r ->
            Forall (fun c => chunk_document_id c = Ingest.documentId r) rows.
Proof.
  assert (Hsame :
    messages db = messages db
    /\ Forall2
         (fun d d' =>
            sameFile d d'
            /\ forall r,
                 Ingest.json_body req = Ok r ->
                 doc_id d <> Ingest.documentId r -> d' = d)
         (documents db) (documents db)
    /\ exists rows,
         document_chunks db = document_chunks db ++ rows
         /\ forall r,
              Ingest.json_body req = Ok r ->
              Forall (fun c => chunk_document_id c = Ingest.documentId r) rows).
  { split; [reflexivity|]. split.
    - apply Forall2_refl_on. intros d. split; [apply sameFile_refl|auto].
    - exists []. split; [now rewrite app_nil_r|]. intros; constructor. }
  assert (Hpatched : forall r patch,
    Ingest.json_body req = Ok r ->
    (forall d, sameFile d (patch d)) ->
    Forall2
      (fun d d' =>
         sameFile d d'
         /\ forall r0,
              Ingest.json_body req = Ok r0 ->
              doc_id d <> Ingest.documentId r0 -> d' = d)
      (documents db)
      (documents (Ingest.patchDocuments (Ingest.documentId r) patch db))).
  { clear Hsame. intros r patch Hbody Hpatch.
    cbn [Ingest.patchDocuments documents].
    induction (documents db) as [|d l IH]; [constructor|].
    cbn [List.map]. constructor; [|exact IH].
    destruct (bool_decide_reflect (doc_id d = Ingest.documentId r)) as [Hid|Hid].
    - split; [apply Hpatch|]. intros r0 Hr0. rewrite Hbody in Hr0.
      injection Hr0 as <-. contradiction.
    - split; [apply sameFile_refl|reflexivity]. }
  destruct (decide (Ingest.method req = str "OPTIONS")) as [Hopt|Hmethod].
  { unfold Ingest.serve. rewrite bool_decide_eq_true_2 by exact Hopt.
    exact Hsame. }
  destruct (Ingest.json_body req) as [r|e] eqn:Hbody.
  2:{ unfold Ingest.serve. rewrite bool_decide_eq_false_2 by exact Hmethod.
      unfold tryCatch, bind, lift. rewrite Hbody. exact Hsame. }
  rewrite (serve_unfold env req r db Hmethod Hbody).
  destruct (Ingest.download env (Ingest.filePath r)) as [fileData|e];
    [|exact Hsame].
  unfold tryCatch.
  destruct (processBlob_cases env r fileData db)
    as [[m Hm]|(text & resp & db' & _ & _ & Hok & Hdocs & Hmsg & Hchunks)].
  - rewrite Hm. unfold Ingest.markFailed, bind, Ingest.updateDocuments, ret.
    destruct (Ingest.markError env) as [e|]; [exact Hsame|].
    cbn [fst]. split; [reflexivity|]. split.
    + apply (Hpatched r); [reflexivity|]. intros d. repeat split.
    + exists []. split; [now rewrite app_nil_r|]. intros; constructor.
  - rewrite Hok. cbn [fst]. split; [exact Hmsg|]. split.
    + rewrite Hdocs. apply (Hpatched r); [reflexivity|].
      intros d. repeat split.
    + destruct Hchunks as [Hc|Hc]; rewrite Hc.
      * exists []. split; [now rewrite app_nil_r|]. intros; constructor.
      * eexists. split; [reflexivity|]. intros r0 Hr0.
        injection Hr0 as <-. apply chunksData_owner.
Qed.

(** X7: an invocation leaves the [messages] table alone, adds and removes
    no document row, keeps [id], [user_id], [title], [file_name],
    [file_type] and [file_size] of every row, leaves the rows whose id is
    not the requested [documentId] as they were, and only appends chunk
    rows, all of them rows of the requested document. *)
Theorem serve_frame (env : Ingest.Env) (req : Ingest.HttpRequest)
    (db : Store) :
  messages (fst (Ingest.serve env req db)) = messages db
  /\ Forall2
       (fun d d' =>
          sameFile d d'
          /\ forall r,
               Ingest.json_body req = Ok r ->
               doc_id d <> Ingest.documentId r -> d' = d)
       (documents db) (documents (fst (Ingest.serve env req db)))
  /\ exists rows,
       document_chunks (fst (Ingest.serve env req db))
       = document_chunks db ++ rows
       /\ forall r,
            Ingest.json_body req = Ok r ->
            Forall (fun c => chunk_document_id c = Ingest.documentId r) rows.
Proof. exact (serve_frame_rows env req db). Qed.

Lemma chunksData_contents (id : jsstring) (chunks : list jsstring) (from : nat) :
  List.map chunk_content (Ingest.chunksData id from chunks) = chunks
  /\ Forall
       (fun c =>
          chunk_document_id c = id
          /\ chunk_metadata c !! "chunk_size"
             = Some (JNum (len (chunk_content c))))
       (Ingest.chunksData id from chunks).
Proof.
  revert from. induction chunks as [|chunk rest IH]; intros from.
  - split; [reflexivity|constructor].
  - destruct (IH (S from)) as [IHc IHf]. cbn [Ingest.chunksData List.map].
    split; [now rewrite IHc|]. constructor; [|exact IHf].
    split; reflexivity.
Qed.

(** X8: a refused chunk insert is swallowed: after a good download, a good
    extraction and a good document update, the handler answers 200 with
    [success: true] and [chunksCreated] the number of chunks it computed,
    although it stored none of them. *)
Theorem serve_swallows_chunk_failure (env : Ingest.Env)
    (req : Ingest.HttpRequest) (r : Ingest.IngestRequest) (db : Store)
    (fileData : Ingest.Blob) (text e : jsstring) :
  Ingest.method req <> str "OPTIONS" ->
  Ingest.json_body req = Ok r ->
  Ingest.download env (Ingest.filePath r) = Ok fileData ->
  Ingest.extractText fileData (Ingest.fileName r) (Ingest.fileType r)
  = Ok text ->
  Ingest.updateError env = None ->
  Ingest.chunksError env = Some e ->
  document_chunks (fst (Ingest.serve env req db)) = document_chunks db
  /\ snd (Ingest.serve env req db)
     = Ok {| status := 200;
             headers := jsonHeaders;
             body :=
               Some [("success", JBool true);
                     ("documentId", JStr (Ingest.documentId r));
                     ("extractedLength", JNum (len text));
                     ("chunksCreated",
                      JNum (Z.of_nat
                              (length (Chunker.createTextChunks text 1000))))]%string |}.
Proof.
  intros Hmethod Hbody Hdown Htext Hupd Hch.
  rewrite (serve_unfold env req r db Hmethod Hbody), Hdown.
  unfold tryCatch, Ingest.processBlob, bind, lift. rewrite Htext.
  unfold Ingest.updateDocuments. rewrite Hupd. unfold ret at 1.
  unfold Ingest.whenM.
  destruct (0 <? length (Chunker.createTextChunks text 1000))%nat.
  - unfold bind, Ingest.insertChunks. rewrite Hch. unfold ret.
    split; reflexivity.
  - unfold ret. split; reflexivity.
Qed.

Lemma serve_swallows_chunk_failure_witness :
  document_chunks
    (fst (Ingest.serve
            {| Ingest.download := fun _ => Ok (textBlob (str "Hi. There"));
               Ingest.updateError := None;
               Ingest.chunksError := Some (str "insert refused");
               Ingest.markError := None;
               Ingest.now := str "2024-01-01T00:00:00.000Z";
               Ingest.nowCatch := str "2024-01-01T00:00:00.001Z" |}
            (post (sampleRequest (str "text/plain")))
            (run [sampleUpload] emptyStore)))
  = document_chunks (run [sampleUpload] emptyStore)
  /\ snd (Ingest.serve
            {| Ingest.download := fun _ => Ok (textBlob (str "Hi. There"));
               Ingest.updateError := None;
               Ingest.chunksError := Some (str "insert refused");
               Ingest.markError := None;
               Ingest.now := str "2024-01-01T00:00:00.000Z";
               Ingest.nowCatch := str "2024-01-01T00:00:00.001Z" |}
            (post (sampleRequest (str "text/plain")))
            (run [sampleUpload] emptyStore))
     = Ok {| status := 200;
             headers := jsonHeaders;
             body :=
               Some [("success", JBool true);
                     ("documentId", JStr (str "d1"));
                     ("extractedLength", JNum (len (str "Hi. There")));
                     ("chunksCreated",
                      JNum (Z.of_nat
                              (length
                                 (Chunker.createTextChunks (str "Hi. There")
                                    1000))))]%string |}.
Proof.
  apply (serve_swallows_chunk_failure _
           (post (sampleRequest (str "text/plain")))
           (sampleRequest (str "text/plain"))
           (run [sampleUpload] emptyStore) (textBlob (str "Hi. There"))
           (str "Hi. There") (str "insert refused")).
  - vm_compute. discriminate.
  - reflexivity.
  - reflexivity.
  - reflexivity.
  - reflexivity.
  - reflexivity.
Defined.

(** X9: on the success path with the chunk insert accepted, the named
    document gets the extracted text as content, and the chunk rows added
    hold the chunks of that text for the bound 1000, in order, each under
    the requested [documentId] and with [chunk_size] the length of its
    content; [chunksCreated] is their number. *)
Theorem serve_stores_chunks_of_content (env : Ingest.Env)
    (req : Ingest.HttpRequest) (r : Ingest.IngestRequest) (db : Store)
    (fileData : Ingest.Blob) (text : jsstring) :
  Ingest.method req <> str "OPTIONS" ->
  Ingest.json_body req = Ok r ->
  Ingest.download env (Ingest.filePath r) = Ok fileData ->
  Ingest.extractText fileData (Ingest.fileName r) (Ingest.fileType r)
  = Ok text ->
  Ingest.updateError env = None ->
  Ingest.chunksError env = None ->
  onDocument (Ingest.documentId r)
    (fun d d' => doc_content d' = Some text /\ markedProcessed d')
    db (fst (Ingest.serve env req db))
  /\ exists rows,
       document_chunks (fst (Ingest.serve env req db))
       = document_chunks db ++ rows
       /\ List.map chunk_content rows = Chunker.createTextChunks text 1000
       /\ Forall
            (fun c =>
               chunk_document_id c = Ingest.documentId r
               /\ chunk_metadata c !! "chunk_size"
                  = Some (JNum (len (chunk_content c))))
            rows
       /\ snd (Ingest.serve env req db)
          = Ok {| status := 200;
                  headers := jsonHeaders;
                  body :=
                    Some [("success", JBool true);
                          ("documentId", JStr (Ingest.documentId r));
                          ("extractedLength", JNum (len text));
                          ("chunksCreated",
                           JNum (Z.of_nat (length rows)))]%string |}.
Proof.
  intros Hmethod Hbody Hdown Htext Hupd Hch.
  rewrite (serve_unfold env req r db Hmethod Hbody), Hdown.
  unfold tryCatch, Ingest.processBlob, bind, lift. rewrite Htext.
  unfold Ingest.updateDocuments. rewrite Hupd. unfold ret at 1.
  unfold Ingest.whenM.
  assert (Hdocs :
    onDocument (Ingest.documentId r)
      (fun d d' => doc_content d' = Some text /\ markedProcessed d')
      db
      (Ingest.patchDocuments (Ingest.documentId r)
         (Ingest.setProcessed text (Ingest.now env)) db)).
  { unfold onDocument. cbn [Ingest.patchDocuments documents].
    apply Forall2_patched. intros d _. repeat split. }
  destruct (chunksData_contents (Ingest.documentId r)
              (Chunker.createTextChunks text 1000) 0) as [Hcont Hrows].
  destruct (0 <? length (Chunker.createTextChunks text 1000))%nat eqn:Hlen.
  - unfold bind, Ingest.insertChunks. rewrite Hch. unfold ret.
    cbn [fst snd document_chunks]. split; [exact Hdocs|].
    eexists. split; [reflexivity|]. split; [exact Hcont|].
    split; [exact Hrows|].
    pose proof (f_equal (@length _) Hcont) as Hl.
    rewrite List.length_map in Hl. now rewrite Hl.
  - unfold ret. cbn [fst snd]. split; [exact Hdocs|].
    apply Nat.ltb_ge in Hlen.
    destruct (Chunker.createTextChunks text 1000) as [|c cs];
      [|simpl in Hlen; lia].
    exists []. split; [now rewrite app_nil_r|]. split; [reflexivity|].
    split; [constructor|reflexivity].
Qed.

Lemma serve_stores_chunks_of_content_witness :
  onDocument (str "d1")
    (fun d d' => doc_content d' = Some (str "Hi. There") /\ markedProcessed d')
    (run [sampleUpload] emptyStore)
    (fst (Ingest.serve (healthy (textBlob (str "Hi. There")))
            (post (sampleRequest (str "text/plain")))
            (run [sampleUpload] emptyStore)))
  /\ exists rows,
       document_chunks
         (fst (Ingest.serve (healthy (textBlob (str "Hi. There")))
                 (post (sampleRequest (str "text/plain")))
                 (run [sampleUpload] emptyStore)))
       = document_chunks (run [sampleUpload] emptyStore) ++ rows
       /\ List.map chunk_content rows
          = Chunker.createTextChunks (str "Hi. There") 1000
       /\ Forall
            (fun c =>
               chunk_document_id c = str "d1"
               /\ chunk_metadata c !! "chunk_size"
                  = Some (JNum (len (chunk_content c))))
            rows
       /\ snd (Ingest.serve (healthy (textBlob (str "Hi. There")))
                 (post (sampleRequest (str "text/plain")))
                 (run [sampleUpload] emptyStore))
          = Ok {| status := 200;
                  headers := jsonHeaders;
                  body :=
                    Some [("success", JBool true);
                          ("documentId", JStr (str "d1"));
                          ("extractedLength", JNum (len (str "Hi. There")));
                          ("chunksCreated",
                           JNum (Z.of_nat (length rows)))]%string |}.
Proof.
  apply (serve_stores_chunks_of_content (healthy (textBlob (str "Hi. There")))
           (post (sampleRequest (str "text/plain")))
           (sampleRequest (str "text/plain"))
           (run [sampleUpload] emptyStore) (textBlob (str "Hi. There"))
           (str "Hi. There")).
  - vm_compute. discriminate.
  - reflexivity.
  - reflexivity.
  - reflexivity.
  - reflexivity.
  - reflexivity.
Defined.

Lemma orElse_nonempty (a b : jsstring) : b <> [] -> orElse a b <> [].
Proof. intros Hb. unfold orElse. now destruct a. Qed.

Lemma extractors_nonempty (fileData : Ingest.Blob) (fileName : jsstring) :
  Ingest.extractPdfText fileData <> []
  /\ Ingest.extractDocxText fileData <> []
  /\ Ingest.extractPptxText fileData <> []
  /\ Ingest.extractImageText fileData fileName <> [].
Proof.
  unfold Ingest.extractPdfText, Ingest.extractDocxText.
  repeat split.
  - destruct (Ingest.blob_pdf fileData); [|discriminate].
    apply orElse_nonempty. discriminate.
  - destruct (Ingest.blob_docx fileData); [|discriminate].
    apply orElse_nonempty. discriminate.
  - discriminate.
  - discriminate.
Qed.

(** Helper form of the next theorem, for use in later proofs. *)
Lemma extractText_nonempty (fileData : Ingest.Blob)
    (fileName fileType : jsstring) :
  fileType <> str "text/plain" ->
  exists text,
    Ingest.extractText fileData fileName fileType = Ok text /\ text <> [].
Proof.
  intros Htxt. unfold Ingest.extractText.
  rewrite bool_decide_eq_false_2 by exact Htxt.
  destruct (extractors_nonempty fileData fileName) as (Hpdf & Hdocx & Hpptx & Himg).
  repeat (destruct (bool_decide _); [eauto|]).
  destruct (startsWith fileType (str "image/")); [eauto|].
  eexists. split; [reflexivity|discriminate].
Qed.

(** X10: for every declared type other than [text/plain] the dispatch
    returns, it does not throw, and the text it returns is never empty. *)
Theorem extraction_returns_nonempty (fileData : Ingest.Blob)
    (fileName fileType : jsstring) :
  fileType <> str "text/plain" ->
  exists text,
    Ingest.extractText fileData fileName fileType = Ok text /\ text <> [].
Proof. exact (extractText_nonempty fileData fileName fileType). Qed.

Lemma extraction_returns_nonempty_witness :
  exists text,
    Ingest.extractText (textBlob (str "%PDF")) (str "a.pdf")
      (str "application/pdf") = Ok text
    /\ text <> [].
Proof.
  apply (extraction_returns_nonempty (textBlob (str "%PDF")) (str "a.pdf")
           (str "application/pdf")).
  vm_compute. discriminate.
Defined.

(** X11: for a declared type other than [text/plain] the inner [try] block
    can only throw the error of the document update: the soft-failure path
    is then never an extraction failure. *)
Theorem soft_failure_is_update_failure (env : Ingest.Env)
    (r : Ingest.IngestRequest) (fileData : Ingest.Blob) (db : Store)
    (message : jsstring) :
  Ingest.fileType r <> str "text/plain" ->
  snd (Ingest.processBlob env r fileData db) = Throw message ->
  exists e,
    Ingest.updateError env = Some e
    /\ message = str "Failed to update document: " ++ e.
Proof.
  intros Htxt.
  destruct (extractText_nonempty fileData (Ingest.fileName r)
              (Ingest.fileType r) Htxt) as (text & Htext & _).
  unfold Ingest.processBlob, bind, lift. rewrite Htext.
  unfold Ingest.updateDocuments.
  destruct (Ingest.updateError env) as [e|].
  - unfold throw. cbn. intros H. injection H as <-. now exists e.
  - unfold ret at 1. unfold Ingest.whenM.
    destruct (0 <? length (Chunker.createTextChunks text 1000))%nat.
    + unfold bind, Ingest.insertChunks.
      destruct (Ingest.chunksError env); unfold ret; discriminate.
    + unfold ret. discriminate.
Qed.

Lemma soft_failure_is_update_failure_witness :
  exists e,
    Ingest.updateError (updateRefused (textBlob (str "%PDF"))) = Some e
    /\ str "Failed to update document: connection reset"
       = str "Failed to update document: " ++ e.
Proof.
  apply (soft_failure_is_update_failure (updateRefused (textBlob (str "%PDF")))
           (sampleRequest (str "application/pdf")) (textBlob (str "%PDF"))
           emptyStore (str "Failed to update document: connection reset")).
  - vm_compute. discriminate.
  - vm_compute. reflexivity.
Defined.

Lemma length_splitRuns (cls : char -> bool) (s : jsstring) :
  length (splitRuns cls s) = S (countRuns cls s).
Proof.
  induction s as [|c s IH]; [reflexivity|].
  cbn [splitRuns countRuns]. destruct (cls c).
  - destruct s as [|c' s']; [reflexivity|].
    destruct (cls c'); [exact IH|]. cbn [length]. now rewrite IH.
  - destruct (splitRuns cls s) as [|p ps]; [discriminate|exact IH].
Qed.

(** X12: the [word_count] written by the success update is one more than
    the number of whitespace runs of the extracted text: it is never 0 (the
    empty text has [word_count] 1) and a leading or trailing run of
    whitespace adds one to the count of the words. *)
Theorem word_count_counts_runs (text at_ : jsstring) (d : Document) :
  doc_metadata (Ingest.setProcessed text at_ d) !! "word_count"
  = Some (JNum (1 + Z.of_nat (countRuns isWhiteSpace text))).
Proof.
  cbn [Ingest.setProcessed doc_metadata]. rewrite length_splitRuns.
  rewrite Nat2Z.inj_succ, <- Z.add_1_l. reflexivity.
Qed.

Lemma trim_blank (s : jsstring) :
  Forall (fun c => isWhiteSpace c = true) s -> trim s = [].
Proof. intros H. unfold trim. now rewrite (trimStart_blank s H). Qed.

(** X13: a PDF whose pages hold no text item with non-blank [str], and so
    also a PDF with no page, is extracted as the fixed message
    ["No text content could be extracted from this PDF."]. *)
Theorem extractPdfText_no_text (fileData : Ingest.Blob)
    (pages : list (list Ingest.TextItem)) :
  Ingest.blob_pdf fileData = Ok pages ->
  Forall (Forall (fun item => Ingest.itemKept item = false)) pages ->
  Ingest.extractPdfText fileData
  = str "No text content could be extracted from this PDF.".
Proof.
  intros Hpdf Hpages. unfold Ingest.extractPdfText. rewrite Hpdf.
  assert (Hblank : forall acc,
    Forall (fun c => isWhiteSpace c = true) acc ->
    Forall (fun c => isWhiteSpace c = true)
      (fold_left
         (fun fullText items =>
            fullText
            ++ join [space]
                 (List.map Ingest.itemText
                    (List.filter Ingest.itemKept items))
            ++ nl ++ nl)
         pages acc)).
  { clear Hpdf.
    induction Hpages as [|items rest Hitems _ IH]; intros acc Hacc;
      [exact Hacc|].
    cbn [fold_left]. apply IH.
    assert (Hnone : List.filter Ingest.itemKept items = []).
    { clear -Hitems. induction Hitems as [|i l Hi _ IHl]; [reflexivity|].
      cbn [List.filter]. now rewrite Hi. }
    cbv beta. rewrite Hnone. cbn [List.map join app].
    apply Forall_app. split; [exact Hacc|]. repeat constructor. }
  rewrite (trim_blank _ (Hblank [] (List.Forall_nil _))). reflexivity.
Qed.

Lemma extractPdfText_no_text_witness :
  Ingest.extractPdfText
    {| Ingest.blob_size := 4;
       Ingest.blob_text := Ok (str "%PDF");
       Ingest.blob_pdf :=
         Ok [[{| Ingest.item_str := Some (str "  ") |};
              {| Ingest.item_str := None |}]; []];
       Ingest.blob_docx := Throw (str "Not a zip file") |}
  = str "No text content could be extracted from this PDF.".
Proof.
  apply (extractPdfText_no_text _
           [[{| Ingest.item_str := Some (str "  ") |};
             {| Ingest.item_str := None |}]; []]).
  - reflexivity.
  - repeat constructor.
Defined.

(** * Properties of the upload component *)

(** X14: the type validation of [handleFileSelect] and the dispatch of the
    ingest handler agree: a declared type is refused by the validation
    exactly when the dispatch answers it, for every blob and file name, with
    the fallback ["Unsupported file type: <type>"]. *)
Theorem validation_matches_dispatch (fileType : jsstring) :
  Upload.isValidType fileType = false
  <-> forall fileData fileName,
        Ingest.extractText fileData fileName fileType
        = Ok (str "Unsupported file type: " ++ fileType).
Proof.
  pose (blank := {| Ingest.blob_size := 0;
                    Ingest.blob_text := Ok [];
                    Ingest.blob_pdf := Throw [];
                    Ingest.blob_docx := Throw [] |}).
  assert (Hvalid : forall t,
    Upload.isValidType t = true ->
    Ingest.extractText blank [] t <> Ok (str "Unsupported file type: " ++ t) ->
    Upload.isValidType t = false
    <-> forall fileData fileName,
          Ingest.extractText fileData fileName t
          = Ok (str "Unsupported file type: " ++ t)).
  { intros t Hv Hne. rewrite Hv. split; [discriminate|].
    intros H. now specialize (H blank []). }
  destruct (decide (fileType = str "text/plain")) as [->|Htxt].
  { apply Hvalid; [reflexivity|vm_compute; discriminate]. }
  destruct (decide (fileType = str "application/pdf")) as [->|Hpdf].
  { apply Hvalid; [reflexivity|vm_compute; discriminate]. }
  destruct (decide (fileType = Ingest.docxType)) as [->|Hdocx].
  { apply Hvalid; [reflexivity|vm_compute; discriminate]. }
  destruct (decide (fileType = Ingest.pptxType)) as [->|Hpptx].
  { apply Hvalid; [reflexivity|vm_compute; discriminate]. }
  unfold Upload.isValidType, Ingest.extractText.
  cbn [Upload.acceptedTypes List.map fst existsb].
  rewrite !(bool_decide_eq_false_2 (fileType = _)) by assumption.
  rewrite !(bool_decide_eq_false_2 (_ = str "image/*"))
    by (vm_compute; discriminate).
  rewrite (bool_decide_eq_true_2 (str "image/*" = str "image/*")) by reflexivity.
  cbn [orb]. rewrite orb_false_r.
  destruct (startsWith fileType (str "image/")).
  - split; [discriminate|].
    intros H. specialize (H blank []). discriminate H.
  - split; [intros _ fileData fileName; reflexivity|reflexivity].
Qed.

(** The two ways [uploadFile] ends: it throws before anything is stored, or
    it inserts the row, invokes the ingest handler and returns. *)
Lemma uploadFile_result (env : Upload.Env) (file : Upload.File) (db : Store) :
  (exists message,
      Upload.uploadFile env file db = (db, Throw message)
      /\ ((Upload.user env = None /\ message = str "User not authenticated")
          \/ Upload.uploadError env = Some message
          \/ Upload.dbError env = Some message))
  \/ (exists userId,
        Upload.user env = Some userId
        /\ Upload.uploadError env = None
        /\ Upload.dbError env = None
        /\ Upload.uploadFile env file db
           = (fst (Ingest.serve (Upload.ingest env)
                     {| Ingest.method := str "POST";
                        Ingest.json_body :=
                          Ok {| Ingest.documentId := Upload.generatedId env;
                                Ingest.filePath := storagePath env userId file;
                                Ingest.fileName := Upload.file_name file;
                                Ingest.fileType := Upload.file_type file |} |}
                     (fst (Upload.insertDocument None
                             (Upload.newDocument (Upload.generatedId env)
                                userId (storageName env file)
                                (storagePath env userId file) file) db))),
              Ok {| Upload.up_id := Upload.generatedId env;
                    Upload.up_name := Upload.file_name file;
                    Upload.up_type := Upload.file_type file;
                    Upload.up_size := Upload.file_size file;
                    Upload.up_path := storagePath env userId file |})).
Proof.
  unfold Upload.uploadFile.
  destruct (Upload.user env) as [userId|].
  2:{ left. eexists. split; [reflexivity|]. now left. }
  destruct (Upload.uploadError env) as [e|].
  { left. exists e. split; [reflexivity|]. right. now left. }
  unfold bind at 1. unfold Upload.insertDocument at 1.
  destruct (Upload.dbError env) as [e|].
  { left. exists e. split; [reflexivity|]. right. now right. }
  right. exists userId. repeat (split; [reflexivity|]).
  unfold bind, ret, Upload.insertDocument, storagePath, storageName.
  cbn [fst doc_id Upload.newDocument].
  match goal with
  | |- context [Ingest.serve ?e ?q ?d] =>
      destruct (serve_answers e q d) as (resp & Hresp & _);
      destruct (Ingest.serve e q d) as [db2 res] eqn:Hserve
  end.
  cbn [snd] in Hresp. subst res. cbn [fst]. reflexivity.
Qed.

(** X15: when [uploadFile] throws, nothing was stored and the ingest handler
    was not invoked: the store is as it was, and the cause is the missing
    user, the storage upload or the document insert. *)
Theorem uploadFile_throw_stores_nothing (env : Upload.Env)
    (file : Upload.File) (db : Store) (message : jsstring) :
  snd (Upload.uploadFile env file db) = Throw message ->
  fst (Upload.uploadFile env file db) = db
  /\ ((Upload.user env = None /\ message = str "User not authenticated")
      \/ Upload.uploadError env = Some message
      \/ Upload.dbError env = Some message).
Proof.
  intros H.
  destruct (uploadFile_result env file db)
    as [(m & Hm & Hcause)|(u & _ & _ & _ & Hok)].
  - rewrite Hm in H |- *. cbn in H. injection H as ->. now split.
  - rewrite Hok in H. discriminate H.
Qed.

Lemma uploadFile_throw_stores_nothing_witness :
  fst (Upload.uploadFile
         {| Upload.user := Some (str "u1");
            Upload.stamp := str "1-x";
            Upload.uploadError := Some (str "Bucket not found");
            Upload.dbError := None;
            Upload.generatedId := str "d1";
            Upload.ingest := healthy (textBlob (str "Hi")) |}
         sampleFile emptyStore) = emptyStore
  /\ ((Upload.user
         {| Upload.user := Some (str "u1");
            Upload.stamp := str "1-x";
            Upload.uploadError := Some (str "Bucket not found");
            Upload.dbError := None;
            Upload.generatedId := str "d1";
            Upload.ingest := healthy (textBlob (str "Hi")) |} = None
       /\ str "Bucket not found" = str "User not authenticated")
      \/ Upload.uploadError
           {| Upload.user := Some (str "u1");
              Upload.stamp := str "1-x";
              Upload.uploadError := Some (str "Bucket not found");
              Upload.dbError := None;
              Upload.generatedId := str "d1";
              Upload.ingest := healthy (textBlob (str "Hi")) |}
         = Some (str "Bucket not found")
      \/ Upload.dbError
           {| Upload.user := Some (str "u1");
              Upload.stamp := str "1-x";
              Upload.uploadError := Some (str "Bucket not found");
              Upload.dbError := None;
              Upload.generatedId := str "d1";
              Upload.ingest := healthy (textBlob (str "Hi")) |}
         = Some (str "Bucket not found")).
Proof.
  apply (uploadFile_throw_stores_nothing _ sampleFile emptyStore
           (str "Bucket not found")).
  reflexivity.
Defined.

Lemma serve_sameFile (env : Ingest.Env) (req : Ingest.HttpRequest)
    (db : Store) :
  Forall2 sameFile (documents db) (documents (fst (Ingest.serve env req db))).
Proof.
  destruct (serve_frame_rows env req db) as (_ & Hdocs & _).
  eapply Forall2_impl; [exact Hdocs|]. now intros d d' [H _].
Qed.

(** X16: with a user, a storage upload and a document insert that succeed,
    [uploadFile] returns the descriptor of the file whatever the ingest
    handler answers and whatever its collaborators do; the store then holds
    one more document, the inserted row, with [title] the file's name and
    [file_name] the generated storage name, and the rows before it keep
    their place and their file columns. *)
Theorem uploadFile_outlives_ingest (env : Upload.Env) (file : Upload.File)
    (db : Store) (userId : jsstring) :
  Upload.user env = Some userId ->
  Upload.uploadError env = None ->
  Upload.dbError env = None ->
  snd (Upload.uploadFile env file db)
  = Ok {| Upload.up_id := Upload.generatedId env;
          Upload.up_name := Upload.file_name file;
          Upload.up_type := Upload.file_type file;
          Upload.up_size := Upload.file_size file;
          Upload.up_path := storagePath env userId file |}
  /\ Forall2 sameFile
       (documents db
        ++ [Upload.newDocument (Upload.generatedId env) userId
              (storageName env file) (storagePath env userId file) file])
       (documents (fst (Upload.uploadFile env file db))).
Proof.
  intros Huser Hup Hdb.
  destruct (uploadFile_result env file db)
    as [(m & _ & [[H _]|[H|H]])|(u & Hu & _ & _ & Hok)]; try congruence.
  rewrite Huser in Hu. injection Hu as <-.
  rewrite Hok. cbn [fst snd]. split; [reflexivity|].
  match goal with
  | |- context [Ingest.serve ?e ?q ?d] =>
      pose proof (serve_sameFile e q d) as Hsame
  end.
  exact Hsame.
Qed.

Lemma uploadFile_outlives_ingest_witness :
  snd (Upload.uploadFile
         {| Upload.user := Some (str "u1");
            Upload.stamp := str "1-x";
            Upload.uploadError := None;
            Upload.dbError := None;
            Upload.generatedId := str "d1";
            Upload.ingest := noDownload |}
         sampleFile emptyStore)
  = Ok {| Upload.up_id := str "d1";
          Upload.up_name := str "notes.txt";
          Upload.up_type := str "text/plain";
          Upload.up_size := 6;
          Upload.up_path := str "u1/1-x.txt" |}
  /\ Forall2 sameFile
       (documents emptyStore
        ++ [Upload.newDocument (str "d1") (str "u1") (str "1-x.txt")
              (str "u1/1-x.txt") sampleFile])
       (documents
          (fst (Upload.uploadFile
                  {| Upload.user := Some (str "u1");
                     Upload.stamp := str "1-x";
                     Upload.uploadError := None;
                     Upload.dbError := None;
                     Upload.generatedId := str "d1";
                     Upload.ingest := noDownload |}
                  sampleFile emptyStore))).
Proof.
  apply (uploadFile_outlives_ingest
           {| Upload.user := Some (str "u1");
              Upload.stamp := str "1-x";
              Upload.uploadError := None;
              Upload.dbError := None;
              Upload.generatedId := str "d1";
              Upload.ingest := noDownload |}
           sampleFile emptyStore (str "u1")).
  - reflexivity.
  - reflexivity.
  - reflexivity.
Defined.

Lemma uploadFile_effect (env : Upload.Env) (file : Upload.File) (db : Store) :
  (exists message, Upload.uploadFile env file db = (db, Throw message))
  \/ (exists db' uploaded,
        Upload.uploadFile env file db = (db', Ok uploaded)
        /\ Upload.up_type uploaded = Upload.file_type file
        /\ Upload.up_size uploaded = Upload.file_size file
        /\ length (documents db') = S (length (documents db))).
Proof.
  destruct (uploadFile_result env file db)
    as [(m & Hm & _)|(u & _ & _ & _ & Hok)]; [left; eauto|].
  right. do 2 eexists. split; [exact Hok|]. repeat split.
  match goal with
  | |- context [Ingest.serve ?e ?q ?d] =>
      rewrite <- (Forall2_length _ _ _ (serve_sameFile e q d))
  end.
  cbn. rewrite length_app. cbn. lia.
Qed.

Lemma fileStep_invariant (db : Store) (uploadedFiles : list Upload.Uploaded)
    (toasts : list Upload.Toast) (fe : Upload.File * Upload.Env) :
  let st' := Upload.fileStep (db, uploadedFiles, toasts) fe in
  (Forall
     (fun u =>
        Upload.isValidType (Upload.up_type u) = true
        /\ (Upload.up_size u <= Upload.maxFileSize)%Z)
     uploadedFiles ->
   Forall
     (fun u =>
        Upload.isValidType (Upload.up_type u) = true
        /\ (Upload.up_size u <= Upload.maxFileSize)%Z)
     (snd (fst st')))
  /\ length (documents (fst (fst st'))) + length uploadedFiles
     = length (documents db) + length (snd (fst st'))
  /\ length (List.filter Upload.destructive (snd st'))
     + length (snd (fst st'))
     = S (length (List.filter Upload.destructive toasts)
          + length uploadedFiles).
Proof.
  destruct fe as [file env]. cbn zeta. unfold Upload.fileStep.
  destruct (Upload.isValidType (Upload.file_type file)) eqn:Hvalid;
    cbn [negb].
  2:{ cbn [fst snd]. rewrite List.filter_app, length_app. cbn.
      repeat split; try lia; auto. }
  destruct (Z.gtb_spec (Upload.file_size file) Upload.maxFileSize)
    as [Hbig|Hsize].
  { cbn [fst snd]. rewrite List.filter_app, length_app. cbn.
    repeat split; try lia; auto. }
  destruct (uploadFile_effect env file db)
    as [[m ->]|(db' & u & -> & Ht & Hs & Hlen)]; cbn [fst snd].
  - rewrite List.filter_app, length_app. cbn. repeat split; try lia; auto.
  - rewrite length_app. cbn. split; [|lia].
    intros H. apply Forall_app. split; [exact H|].
    constructor; [|constructor]. rewrite Ht, Hs. now split.
Qed.

Lemma fileSteps_invariant (files : list (Upload.File * Upload.Env))
    (db : Store) (uploadedFiles : list Upload.Uploaded)
    (toasts : list Upload.Toast) :
  let st' := fold_left Upload.fileStep files (db, uploadedFiles, toasts) in
  (Forall
     (fun u =>
        Upload.isValidType (Upload.up_type u) = true
        /\ (Upload.up_size u <= Upload.maxFileSize)%Z)
     uploadedFiles ->
   Forall
     (fun u =>
        Upload.isValidType (Upload.up_type u) = true
        /\ (Upload.up_size u <= Upload.maxFileSize)%Z)
     (snd (fst st')))
  /\ length (documents (fst (fst st'))) + length uploadedFiles
     = length (documents db) + length (snd (fst st'))
  /\ length (List.filter Upload.destructive (snd st'))
     + length (snd (fst st'))
     = length files
       + (length (List.filter Upload.destructive toasts)
          + length uploadedFiles).
Proof.
  revert db uploadedFiles toasts.
  induction files as [|fe files IH]; intros db uploadedFiles toasts; cbn zeta.
  - cbn. repeat split; try lia; auto.
  - cbn [fold_left length].
    pose proof (fileStep_invariant db uploadedFiles toasts fe) as Hstep.
    cbn zeta in Hstep.
    destruct (Upload.fileStep (db, uploadedFiles, toasts) fe)
      as [[db1 ups1] ts1].
    cbn [fst snd] in Hstep. destruct Hstep as (Hv & Hd & Ht).
    specialize (IH db1 ups1 ts1). cbn zeta in IH.
    destruct IH as (IHv & IHd & IHt).
    repeat split; try lia; auto.
Qed.

(** X17: [handleFileSelect] gives to [onUpload] only files of an accepted
    type and of at most 10 MB; the store gains exactly one document per
    such file; and every file given to it is either among them or reported
    by exactly one destructive toast. *)
Theorem handleFileSelect_accounts_for_files
    (files : list (Upload.File * Upload.Env)) (db : Store) :
  let res := Upload.handleFileSelect (Some files) db in
  Forall
    (fun u =>
       Upload.isValidType (Upload.up_type u) = true
       /\ (Upload.up_size u <= 10 * 1024 * 1024)%Z)
    (uploadedOf res)
  /\ length (documents (fst (fst res)))
     = length (documents db) + length (uploadedOf res)
  /\ length (List.filter Upload.destructive (snd res))
     + length (uploadedOf res)
     = length files.
Proof.
  cbn zeta. unfold Upload.handleFileSelect.
  destruct files as [|fe files].
  { unfold uploadedOf. cbn [fst snd length List.filter].
    repeat split; [constructor|lia]. }
  pose proof (fileSteps_invariant (fe :: files) db [] []) as H.
  cbn zeta in H.
  destruct (fold_left Upload.fileStep (fe :: files) (db, [], []))
    as [[db' ups] ts].
  cbn [fst snd] in H. destruct H as (Hv & Hd & Ht).
  specialize (Hv (List.Forall_nil _)).
  destruct ups as [|u ups]; cbn [length Nat.ltb Nat.leb];
    unfold uploadedOf; cbn [fst snd].
  - repeat split; [constructor|cbn in *; lia|cbn in *; lia].
  - rewrite List.filter_app, length_app. cbn [List.filter Upload.destructive].
    repeat split; [exact Hv|cbn in *; lia|cbn in *; lia].
Qed.

Lemma join_last (sep : jsstring) (parts : list jsstring) :
  parts <> [] ->
  exists pre,
    join sep parts = pre ++ List.last parts []
    /\ (pre = [] \/ exists pre', pre = pre' ++ sep).
Proof.
  induction parts as [|p ps IH]; [contradiction|]. intros _.
  destruct ps as [|q ps].
  - exists []. split; [reflexivity|now left].
  - destruct IH as (pre & Hj & Hpre); [discriminate|].
    rewrite join_cons by discriminate. rewrite Hj.
    exists (p ++ sep ++ pre). split.
    + now rewrite <- !app_assoc.
    + right. destruct Hpre as [->|[pre' ->]].
      * exists p. now rewrite app_nil_r.
      * exists (p ++ sep ++ pre'). now rewrite <- !app_assoc.
Qed.

(** X18: the storage name [uploadFile] builds is the stamp, a dot, and the
    part of the file's name after its last dot; a name without a dot is
    taken whole as the extension. *)
Theorem storageName_extension (env : Upload.Env) (file : Upload.File) :
  exists pre ext,
    Upload.file_name file = pre ++ ext
    /\ storageName env file = Upload.stamp env ++ str "." ++ ext
    /\ ~ In 46%N ext
    /\ (pre = [] \/ exists pre', pre = pre' ++ str ".")
    /\ (~ In 46%N (Upload.file_name file) -> ext = Upload.file_name file).
Proof.
  destruct (splitOn_join 46%N (Upload.file_name file)) as (Hjoin & Hpieces & Hne).
  destruct (join_last [46%N] _ Hne) as (pre & Hj & Hpre).
  rewrite Hjoin in Hj.
  exists pre, (List.last (splitOn 46%N (Upload.file_name file)) []).
  split; [exact Hj|]. split; [reflexivity|]. split; [|split; [exact Hpre|]].
  - rewrite List.Forall_forall in Hpieces. apply Hpieces.
    destruct (List.exists_last Hne) as (l & a & Hl).
    rewrite Hl, List.last_last. apply in_or_app. right. now left.
  - intros Hnodot. destruct Hpre as [->|[pre' ->]]; [now rewrite Hj at 2|].
    exfalso. apply Hnodot. rewrite Hj.
    apply in_or_app. left. apply in_or_app. right. now left.
Qed.

Lemma serve_success_documents (env : Ingest.Env) (req : Ingest.HttpRequest)
    (r : Ingest.IngestRequest) (db : Store) (fileData : Ingest.Blob)
    (text : jsstring) :
  Ingest.method req <> str "OPTIONS" ->
  Ingest.json_body req = Ok r ->
  Ingest.download env (Ingest.filePath r) = Ok fileData ->
  Ingest.extractText fileData (Ingest.fileName r) (Ingest.fileType r)
  = Ok text ->
  Ingest.updateError env = None ->
  documents (fst (Ingest.serve env req db))
  = documents
      (Ingest.patchDocuments (Ingest.documentId r)
         (Ingest.setProcessed text (Ingest.now env)) db).
Proof.
  intros Hmethod Hbody Hdown Htext Hupd.
  rewrite (serve_unfold env req r db Hmethod Hbody), Hdown.
  unfold tryCatch, Ingest.processBlob, bind, lift. rewrite Htext.
  unfold Ingest.updateDocuments. rewrite Hupd. unfold ret at 1.
  unfold Ingest.whenM.
  destruct (0 <? length (Chunker.createTextChunks text 1000))%nat.
  - unfold bind, Ingest.insertChunks.
    destruct (Ingest.chunksError env); reflexivity.
  - reflexivity.
Qed.

(** X19: an upload whose storage upload, insert, download, extraction and
    document update succeed leaves, as the last row of [documents], a row
    with the extracted text as content, with the metadata
    [{processed: true, processed_at, word_count}] in place of the upload
    metadata, with [title] the file's name, [file_name] the storage name and
    the file's type and size; the rows before it are as many as before. *)
Theorem uploadFile_then_processed (env : Upload.Env) (file : Upload.File)
    (db : Store) (userId : jsstring) (fileData : Ingest.Blob)
    (text : jsstring) :
  Upload.user env = Some userId ->
  Upload.uploadError env = None ->
  Upload.dbError env = None ->
  Ingest.download (Upload.ingest env) (storagePath env userId file)
  = Ok fileData ->
  Ingest.extractText fileData (Upload.file_name file) (Upload.file_type file)
  = Ok text ->
  Ingest.updateError (Upload.ingest env) = None ->
  exists older row,
    documents (fst (Upload.uploadFile env file db)) = older ++ [row]
    /\ length older = length (documents db)
    /\ doc_content row = Some text
    /\ doc_metadata row
       = {[ "processed" := JBool true;
            "processed_at" := JStr (Ingest.now (Upload.ingest env));
            "word_count" :=
              JNum (1 + Z.of_nat (countRuns isWhiteSpace text)) ]}
    /\ doc_id row = Upload.generatedId env
    /\ doc_user_id row = userId
    /\ doc_title row = Upload.file_name file
    /\ doc_file_name row = storageName env file
    /\ doc_file_type row = Upload.file_type file
    /\ doc_file_size row = Upload.file_size file.
Proof.
  intros Huser Hup Hdb Hdown Htext Hupd.
  destruct (uploadFile_result env file db)
    as [(m & _ & [[H _]|[H|H]])|(u & Hu & _ & _ & Hok)]; try congruence.
  rewrite Huser in Hu. injection Hu as <-.
  rewrite Hok. cbn [fst].
  erewrite serve_success_documents;
    [|vm_compute; discriminate|reflexivity|exact Hdown|exact Htext|exact Hupd].
  cbn [Ingest.patchDocuments documents Upload.insertDocument fst
       Ingest.documentId].
  rewrite List.map_app. cbn [List.map doc_id Upload.newDocument].
  rewrite bool_decide_eq_true_2 by reflexivity.
  do 2 eexists. split; [reflexivity|]. split; [now rewrite List.length_map|].
  cbn [Ingest.setProcessed doc_content doc_metadata doc_id doc_user_id
       doc_title doc_file_name doc_file_type doc_file_size].
  rewrite length_splitRuns, Nat2Z.inj_succ, <- Z.add_1_l.
  repeat split.
Qed.

Lemma uploadFile_then_processed_witness :
  exists older row,
    documents
      (fst (Upload.uploadFile
              {| Upload.user := Some (str "u1");
                 Upload.stamp := str "1-x";
                 Upload.uploadError := None;
                 Upload.dbError := None;
                 Upload.generatedId := str "d1";
                 Upload.ingest := healthy (textBlob (str "Hi. There")) |}
              sampleFile emptyStore))
    = older ++ [row]
    /\ length older = length (documents emptyStore)
    /\ doc_content row = Some (str "Hi. There")
    /\ doc_metadata row
       = {[ "processed" := JBool true;
            "processed_at" := JStr (str "2024-01-01T00:00:00.000Z");
            "word_count" :=
              JNum (1 + Z.of_nat (countRuns isWhiteSpace (str "Hi. There"))) ]}
    /\ doc_id row = str "d1"
    /\ doc_user_id row = str "u1"
    /\ doc_title row = str "notes.txt"
    /\ doc_file_name row = str "1-x.txt"
    /\ doc_file_type row = str "text/plain"
    /\ doc_file_size row = 6%Z.
Proof.
  apply (uploadFile_then_processed
           {| Upload.user := Some (str "u1");
              Upload.stamp := str "1-x";
              Upload.uploadError := None;
              Upload.dbError := None;
              Upload.generatedId := str "d1";
              Upload.ingest := healthy (textBlob (str "Hi. There")) |}
           sampleFile emptyStore (str "u1") (textBlob (str "Hi. There"))
           (str "Hi. There")).
  - reflexivity.
  - reflexivity.
  - reflexivity.
  - reflexivity.
  - reflexivity.
  - reflexivity.
Defined.

(** * Further properties of the chat operation *)

Section HistoryOrder.

Lemma insertByCreatedAt_perm (m : Message) (l : list Message) :
  Permutation (Chat.insertByCreatedAt m l) (m :: l).
Proof.
  induction l as [|x l IH]; [reflexivity|]. cbn [Chat.insertByCreatedAt].
  destruct (_ <=? _)%Z; [reflexivity|].
  rewrite IH. apply perm_swap.
Qed.

Lemma orderByCreatedAt_perm (rows : list Message) :
  Permutation (Chat.orderByCreatedAt rows) rows.
Proof.
  induction rows as [|m rows IH]; [reflexivity|].
  cbn [Chat.orderByCreatedAt fold_right].
  rewrite insertByCreatedAt_perm. now constructor.
Qed.

Lemma insertByCreatedAt_sorted (m : Message) (l : list Message) :
  StronglySorted createdBefore l ->
  StronglySorted createdBefore (Chat.insertByCreatedAt m l).
Proof.
  induction 1 as [|x l Hl IH Hx]; cbn [Chat.insertByCreatedAt].
  - repeat constructor.
  - destruct (Z.leb_spec (msg_created_at m) (msg_created_at x)) as [Hle|Hgt].
    + constructor; [now constructor|].
      constructor; [exact Hle|].
      eapply Forall_impl; [exact Hx|]. unfold createdBefore. intros; lia.
    + constructor; [exact IH|].
      rewrite insertByCreatedAt_perm.
      constructor; [unfold createdBefore; lia|exact Hx].
Qed.

Lemma orderByCreatedAt_sorted (rows : list Message) :
  StronglySorted createdBefore (Chat.orderByCreatedAt rows).
Proof.
  induction rows as [|m rows IH]; [constructor|].
  cbn [Chat.orderByCreatedAt fold_right]. now apply insertByCreatedAt_sorted.
Qed.

Lemma In_firstn {A} (x : A) (n : nat) (l : list A) :
  In x (firstn n l) -> In x l.
Proof.
  revert n. induction l as [|a l IH]; intros [|n]; cbn; try tauto.
  intros [->|H]; [now left|right; eauto].
Qed.

Lemma firstn_sorted (n : nat) (l : list Message) :
  StronglySorted createdBefore l ->
  StronglySorted createdBefore (firstn n l).
Proof.
  intros H. revert n. induction H as [|x l Hl IH Hx]; intros [|n];
    cbn [firstn]; try constructor; [apply IH|].
  rewrite List.Forall_forall in Hx |- *. intros y Hy. apply Hx.
  eapply In_firstn; exact Hy.
Qed.

End HistoryOrder.

(** X20: the history rows are at most 10 rows of [messages], all of the
    requested conversation, in ascending order of [created_at]. *)
Theorem fetchMessages_sorted_rows (db : Store) (conversationId : jsstring) :
  length (Chat.fetchMessages db conversationId) <= 10
  /\ Forall
       (fun m =>
          In m (messages db) /\ msg_conversation_id m = conversationId)
       (Chat.fetchMessages db conversationId)
  /\ StronglySorted
       (fun a b => (msg_created_at a <= msg_created_at b)%Z)
       (Chat.fetchMessages db conversationId).
Proof.
  unfold Chat.fetchMessages. fold (conversationRows db conversationId).
  split; [apply List.firstn_le_length|]. split.
  - apply List.Forall_forall. intros m Hm.
    apply In_firstn in Hm.
    apply (Permutation_in _ (orderByCreatedAt_perm _)) in Hm.
    apply List.filter_In in Hm as [Hin Hid].
    split; [exact Hin|]. now apply bool_decide_eq_true_1 in Hid.
  - apply firstn_sorted, orderByCreatedAt_sorted.
Qed.



Section Selection.

Variable toLowerCase : jsstring -> jsstring.

Lemma fetchDocuments_rows (db : Store) (uid : jsstring) :
  length (Chat.fetchDocuments db uid) <= 5
  /\ Forall
       (fun doc =>
          In doc (documents db) /\ doc_user_id doc = uid
          /\ doc_content doc <> None)
       (Chat.fetchDocuments db uid).
Proof.
  unfold Chat.fetchDocuments. split; [apply List.firstn_le_length|].
  apply List.Forall_forall. intros doc Hdoc. apply In_firstn in Hdoc.
  apply List.filter_In in Hdoc as [Hin Hcond].
  apply andb_true_iff in Hcond as [Hu Hc].
  apply bool_decide_eq_true_1 in Hu.
  split; [exact Hin|]. split; [exact Hu|].
  now destruct (doc_content doc).
Qed.

Lemma length_filter_le {A} (f : A -> bool) (l : list A) :
  length (List.filter f l) <= length l.
Proof.
  induction l as [|a l IH]; cbn; [lia|]. destruct (f a); cbn; lia.
Qed.

Lemma join_nonempty (sep first : jsstring) (rest : list jsstring) :
  first <> [] -> join sep (first :: rest) <> [].
Proof.
  intros Hne. destruct first as [|c first]; [contradiction|].
  destruct rest; discriminate.
Qed.

End Selection.

(** X22: the documents selected for a chat request are at most 5 rows of
    [documents], each owned by the authenticated user, with content that is
    neither null nor empty, and each matching the question; without an
    authenticated user none is selected. *)
Theorem selectedDocs_owned (toLowerCase : jsstring -> jsstring)
    (env : Chat.Env) (req : Chat.ChatRequest) (db : Store) :
  length (Chat.selectedDocs toLowerCase env req db) <= 5
  /\ Forall
       (fun doc =>
          In doc (documents db)
          /\ Chat.userId env = Some (doc_user_id doc)
          /\ (exists c, doc_content doc = Some c /\ c <> [])
          /\ Chat.isRelevant toLowerCase (Chat.message req) doc = true)
       (Chat.selectedDocs toLowerCase env req db)
  /\ (Chat.userId env = None ->
      Chat.selectedDocs toLowerCase env req db = []).
Proof.
  unfold Chat.selectedDocs.
  destruct (Chat.userId env) as [uid|].
  2:{ split; [cbn; lia|]. split; [apply List.Forall_nil|reflexivity]. }
  destruct (truthy uid).
  2:{ split; [cbn; lia|]. split; [apply List.Forall_nil|discriminate]. }
  destruct (fetchDocuments_rows db uid) as [Hlen Hrows].
  unfold Chat.relevantDocs. split; [|split; [|discriminate]].
  - pose proof (length_filter_le
                  (Chat.isRelevant toLowerCase (Chat.message req))
                  (Chat.fetchDocuments db uid)). lia.
  - apply List.Forall_forall. intros doc Hdoc.
    apply List.filter_In in Hdoc as [Hin Hrel].
    rewrite List.Forall_forall in Hrows.
    destruct (Hrows doc Hin) as (Hdb & Hu & _).
    split; [exact Hdb|]. split; [now rewrite Hu|]. split; [|exact Hrel].
    unfold Chat.isRelevant in Hrel.
    destruct (doc_content doc) as [c|]; [|discriminate].
    exists c. split; [reflexivity|]. now destruct c.
Qed.

Lemma documentContext_flag (docs : list Document) :
  (0 <? length (Chat.documentContext docs))%nat
  = (0 <? length (Chat.sources docs))%nat.
Proof.
  destruct docs as [|doc docs]; [reflexivity|].
  unfold Chat.documentContext, Chat.sources. cbn [List.map length].
  match goal with
  | |- (0 <? length (join ?sep (?first :: ?rest)))%nat = _ =>
      pose proof (join_nonempty sep first rest) as Hne;
      destruct (join sep (first :: rest)); [|reflexivity]
  end.
  exfalso. apply Hne; [discriminate|reflexivity].
Qed.

(** X23: [has_document_context] and [sources] of a successful answer agree:
    the flag is true exactly when at least one source is listed, and the
    sources are the selected documents, one entry each. *)
Theorem answer_context_flag (toLowerCase : jsstring -> jsstring)
    (env : Chat.Env) (req : Chat.ChatRequest) (db : Store)
    (aiResponse : jsstring) :
  Chat.gemini env (Chat.promptOf toLowerCase env req db)
  = Chat.Completion aiResponse ->
  exists sources conversation,
    Chat.answer toLowerCase env req db
    = {| status := 200;
         headers := jsonHeaders;
         body :=
           Some [("response", JStr aiResponse);
                 ("metadata",
                  JObj [("sources", JArr sources);
                        ("has_document_context",
                         JBool (0 <? length sources)%nat);
                        ("conversation_id", conversation)])]%string |}
    /\ length sources
       = length (Chat.selectedDocs toLowerCase env req db).
Proof.
  intros Hgem. unfold Chat.answer. rewrite Hgem.
  exists (Chat.sources (Chat.selectedDocs toLowerCase env req db)).
  eexists. split; [|apply List.length_map].
  now rewrite documentContext_flag.
Qed.

Lemma answer_context_flag_witness :
  exists sources conversation,
    Chat.answer asciiToLowerCase
      {| Chat.userId := Some (str "u1");
         Chat.gemini := fun _ => Chat.Completion (str "It is a process.") |}
      {| Chat.message := str "what is photosynthesis";
         Chat.conversationId := None |}
      {| documents := [docWith (str "Plants use Photosynthesis.")];
         document_chunks := [];
         messages := [] |}
    = {| status := 200;
         headers := jsonHeaders;
         body :=
           Some [("response", JStr (str "It is a process."));
                 ("metadata",
                  JObj [("sources", JArr sources);
                        ("has_document_context",
                         JBool (0 <? length sources)%nat);
                        ("conversation_id", conversation)])]%string |}
    /\ length sources
       = length
           (Chat.selectedDocs asciiToLowerCase
              {| Chat.userId := Some (str "u1");
                 Chat.gemini :=
                   fun _ => Chat.Completion (str "It is a process.") |}
              {| Chat.message := str "what is photosynthesis";
                 Chat.conversationId := None |}
              {| documents := [docWith (str "Plants use Photosynthesis.")];
                 document_chunks := [];
                 messages := [] |}).
Proof.
  apply (answer_context_flag asciiToLowerCase
           {| Chat.userId := Some (str "u1");
              Chat.gemini := fun _ => Chat.Completion (str "It is a process.") |}
           {| Chat.message := str "what is photosynthesis";
              Chat.conversationId := None |}
           {| documents := [docWith (str "Plants use Photosynthesis.")];
              document_chunks := [];
              messages := [] |}
           (str "It is a process.")).
  reflexivity.
Defined.

(** X24: a question whose space-delimited tokens, once lower-cased, are all
    of at most 3 characters selects no document, whatever the documents
    hold, and gets the prompt without document context. *)
Theorem short_question_selects_nothing (toLowerCase : jsstring -> jsstring)
    (env : Chat.Env) (req : Chat.ChatRequest) (db : Store) :
  Forall (fun word => length word <= 3)
    (splitOn space (toLowerCase (Chat.message req))) ->
  Chat.selectedDocs toLowerCase env req db = []
  /\ Chat.promptOf toLowerCase env req db
     = Chat.buildPrompt []
         (Chat.conversationHistory db (Chat.conversationId req))
         (Chat.message req).
Proof.
  intros Hshort.
  assert (Hkeys : Chat.keywords toLowerCase (Chat.message req) = []).
  { unfold Chat.keywords.
    induction Hshort as [|w ws Hw _ IH]; [reflexivity|].
    cbn [List.filter]. apply Nat.ltb_ge in Hw. now rewrite Hw. }
  assert (Hnone : Chat.selectedDocs toLowerCase env req db = []).
  { unfold Chat.selectedDocs.
    destruct (Chat.userId env) as [uid|]; [|reflexivity].
    destruct (truthy uid); [|reflexivity].
    unfold Chat.relevantDocs.
    induction (Chat.fetchDocuments db uid) as [|doc docs IH]; [reflexivity|].
    cbn [List.filter]. unfold Chat.isRelevant at 1. rewrite Hkeys.
    destruct (doc_content doc) as [c|]; [|exact IH].
    destruct (isEmpty c); exact IH. }
  split; [exact Hnone|]. unfold Chat.promptOf. now rewrite Hnone.
Qed.

Lemma short_question_selects_nothing_witness :
  Chat.selectedDocs asciiToLowerCase
    {| Chat.userId := Some (str "u1");
       Chat.gemini := fun _ => Chat.InvalidReply |}
    {| Chat.message := str "who is he"; Chat.conversationId := None |}
    {| documents := [docWith (str "who is he")];
       document_chunks := [];
       messages := [] |} = []
  /\ Chat.promptOf asciiToLowerCase
       {| Chat.userId := Some (str "u1");
          Chat.gemini := fun _ => Chat.InvalidReply |}
       {| Chat.message := str "who is he"; Chat.conversationId := None |}
       {| documents := [docWith (str "who is he")];
          document_chunks := [];
          messages := [] |}
     = Chat.buildPrompt []
         (Chat.conversationHistory
            {| documents := [docWith (str "who is he")];
               document_chunks := [];
               messages := [] |} None)
         (str "who is he").
Proof.
  apply (short_question_selects_nothing asciiToLowerCase
           {| Chat.userId := Some (str "u1");
              Chat.gemini := fun _ => Chat.InvalidReply |}
           {| Chat.message := str "who is he"; Chat.conversationId := None |}
           {| documents := [docWith (str "who is he")];
              document_chunks := [];
              messages := [] |}).
  vm_compute. repeat constructor.
Defined.

Section PromptParts.

Lemma substring_here (x post : jsstring) : substring x (x ++ post).
Proof. now exists [], post. Qed.

Lemma substring_split (x y post : jsstring) : substring (x ++ y) (x ++ y ++ post).
Proof. exists [], post. now rewrite <- app_assoc. Qed.

Lemma substring_split3 (x y z post : jsstring) :
  substring (x ++ y ++ z) (x ++ y ++ z ++ post).
Proof. exists [], post. now rewrite <- !app_assoc. Qed.

Lemma substring_after (x pre s : jsstring) :
  substring x s -> substring x (pre ++ s).
Proof.
  intros (p & q & ->). exists (pre ++ p), q. now rewrite <- app_assoc.
Qed.

Lemma substring_before (x s post : jsstring) :
  substring x s -> substring x (s ++ post).
Proof.
  intros (p & q & ->). exists p, (q ++ post). now rewrite <- !app_assoc.
Qed.

End PromptParts.

Ltac find_substring :=
  first
    [ apply substring_split3
    | apply substring_split
    | apply substring_here
    | solve [apply substring_before; find_substring]
    | solve [apply substring_after; find_substring] ].

(** X25: the prompt always holds the line ["USER QUESTION: <message>"],
    holds the history whenever there is one, and holds the block
    ["DOCUMENTS:" newline <context>] whenever there is a document context. *)
Theorem prompt_embeds_parts (documentContext conversationHistory
    message : jsstring) :
  substring (str "USER QUESTION: " ++ message)
    (Chat.buildPrompt documentContext conversationHistory message)
  /\ (conversationHistory <> [] ->
      substring conversationHistory
        (Chat.buildPrompt documentContext conversationHistory message))
  /\ (documentContext <> [] ->
      substring (str "DOCUMENTS:" ++ nl ++ documentContext)
        (Chat.buildPrompt documentContext conversationHistory message)).
Proof.
  unfold Chat.buildPrompt.
  destruct documentContext as [|d ctx], conversationHistory as [|h hist];
    cbn [truthy isEmpty negb]; (split; [|split]);
    try (intros H; now contradict H); try intros _; find_substring.
Qed.

(** X26: the document context grows by at most the title, 1000 characters
    of content and 30 characters of framing per selected document. *)
Theorem documentContext_bounded (docs : list Document) :
  length (Chat.documentContext docs)
  <= list_sum (List.map (fun doc => length (doc_title doc) + 1030) docs).
Proof.
  unfold Chat.documentContext, list_sum.
  induction docs as [|doc docs IH]; [cbn; lia|].
  cbn [List.map fold_right].
  assert (Hentry :
    length (str "Document: " ++ doc_title doc ++ nl ++ str "Content: "
            ++ firstn 1000 (Chat.contentOf doc) ++ str "...")
    <= length (doc_title doc) + 1023).
  { rewrite !length_app.
    pose proof (List.firstn_le_length 1000 (Chat.contentOf doc)).
    change (length (str "Document: ")) with 10.
    change (length nl) with 1.
    change (length (str "Content: ")) with 9.
    change (length (str "...")) with 3.
    lia. }
  set (entry := str "Document: " ++ _) in *. clearbody entry.
  destruct docs as [|doc' docs].
  - cbn [List.map join fold_right]. lia.
  - rewrite join_cons by discriminate.
    set (others := join _ _) in *. clearbody others.
    rewrite !length_app.
    change (length nl) with 1. change (length (str "---")) with 3.
    lia.
Qed.

Section NewestMessage.



End NewestMessage.




Lemma serve_success_chunks (env : Ingest.Env) (req : Ingest.HttpRequest)
    (r : Ingest.IngestRequest) (db : Store) (fileData : Ingest.Blob)
    (text : jsstring) :
  Ingest.method req <> str "OPTIONS" ->
  Ingest.json_body req = Ok r ->
  Ingest.download env (Ingest.filePath r) = Ok fileData ->
  Ingest.extractText fileData (Ingest.fileName r) (Ingest.fileType r)
  = Ok text ->
  Ingest.updateError env = None ->
  Ingest.chunksError env = None ->
  document_chunks (fst (Ingest.serve env req db))
  = document_chunks db
    ++ Ingest.chunksData (Ingest.documentId r) 0
         (Chunker.createTextChunks text 1000).
Proof.
  intros Hmethod Hbody Hdown Htext Hupd Hch.
  rewrite (serve_unfold env req r db Hmethod Hbody), Hdown.
  unfold tryCatch, Ingest.processBlob, bind, lift. rewrite Htext.
  unfold Ingest.updateDocuments. rewrite Hupd. unfold ret at 1.
  unfold Ingest.whenM.
  destruct (0 <? length (Chunker.createTextChunks text 1000))%nat eqn:Hlen.
  - unfold bind, Ingest.insertChunks. rewrite Hch. reflexivity.
  - apply Nat.ltb_ge in Hlen.
    destruct (Chunker.createTextChunks text 1000); [|simpl in Hlen; lia].
    cbn. now rewrite app_nil_r.
Qed.

(** X28: a second successful ingest of the same file under the same
    request, with its own collaborators and its own clock reading, leaves
    the content and every metadata key other than [processed_at] of the
    named document as the first ingest left them, sets [processed_at] to
    its own reading, leaves the other documents untouched, and stores the
    chunks of the text a second time, numbered again from 0. *)
Theorem reingest_repeats_chunks (env1 env2 : Ingest.Env)
    (req : Ingest.HttpRequest) (r : Ingest.IngestRequest) (db : Store)
    (fileData : Ingest.Blob) (text : jsstring) :
  Ingest.method req <> str "OPTIONS" ->
  Ingest.json_body req = Ok r ->
  Ingest.extractText fileData (Ingest.fileName r) (Ingest.fileType r)
  = Ok text ->
  Ingest.download env1 (Ingest.filePath r) = Ok fileData ->
  Ingest.updateError env1 = None ->
  Ingest.chunksError env1 = None ->
  Ingest.download env2 (Ingest.filePath r) = Ok fileData ->
  Ingest.updateError env2 = None ->
  Ingest.chunksError env2 = None ->
  onDocument (Ingest.documentId r)
    (fun d1 d2 =>
       doc_content d1 = Some text
       /\ doc_content d2 = Some text
       /\ sameFile d1 d2
       /\ doc_metadata d2 !! "processed_at" = Some (JStr (Ingest.now env2))
       /\ forall key : string,
            key <> "processed_at" ->
            doc_metadata d2 !! key = doc_metadata d1 !! key)
    (fst (Ingest.serve env1 req db))
    (fst (Ingest.serve env2 req (fst (Ingest.serve env1 req db))))
  /\ exists rows1 rows2,
       document_chunks
         (fst (Ingest.serve env2 req (fst (Ingest.serve env1 req db))))
       = document_chunks db ++ rows1 ++ rows2
       /\ List.map chunk_content rows1 = Chunker.createTextChunks text 1000
       /\ List.map chunk_content rows2 = Chunker.createTextChunks text 1000
       /\ List.map (fun c => chunk_metadata c !! "chunk_index") rows1
          = ordinals (length (Chunker.createTextChunks text 1000))
       /\ List.map (fun c => chunk_metadata c !! "chunk_index") rows2
          = ordinals (length (Chunker.createTextChunks text 1000)).
Proof.
  intros Hmethod Hbody Htext Hdown1 Hupd1 Hch1 Hdown2 Hupd2 Hch2. split.
  - unfold onDocument.
    rewrite (serve_success_documents env2 req r _ fileData text) by assumption.
    cbn [Ingest.patchDocuments documents].
    rewrite (serve_success_documents env1 req r db fileData text) by assumption.
    cbn [Ingest.patchDocuments documents].
    induction (documents db) as [|d0 l IH]; [constructor|].
    cbn [List.map]. constructor; [|exact IH].
    destruct (bool_decide_reflect (doc_id d0 = Ingest.documentId r))
      as [Hid|Hid].
    + cbn [Ingest.setProcessed doc_id].
      rewrite bool_decide_eq_true_2 by exact Hid.
      cbn [doc_content doc_metadata].
      split; [reflexivity|]. split; [reflexivity|].
      split; [repeat split|]. split; [reflexivity|].
      intros key Hkey.
      destruct (decide (key = "processed")) as [->|Hp]; [reflexivity|].
      unfold Ingest.setProcessed. cbn [doc_metadata].
      rewrite !(lookup_insert_ne _ "processed") by congruence.
      rewrite !(lookup_insert_ne _ "processed_at") by congruence.
      reflexivity.
    + now rewrite bool_decide_eq_false_2 by exact Hid.
  - rewrite (serve_success_chunks env2 req r _ fileData text) by assumption.
    rewrite (serve_success_chunks env1 req r db fileData text) by assumption.
    destruct (chunksData_contents (Ingest.documentId r)
                (Chunker.createTextChunks text 1000) 0) as [Hcont _].
    pose proof (chunksData_indices (Ingest.documentId r)
                  (Chunker.createTextChunks text 1000) 0) as Hidx.
    do 2 eexists. split; [now rewrite <- app_assoc|].
    repeat split; assumption.
Qed.

Lemma reingest_repeats_chunks_witness :
  onDocument (str "d1")
    (fun d1 d2 =>
       doc_content d1 = Some (str "Hi")
       /\ doc_content d2 = Some (str "Hi")
       /\ sameFile d1 d2
       /\ doc_metadata d2 !! "processed_at"
          = Some (JStr (str "2024-01-02T00:00:00.000Z"))
       /\ forall key : string,
            key <> "processed_at" ->
            doc_metadata d2 !! key = doc_metadata d1 !! key)
    (fst (Ingest.serve (healthy (textBlob (str "Hi")))
            (post (sampleRequest (str "text/plain")))
            (run [sampleUpload] emptyStore)))
    (fst (Ingest.serve (laterClock (textBlob (str "Hi")))
            (post (sampleRequest (str "text/plain")))
            (fst (Ingest.serve (healthy (textBlob (str "Hi")))
                    (post (sampleRequest (str "text/plain")))
                    (run [sampleUpload] emptyStore)))))
  /\ exists rows1 rows2,
       document_chunks
         (fst (Ingest.serve (laterClock (textBlob (str "Hi")))
                 (post (sampleRequest (str "text/plain")))
                 (fst (Ingest.serve (healthy (textBlob (str "Hi")))
                         (post (sampleRequest (str "text/plain")))
                         (run [sampleUpload] emptyStore)))))
       = document_chunks (run [sampleUpload] emptyStore) ++ rows1 ++ rows2
       /\ List.map chunk_content rows1
          = Chunker.createTextChunks (str "Hi") 1000
       /\ List.map chunk_content rows2
          = Chunker.createTextChunks (str "Hi") 1000
       /\ List.map (fun c => chunk_metadata c !! "chunk_index") rows1
          = ordinals (length (Chunker.createTextChunks (str "Hi") 1000))
       /\ List.map (fun c => chunk_metadata c !! "chunk_index") rows2
          = ordinals (length (Chunker.createTextChunks (str "Hi") 1000)).
Proof.
  apply (reingest_repeats_chunks (healthy (textBlob (str "Hi")))
           (laterClock (textBlob (str "Hi")))
           (post (sampleRequest (str "text/plain")))
           (sampleRequest (str "text/plain"))
           (run [sampleUpload] emptyStore) (textBlob (str "Hi")) (str "Hi")).
  - vm_compute. discriminate.
  - reflexivity.
  - reflexivity.
  - reflexivity.
  - reflexivity.
  - reflexivity.
  - reflexivity.
  - reflexivity.
  - reflexivity.
Defined.

(** X29: no invocation of the ingest handler takes content away: a
    document that has content before the invocation has content after it,
    whatever path the invocation takes. *)
Theorem serve_keeps_content (env : Ingest.Env) (req : Ingest.HttpRequest)
    (db : Store) :
  Forall2
    (fun d d' => doc_content d <> None -> doc_content d' <> None)
    (documents db) (documents (fst (Ingest.serve env req db))).
Proof.
  destruct (serve_store env req db) as [(patch & -> & Hpatch) _].
  induction (documents db) as [|d l IH]; [constructor|].
  cbn [List.map]. constructor; [|exact IH].
  destruct (Hpatch d) as [->|[(t & a & ->)|(m & a & ->)]].
  - auto.
  - intros _. discriminate.
  - auto.
Qed.

(** X30: a message stored in one conversation never shows in the history of
    another: appending it leaves the history text of every other
    conversation as it was. *)
Theorem history_ignores_other_conversations (db : Store) (m : Message)
    (conversationId : jsstring) :
  msg_conversation_id m <> conversationId ->
  Chat.conversationHistory (withMessage db m) (Some conversationId)
  = Chat.conversationHistory db (Some conversationId).
Proof.
  intros Hother. unfold Chat.conversationHistory, Chat.fetchMessages.
  cbn [withMessage messages]. rewrite List.filter_app. cbn [List.filter].
  rewrite bool_decide_eq_false_2 by exact Hother. now rewrite app_nil_r.
Qed.

Lemma history_ignores_other_conversations_witness :
  Chat.conversationHistory
    (withMessage elevenMessages
       {| msg_conversation_id := str "c2";
          msg_role := str "user";
          msg_content := str "unrelated";
          msg_created_at := 0 |})
    (Some (str "c1"))
  = Chat.conversationHistory elevenMessages (Some (str "c1")).
Proof.
  apply (history_ignores_other_conversations elevenMessages
           {| msg_conversation_id := str "c2";
              msg_role := str "user";
              msg_content := str "unrelated";
              msg_created_at := 0 |}
           (str "c1")).
  vm_compute. discriminate.
Defined.
